(** * HX711 load-cell ADC driver: a shallow embedding of hx711.py and
    emulated_hx711.py, and the properties of their aggregation, calibration
    and gain logic.

    Conventions of the embedding.
    - Python [int] is [Z].  A Python number that may be a [float] (the result
      of [/], an offset, a reference unit) is a rational [Q]: true division is
      modelled by the exact quotient, so rounding of the binary float is not
      represented.
    - A method of the class is a function of the object state in the monad
      [M], whose outcomes are a normal return, a raised exception (the state
      mutated so far is kept, as in Python) and [Blocked] for a call that
      never returns on the recorded input.
    - [time.sleep] has no effect on the modelled state. *)

From Stdlib Require Import ZArith QArith Qround List Bool String Ascii Lia.
From Stdlib Require Import Sorting.Permutation Sorting.Sorted.
Import ListNotations.

Local Open Scope Z_scope.

(** ** Outcomes and the state-and-exception monad *)

Inductive exn : Type :=
| ValueError
| ZeroDivisionError
| IndexError.

Inductive result (S A : Type) : Type :=
| Ok (a : A) (s : S)
| Raise (e : exn) (s : S)
| Blocked.

Arguments Ok {S A} a s.
Arguments Raise {S A} e s.
Arguments Blocked {S A}.

Definition M (S A : Type) : Type := S -> result S A.

Definition ret {S A} (a : A) : M S A := fun s => Ok a s.

Definition bind {S A B} (m : M S A) (f : A -> M S B) : M S B :=
  fun s =>
    match m s with
    | Ok a s' => f a s'
    | Raise e s' => Raise e s'
    | Blocked => Blocked
    end.

Definition raise {S A} (e : exn) : M S A := fun s => Raise e s.

Definition gets {S A} (f : S -> A) : M S A := fun s => Ok (f s) s.

Definition modify {S} (f : S -> S) : M S unit := fun s => Ok tt (f s).

Declare Scope py_scope.
Delimit Scope py_scope with py.

Notation "x <- c1 ;; c2" := (bind c1 (fun x => c2))
  (at level 100, c1 at next level, right associativity) : py_scope.
Notation "c1 ;; c2" := (bind c1 (fun _ => c2))
  (at level 100, right associativity) : py_scope.

Local Open Scope py_scope.

(** ** Python built-ins used by the drivers *)

(** [int(x)] on a float: truncation toward zero. *)
Definition py_int (q : Q) : Z := Z.quot (Qnum q) (Zpos (Qden q)).

(** [sum(l)]: left-to-right accumulation starting from 0. *)
Definition py_sum (l : list Z) : Z := fold_left Z.add l 0.

(** [len(l)]. *)
Definition len {A} (l : list A) : Z := Z.of_nat (List.length l).

(** One slice bound, as Python normalises it against the length [n]:
    a negative bound counts from the end, and everything is clamped to
    [0..n]. *)
Definition slice_bound (n i : Z) : Z :=
  if i <? 0 then Z.max (i + n) 0 else Z.min i n.

(** [l[i:j]]. *)
Definition py_slice {A} (l : list A) (i j : Z) : list A :=
  let start := slice_bound (len l) i in
  let stop := slice_bound (len l) j in
  firstn (Z.to_nat (stop - start)) (skipn (Z.to_nat start) l).

(** [l[i]]: a negative index counts from the end; out of range is
    [IndexError]. *)
Definition py_index {S A} (l : list A) (i : Z) : M S A :=
  let k := if i <? 0 then i + len l else i in
  if k <? 0 then raise IndexError
  else match nth_error l (Z.to_nat k) with
       | Some a => ret a
       | None => raise IndexError
       end.

(** [a / b] on numbers: [ZeroDivisionError] on a zero divisor. *)
Definition py_truediv {S} (a b : Q) : M S Q :=
  if Qeq_bool b 0 then raise ZeroDivisionError else ret (a / b)%Q.

(** [list.sort()] on integers: ascending order. *)
Fixpoint insert_sorted (x : Z) (l : list Z) : list Z :=
  match l with
  | [] => [x]
  | y :: l' => if x <=? y then x :: l else y :: insert_sorted x l'
  end.

Fixpoint py_sort (l : list Z) : list Z :=
  match l with
  | [] => []
  | x :: l' => insert_sorted x (py_sort l')
  end.

(** [str.upper()] on an ASCII string. *)
Definition upper_ascii (c : ascii) : ascii :=
  let n := nat_of_ascii c in
  if ((97 <=? n)%nat && (n <=? 122)%nat)%bool then ascii_of_nat (n - 32) else c.

Fixpoint py_upper (s : string) : string :=
  match s with
  | EmptyString => EmptyString
  | String c s' => String (upper_ascii c) (py_upper s')
  end.

(** [s in allowed] for a list of strings. *)
Definition str_in (s : string) (allowed : list string) : bool :=
  existsb (String.eqb s) allowed.

(** The state a call leaves behind, when it comes back at all. *)
Definition final {S A} (r : result S A) : option S :=
  match r with
  | Ok _ s | Raise _ s => Some s
  | Blocked => None
  end.

(** [m] never changes the observation [f] of the state, whether it returns
    or raises. *)
Definition keeps {S A T} (f : S -> T) (m : M S A) : Prop :=
  forall s s', final (m s) = Some s' -> f s' = f s.

(** [for _ in range(n): body], with the loop variable unused. *)
Fixpoint repeat_m {S} (n : nat) (body : M S unit) : M S unit :=
  match n with
  | O => ret tt
  | S k => body ;; repeat_m k body
  end.

(** [for _ in range(n): value_list.append(read())] (also written
    [value_list += [read()]]), started with [value_list]. *)
Fixpoint collect {S} (read : M S Z) (n : nat) (value_list : list Z)
  : M S (list Z) :=
  match n with
  | O => ret value_list
  | S k => v <- read ;; collect read k (value_list ++ [v])
  end.

(** [for _ in range(n): values += read()], started with [values]. *)
Fixpoint accumulate {S} (read : M S Z) (n : nat) (values : Z) : M S Z :=
  match n with
  | O => ret values
  | S k => v <- read ;; accumulate read k (values + v)
  end.

(** An argument that Python does not constrain to be a string. *)
Inductive pyarg : Type :=
| PStr (s : string)
| PInt (z : Z)
| PNone.

(** Lines printed on standard output. *)
Inductive printed : Type :=
| PrBytes (data_bytes : list Z)
| PrTwos (twos_complement_value : Z)
| PrTare (channel : string) (value : Q)
| PrTimesClamped
| PrBadByteFormat (byte_format : pyarg)
| PrBadBitFormat (bit_format : pyarg)
| PrZeroReferenceUnit
| PrInjecting (sample_count : Z) (sample : Q).

(** 24-bit two's complement decoding (the same method in both classes). *)
Definition convert_from_twos_complement_24_bit (inputValue : Z) : Z :=
  - (Z.land inputValue 0x800000) + Z.land inputValue 0x7fffff.

(** ** hx711.py: the hardware-backed driver *)

Module Hw.

(** The object and the two lines it drives.  [dout_levels] is the recording
    of the DOUT line: the levels that the successive [GPIO.input(self.dout)]
    calls observe; a call made after the recording ends never returns.
    [sck_levels] collects the levels written to PD_SCK and [stdout] the lines
    printed, latest first.  [read_lock] is [true] while the lock is held. *)
Record HX711 : Type := mk {
  pd_sck : Z;
  dout : Z;
  read_lock : bool;
  gain : Z;
  reference_unit : Q;
  reference_unit_b : Q;
  offset : Q;
  offset_b : Q;
  last_val : Z;
  debug_printing : bool;
  byte_format : string;
  bit_format : string;
  dout_levels : list bool;
  sck_levels : list bool;
  stdout : list printed
}.

Definition with_read_lock (v : bool) (s : HX711) : HX711 :=
  mk (pd_sck s) (dout s) v (gain s) (reference_unit s) (reference_unit_b s)
     (offset s) (offset_b s) (last_val s) (debug_printing s) (byte_format s)
     (bit_format s) (dout_levels s) (sck_levels s) (stdout s).

Definition with_gain (v : Z) (s : HX711) : HX711 :=
  mk (pd_sck s) (dout s) (read_lock s) v (reference_unit s) (reference_unit_b s)
     (offset s) (offset_b s) (last_val s) (debug_printing s) (byte_format s)
     (bit_format s) (dout_levels s) (sck_levels s) (stdout s).

Definition with_reference_unit (v : Q) (s : HX711) : HX711 :=
  mk (pd_sck s) (dout s) (read_lock s) (gain s) v (reference_unit_b s)
     (offset s) (offset_b s) (last_val s) (debug_printing s) (byte_format s)
     (bit_format s) (dout_levels s) (sck_levels s) (stdout s).

Definition with_reference_unit_b (v : Q) (s : HX711) : HX711 :=
  mk (pd_sck s) (dout s) (read_lock s) (gain s) (reference_unit s) v
     (offset s) (offset_b s) (last_val s) (debug_printing s) (byte_format s)
     (bit_format s) (dout_levels s) (sck_levels s) (stdout s).

Definition with_offset (v : Q) (s : HX711) : HX711 :=
  mk (pd_sck s) (dout s) (read_lock s) (gain s) (reference_unit s)
     (reference_unit_b s) v (offset_b s) (last_val s) (debug_printing s)
     (byte_format s) (bit_format s) (dout_levels s) (sck_levels s) (stdout s).

Definition with_offset_b (v : Q) (s : HX711) : HX711 :=
  mk (pd_sck s) (dout s) (read_lock s) (gain s) (reference_unit s)
     (reference_unit_b s) (offset s) v (last_val s) (debug_printing s)
     (byte_format s) (bit_format s) (dout_levels s) (sck_levels s) (stdout s).

Definition with_last_val (v : Z) (s : HX711) : HX711 :=
  mk (pd_sck s) (dout s) (read_lock s) (gain s) (reference_unit s)
     (reference_unit_b s) (offset s) (offset_b s) v (debug_printing s)
     (byte_format s) (bit_format s) (dout_levels s) (sck_levels s) (stdout s).

Definition with_byte_format (v : string) (s : HX711) : HX711 :=
  mk (pd_sck s) (dout s) (read_lock s) (gain s) (reference_unit s)
     (reference_unit_b s) (offset s) (offset_b s) (last_val s)
     (debug_printing s) v (bit_format s) (dout_levels s) (sck_levels s)
     (stdout s).

Definition with_bit_format (v : string) (s : HX711) : HX711 :=
  mk (pd_sck s) (dout s) (read_lock s) (gain s) (reference_unit s)
     (reference_unit_b s) (offset s) (offset_b s) (last_val s)
     (debug_printing s) (byte_format s) v (dout_levels s) (sck_levels s)
     (stdout s).

Definition with_dout_levels (v : list bool) (s : HX711) : HX711 :=
  mk (pd_sck s) (dout s) (read_lock s) (gain s) (reference_unit s)
     (reference_unit_b s) (offset s) (offset_b s) (last_val s)
     (debug_printing s) (byte_format s) (bit_format s) v (sck_levels s)
     (stdout s).

Definition with_sck_levels (v : list bool) (s : HX711) : HX711 :=
  mk (pd_sck s) (dout s) (read_lock s) (gain s) (reference_unit s)
     (reference_unit_b s) (offset s) (offset_b s) (last_val s)
     (debug_printing s) (byte_format s) (bit_format s) (dout_levels s) v
     (stdout s).

Definition with_stdout (v : list printed) (s : HX711) : HX711 :=
  mk (pd_sck s) (dout s) (read_lock s) (gain s) (reference_unit s)
     (reference_unit_b s) (offset s) (offset_b s) (last_val s)
     (debug_printing s) (byte_format s) (bit_format s) (dout_levels s)
     (sck_levels s) v.

(** [GPIO.output(self.pd_sck, level)]. *)
Definition gpio_output (level : bool) : M HX711 unit :=
  modify (fun s => with_sck_levels (level :: sck_levels s) s).

(** [GPIO.input(self.dout)]. *)
Definition gpio_input : M HX711 bool :=
  fun s =>
    match dout_levels s with
    | [] => Blocked
    | b :: rest => Ok b (with_dout_levels rest s)
    end.

(** [print(...)]. *)
Definition print (p : printed) : M HX711 unit :=
  modify (fun s => with_stdout (p :: stdout s) s).

(** [self.read_lock.acquire()]: blocks while the lock is held. *)
Definition lock_acquire : M HX711 unit :=
  fun s => if read_lock s then Blocked else Ok tt (with_read_lock true s).

(** [self.read_lock.release()]. *)
Definition lock_release : M HX711 unit := modify (with_read_lock false).

Definition is_ready : M HX711 bool :=
  v <- gpio_input ;; ret (negb v).

Definition get_gain : M HX711 Z :=
  g <- gets gain ;;
  if g =? 1 then ret 128
  else if g =? 3 then ret 64
  else if g =? 2 then ret 32
  else ret 0.

Definition read_next_bit : M HX711 Z :=
  gpio_output true ;;
  gpio_output false ;;
  value <- gpio_input ;;
  ret (Z.b2z value).

(** The body of [read_next_byte], [n] iterations of the loop left. *)
Fixpoint read_next_byte_loop (n : nat) (byte_value : Z) : M HX711 Z :=
  match n with
  | O => ret byte_value
  | S k =>
      fmt <- gets bit_format ;;
      if String.eqb fmt "MSB" then
        b <- read_next_bit ;;
        read_next_byte_loop k (Z.lor (Z.shiftl byte_value 1) b)
      else
        b <- read_next_bit ;;
        read_next_byte_loop k (Z.lor (Z.shiftr byte_value 1) (b * 0x80))
  end.

Definition read_next_byte : M HX711 Z := read_next_byte_loop 8 0.

(** [while not self.is_ready(): pass].  Every iteration consumes one recorded
    level, so the recording's length bounds the number of iterations. *)
Fixpoint poll_ready (fuel : nat) : M HX711 unit :=
  match fuel with
  | O => fun _ => Blocked
  | S k => r <- is_ready ;; if r then ret tt else poll_ready k
  end.

Definition wait_until_ready : M HX711 unit :=
  fun s => poll_ready (S (List.length (dout_levels s))) s.

Definition read_raw_bytes : M HX711 (list Z) :=
  lock_acquire ;;
  wait_until_ready ;;
  first_byte <- read_next_byte ;;
  second_byte <- read_next_byte ;;
  third_byte <- read_next_byte ;;
  g <- gets gain ;;
  repeat_m (Z.to_nat g) (read_next_bit ;; ret tt) ;;
  lock_release ;;
  fmt <- gets byte_format ;;
  if String.eqb fmt "LSB" then ret [third_byte; second_byte; first_byte]
  else ret [first_byte; second_byte; third_byte].

Definition set_gain (g : Z) : M HX711 unit :=
  (if g =? 128 then modify (with_gain 1)
   else if g =? 64 then modify (with_gain 3)
   else if g =? 32 then modify (with_gain 2)
   else ret tt) ;;
  gpio_output false ;;
  read_raw_bytes ;;
  ret tt.

Definition when_debug (p : printed) : M HX711 unit :=
  d <- gets debug_printing ;;
  if d then print p else ret tt.

Definition read_long : M HX711 Z :=
  data_bytes <- read_raw_bytes ;;
  when_debug (PrBytes data_bytes) ;;
  b0 <- py_index data_bytes 0 ;;
  b1 <- py_index data_bytes 1 ;;
  b2 <- py_index data_bytes 2 ;;
  let twos_complement_value :=
    Z.lor (Z.lor (Z.shiftl b0 16) (Z.shiftl b1 8)) b2 in
  when_debug (PrTwos twos_complement_value) ;;
  let signed_int_value :=
    convert_from_twos_complement_24_bit twos_complement_value in
  modify (with_last_val signed_int_value) ;;
  ret signed_int_value.

Definition read_median (times : Z) : M HX711 Q :=
  if times <=? 0 then raise ValueError
  else if times =? 1 then v <- read_long ;; ret (inject_Z v)
  else
    value_list <- collect read_long (Z.to_nat times) [] ;;
    let value_list := py_sort value_list in
    if Z.land times 1 =? 1 then
      v <- py_index value_list (len value_list / 2) ;; ret (inject_Z v)
    else
      let midpoint := py_int (inject_Z (len value_list) / 2) in
      py_truediv
        (inject_Z (py_sum (py_slice value_list (midpoint - 1) (midpoint + 1))))
        2.

Definition read_average (times : Z) : M HX711 Q :=
  if times <=? 0 then raise ValueError
  else if times =? 1 then v <- read_long ;; ret (inject_Z v)
  else if times <? 5 then read_median times
  else
    value_list <- collect read_long (Z.to_nat times) [] ;;
    let value_list := py_sort value_list in
    let trim_amount := py_int (inject_Z (len value_list) * (2 # 10)) in
    let value_list := py_slice value_list trim_amount (- trim_amount) in
    py_truediv (inject_Z (py_sum value_list)) (inject_Z (len value_list)).

Definition get_offset_a : M HX711 Q := gets offset.
Definition get_offset_b : M HX711 Q := gets offset_b.
Definition get_offset : M HX711 Q := get_offset_a.

Definition get_value_a (times : Z) : M HX711 Q :=
  m <- read_median times ;;
  o <- get_offset_a ;;
  ret (m - o)%Q.

Definition get_value (times : Z) : M HX711 Q := get_value_a times.

Definition get_value_b (times : Z) : M HX711 Q :=
  g <- get_gain ;;
  set_gain 32 ;;
  m <- read_median times ;;
  o <- get_offset_b ;;
  let value := (m - o)%Q in
  set_gain g ;;
  ret value.

Definition get_weight_A (times : Z) : M HX711 Q :=
  value <- get_value_a times ;;
  r <- gets reference_unit ;;
  py_truediv value r.

Definition get_weight (times : Z) : M HX711 Q := get_weight_A times.

Definition get_weight_B (times : Z) : M HX711 Q :=
  value <- get_value_b times ;;
  r <- gets reference_unit_b ;;
  py_truediv value r.

Definition set_offset_a (o : Q) : M HX711 unit := modify (with_offset o).
Definition set_offset_b (o : Q) : M HX711 unit := modify (with_offset_b o).
Definition set_offset (o : Q) : M HX711 unit := set_offset_a o.

Definition set_reference_unit_a (r : Q) : M HX711 unit :=
  if Qeq_bool r 0 then raise ValueError
  else modify (with_reference_unit r).

Definition set_reference_unit_b (r : Q) : M HX711 unit :=
  if Qeq_bool r 0 then raise ValueError
  else modify (with_reference_unit_b r).

Definition set_reference_unit (r : Q) : M HX711 unit := set_reference_unit_a r.

Definition get_reference_unit_a : M HX711 Q := gets reference_unit.
Definition get_reference_unit_b : M HX711 Q := gets reference_unit_b.
Definition get_reference_unit : M HX711 Q := get_reference_unit_a.

Definition tare_a (times : Z) : M HX711 Q :=
  backup_reference_unit <- get_reference_unit_a ;;
  set_reference_unit_a 1 ;;
  value <- read_average times ;;
  when_debug (PrTare "A" value) ;;
  set_offset_a value ;;
  set_reference_unit_a backup_reference_unit ;;
  ret value.

Definition tare (times : Z) : M HX711 Q := tare_a times.

Definition tare_B (times : Z) : M HX711 Q :=
  backup_reference_unit <- get_reference_unit_b ;;
  set_reference_unit_b 1 ;;
  backup_gain <- get_gain ;;
  set_gain 32 ;;
  value <- read_average times ;;
  when_debug (PrTare "B" value) ;;
  set_offset_b value ;;
  set_gain backup_gain ;;
  set_reference_unit_b backup_reference_unit ;;
  ret value.

Definition set_reading_format (byte_format bit_format : pyarg)
  : M HX711 unit :=
  match byte_format with
  | PStr byte_s =>
      match bit_format with
      | PStr bit_s =>
          let allowed_formats := ["LSB"; "MSB"]%string in
          if negb (str_in (py_upper byte_s) allowed_formats)
          then raise ValueError
          else
            modify (with_byte_format byte_s) ;;
            if negb (str_in (py_upper bit_s) allowed_formats)
            then raise ValueError
            else modify (with_bit_format bit_s)
      | _ => raise ValueError
      end
  | _ => raise ValueError
  end.

Definition power_down : M HX711 unit :=
  lock_acquire ;;
  gpio_output false ;;
  gpio_output true ;;
  lock_release.

Definition power_up : M HX711 unit :=
  lock_acquire ;;
  gpio_output false ;;
  lock_release ;;
  g <- get_gain ;;
  if negb (g =? 128) then read_raw_bytes ;; ret tt else ret tt.

Definition reset : M HX711 unit := power_down ;; power_up.

(** [HX711(dout, pd_sck, gain)] on a DOUT line that will show [line]. *)
Definition init (dout_pin pd_sck_pin g : Z) (line : list bool)
  : result HX711 unit :=
  set_gain g
    (mk pd_sck_pin dout_pin false 0 1 1 1 1 0 false "MSB" "MSB" line [] []).

(** What the acquisition path never writes: the calibration of both
    channels, and with the gain code and the formats, the settings. *)
Definition calibration (s : HX711) : Q * Q * Q * Q :=
  (reference_unit s, reference_unit_b s, offset s, offset_b s).

Definition settings (s : HX711) : Z * (Q * Q * Q * Q) * (string * string) :=
  (gain s, calibration s, (byte_format s, bit_format s)).

(** The pulse-count code that [set_gain] stores for a recognised gain. *)
Definition code_of_gain (g : Z) : Z :=
  if g =? 128 then 1 else if g =? 64 then 3 else 2.

(** What is left of a DOUT recording once the line has gone low. *)
Fixpoint after_ready (line : list bool) : option (list bool) :=
  match line with
  | [] => None
  | b :: rest => if b then after_ready rest else Some rest
  end.

(** The chip answers one acquisition with [pulses] gain-select pulses: the
    lock is free, DOUT goes low, and the recording then holds the 24 data
    levels and one level per pulse. *)
Definition conversion_ready (pulses : Z) (s : HX711) : bool :=
  negb (read_lock s) &&
  match after_ready (dout_levels s) with
  | Some rest => (24 + Z.to_nat pulses <=? List.length rest)%nat
  | None => false
  end.

(** [s'] is [s] after [k] more levels of the recording were sampled, the
    lock untouched. *)
Definition sampled (k : nat) (s s' : HX711) : Prop :=
  dout_levels s' = skipn k (dout_levels s) /\ read_lock s' = read_lock s.

End Hw.

(** ** emulated_hx711.py: the simulated driver *)

Module Emu.

(** The object and what it reads from its environment.  [clock] is the
    recording of the wall clock: the values that the successive
    [time.time()] calls return; [random_draws] the values that the successive
    calls into [random] return; [sine_wave t] stands for
    [math.sin(math.radians(t * 20)) * 72.0].  A call made after a recording
    ends never returns.  [stdout] collects the lines printed, latest
    first. *)
Record HX711 : Type := mk {
  pd_sck : Z;
  dout : Z;
  last_read_time : Q;
  sample_rate_hz : Q;
  reset_timestamp : Q;
  sample_count : Z;
  simulate_tare : bool;
  read_lock : bool;
  gain : Z;
  reference_unit : Q;
  offset : Q;
  last_val : Z;
  debug_printing : bool;
  byte_format : string;
  bit_format : string;
  clock : list Q;
  random_draws : list Z;
  sine_wave : Q -> Q;
  stdout : list printed
}.

Definition with_last_read_time (v : Q) (s : HX711) : HX711 :=
  mk (pd_sck s) (dout s) v (sample_rate_hz s) (reset_timestamp s)
     (sample_count s) (simulate_tare s) (read_lock s) (gain s)
     (reference_unit s) (offset s) (last_val s) (debug_printing s)
     (byte_format s) (bit_format s) (clock s) (random_draws s)
     (sine_wave s) (stdout s).

Definition with_reset_timestamp (v : Q) (s : HX711) : HX711 :=
  mk (pd_sck s) (dout s) (last_read_time s) (sample_rate_hz s) v
     (sample_count s) (simulate_tare s) (read_lock s) (gain s)
     (reference_unit s) (offset s) (last_val s) (debug_printing s)
     (byte_format s) (bit_format s) (clock s) (random_draws s)
     (sine_wave s) (stdout s).

Definition with_sample_count (v : Z) (s : HX711) : HX711 :=
  mk (pd_sck s) (dout s) (last_read_time s) (sample_rate_hz s)
     (reset_timestamp s) v (simulate_tare s) (read_lock s) (gain s)
     (reference_unit s) (offset s) (last_val s) (debug_printing s)
     (byte_format s) (bit_format s) (clock s) (random_draws s)
     (sine_wave s) (stdout s).

Definition with_read_lock (v : bool) (s : HX711) : HX711 :=
  mk (pd_sck s) (dout s) (last_read_time s) (sample_rate_hz s)
     (reset_timestamp s) (sample_count s) (simulate_tare s) v (gain s)
     (reference_unit s) (offset s) (last_val s) (debug_printing s)
     (byte_format s) (bit_format s) (clock s) (random_draws s)
     (sine_wave s) (stdout s).

Definition with_gain (v : Z) (s : HX711) : HX711 :=
  mk (pd_sck s) (dout s) (last_read_time s) (sample_rate_hz s)
     (reset_timestamp s) (sample_count s) (simulate_tare s) (read_lock
     s) v (reference_unit s) (offset s) (last_val s) (debug_printing s)
     (byte_format s) (bit_format s) (clock s) (random_draws s)
     (sine_wave s) (stdout s).

Definition with_reference_unit (v : Q) (s : HX711) : HX711 :=
  mk (pd_sck s) (dout s) (last_read_time s) (sample_rate_hz s)
     (reset_timestamp s) (sample_count s) (simulate_tare s) (read_lock
     s) (gain s) v (offset s) (last_val s) (debug_printing s)
     (byte_format s) (bit_format s) (clock s) (random_draws s)
     (sine_wave s) (stdout s).

Definition with_offset (v : Q) (s : HX711) : HX711 :=
  mk (pd_sck s) (dout s) (last_read_time s) (sample_rate_hz s)
     (reset_timestamp s) (sample_count s) (simulate_tare s) (read_lock
     s) (gain s) (reference_unit s) v (last_val s) (debug_printing s)
     (byte_format s) (bit_format s) (clock s) (random_draws s)
     (sine_wave s) (stdout s).

Definition with_last_val (v : Z) (s : HX711) : HX711 :=
  mk (pd_sck s) (dout s) (last_read_time s) (sample_rate_hz s)
     (reset_timestamp s) (sample_count s) (simulate_tare s) (read_lock
     s) (gain s) (reference_unit s) (offset s) v (debug_printing s)
     (byte_format s) (bit_format s) (clock s) (random_draws s)
     (sine_wave s) (stdout s).

Definition with_byte_format (v : string) (s : HX711) : HX711 :=
  mk (pd_sck s) (dout s) (last_read_time s) (sample_rate_hz s)
     (reset_timestamp s) (sample_count s) (simulate_tare s) (read_lock
     s) (gain s) (reference_unit s) (offset s) (last_val s)
     (debug_printing s) v (bit_format s) (clock s) (random_draws s)
     (sine_wave s) (stdout s).

Definition with_bit_format (v : string) (s : HX711) : HX711 :=
  mk (pd_sck s) (dout s) (last_read_time s) (sample_rate_hz s)
     (reset_timestamp s) (sample_count s) (simulate_tare s) (read_lock
     s) (gain s) (reference_unit s) (offset s) (last_val s)
     (debug_printing s) (byte_format s) v (clock s) (random_draws s)
     (sine_wave s) (stdout s).

Definition with_clock (v : list Q) (s : HX711) : HX711 :=
  mk (pd_sck s) (dout s) (last_read_time s) (sample_rate_hz s)
     (reset_timestamp s) (sample_count s) (simulate_tare s) (read_lock
     s) (gain s) (reference_unit s) (offset s) (last_val s)
     (debug_printing s) (byte_format s) (bit_format s) v (random_draws
     s) (sine_wave s) (stdout s).

Definition with_random_draws (v : list Z) (s : HX711) : HX711 :=
  mk (pd_sck s) (dout s) (last_read_time s) (sample_rate_hz s)
     (reset_timestamp s) (sample_count s) (simulate_tare s) (read_lock
     s) (gain s) (reference_unit s) (offset s) (last_val s)
     (debug_printing s) (byte_format s) (bit_format s) (clock s) v
     (sine_wave s) (stdout s).

Definition with_stdout (v : list printed) (s : HX711) : HX711 :=
  mk (pd_sck s) (dout s) (last_read_time s) (sample_rate_hz s)
     (reset_timestamp s) (sample_count s) (simulate_tare s) (read_lock
     s) (gain s) (reference_unit s) (offset s) (last_val s)
     (debug_printing s) (byte_format s) (bit_format s) (clock s)
     (random_draws s) (sine_wave s) v.

(** [time.time()]. *)
Definition time_time : M HX711 Q :=
  fun s =>
    match clock s with
    | [] => Blocked
    | t :: rest => Ok t (with_clock rest s)
    end.

(** [random.randrange(...)], and the position picked by [random.sample]. *)
Definition random_draw : M HX711 Z :=
  fun s =>
    match random_draws s with
    | [] => Blocked
    | r :: rest => Ok r (with_random_draws rest s)
    end.

Definition print (p : printed) : M HX711 unit :=
  modify (fun s => with_stdout (p :: stdout s) s).

(** [with self.read_lock: body]: the lock is released on the way out, also
    when [body] raises. *)
Definition with_lock {A} (body : M HX711 A) : M HX711 A :=
  fun s =>
    if read_lock s then Blocked
    else
      match body (with_read_lock true s) with
      | Ok a s' => Ok a (with_read_lock false s')
      | Raise e s' => Raise e (with_read_lock false s')
      | Blocked => Blocked
      end.

(** On integers one of the three tests holds, so a value is always
    returned. *)
Definition convert_to_twos_complement_24_bit (input_value : Z) : Z :=
  if input_value >=? 0x7fffff then 0x7fffff
  else if input_value >=? 0 then Z.land input_value 0x7fffff
  else
    let input_value :=
      if input_value <? - 0x800000 then - 0x800000 else input_value in
    let diff := input_value + 0x800000 in
    0x800000 + diff.

Definition is_ready : M HX711 bool :=
  rate <- gets sample_rate_hz ;;
  sample_delay_seconds <- py_truediv 1 rate ;;
  now <- time_time ;;
  last <- gets last_read_time ;;
  ret (Qle_bool (last + sample_delay_seconds) now).

Definition get_gain : M HX711 Z :=
  g <- gets gain ;;
  if g =? 1 then ret 128
  else if g =? 3 then ret 64
  else if g =? 2 then ret 32
  else ret 0.

Definition big_error_samples : list Q := [0; 40; 70; 150; 280; 580]%Q.

Definition generate_fake_sample : M HX711 Z :=
  now <- time_time ;;
  reset_at <- gets reset_timestamp ;;
  let sample_timestamp := (now - reset_at)%Q in
  r <- random_draw ;;
  let noise_value := (inject_Z r / 1000)%Q in
  wave <- gets sine_wave ;;
  let sample := wave sample_timestamp in
  modify (fun s => with_sample_count (sample_count s + 1) s) ;;
  let sample := if Qle_bool 0 sample then sample else (- sample)%Q in
  let sample := (sample + noise_value)%Q in
  e <- random_draw ;;
  sample <- (if e =? 0 then
               k <- random_draw ;;
               bad <- py_index big_error_samples k ;;
               c <- gets sample_count ;;
               print (PrInjecting c bad) ;;
               ret bad
             else ret sample) ;;
  let sample := (sample * 1000)%Q in
  ref <- gets reference_unit ;;
  let sample := (sample * ref)%Q in
  ret (py_int sample).

Fixpoint poll_ready (fuel : nat) : M HX711 unit :=
  match fuel with
  | O => fun _ => Blocked
  | S k => r <- is_ready ;; if r then ret tt else poll_ready k
  end.

(** [while not self.is_ready(): pass]: every iteration consumes one clock
    reading. *)
Definition wait_until_ready : M HX711 unit :=
  fun s => poll_ready (S (List.length (clock s))) s.

Definition read_raw_bytes : M HX711 (list Z) :=
  bytes <- with_lock
    (wait_until_ready ;;
     now <- time_time ;;
     modify (with_last_read_time now) ;;
     fake <- generate_fake_sample ;;
     let raw_sample := convert_to_twos_complement_24_bit fake in
     let first_byte := Z.land (Z.shiftr raw_sample 16) 0xFF in
     let second_byte := Z.land (Z.shiftr raw_sample 8) 0xFF in
     let third_byte := Z.land raw_sample 0xFF in
     ret (first_byte, second_byte, third_byte)) ;;
  let '(first_byte, second_byte, third_byte) := bytes in
  fmt <- gets byte_format ;;
  if String.eqb fmt "LSB" then ret [third_byte; second_byte; first_byte]
  else ret [first_byte; second_byte; third_byte].

Definition set_gain (g : Z) : M HX711 unit :=
  (if g =? 128 then modify (with_gain 1)
   else if g =? 64 then modify (with_gain 3)
   else if g =? 32 then modify (with_gain 2)
   else ret tt) ;;
  read_raw_bytes ;;
  ret tt.

Definition when_debug (p : printed) : M HX711 unit :=
  d <- gets debug_printing ;;
  if d then print p else ret tt.

Definition read_long : M HX711 Z :=
  data_bytes <- read_raw_bytes ;;
  when_debug (PrBytes data_bytes) ;;
  b0 <- py_index data_bytes 0 ;;
  b1 <- py_index data_bytes 1 ;;
  b2 <- py_index data_bytes 2 ;;
  let twos_complement_value :=
    Z.lor (Z.lor (Z.shiftl b0 16) (Z.shiftl b1 8)) b2 in
  when_debug (PrTwos twos_complement_value) ;;
  let signed_int_value :=
    convert_from_twos_complement_24_bit twos_complement_value in
  modify (with_last_val signed_int_value) ;;
  ret signed_int_value.

Definition read_average (times : Z) : M HX711 Q :=
  times <- (if times <=? 0 then print PrTimesClamped ;; ret 1
            else ret times) ;;
  if times =? 1 then v <- read_long ;; ret (inject_Z v)
  else if times <? 5 then
    values <- accumulate read_long (Z.to_nat times) 0 ;;
    py_truediv (inject_Z values) (inject_Z times)
  else
    value_list <- collect read_long (Z.to_nat times) [] ;;
    let value_list := py_sort value_list in
    let trim_amount := py_int (inject_Z (len value_list) * (2 # 10)) in
    let value_list := py_slice value_list trim_amount (- trim_amount) in
    py_truediv (inject_Z (py_sum value_list)) (inject_Z (len value_list)).

Definition get_value (times : Z) : M HX711 Q :=
  a <- read_average times ;;
  o <- gets offset ;;
  ret (a - o)%Q.

Definition get_weight (times : Z) : M HX711 Q :=
  value <- get_value times ;;
  r <- gets reference_unit ;;
  py_truediv value r.

Definition set_offset (o : Q) : M HX711 unit := modify (with_offset o).

Definition get_offset : M HX711 Q := gets offset.

Definition set_reference_unit (r : Q) : M HX711 unit :=
  if Qeq_bool r 0 then print PrZeroReferenceUnit
  else modify (with_reference_unit r).

Definition tare (times : Z) : M HX711 Q :=
  sim <- gets simulate_tare ;;
  if negb sim then ret 0%Q
  else
    backup <- gets reference_unit ;;
    set_reference_unit 1 ;;
    value <- read_average times ;;
    when_debug (PrTare "" value) ;;
    set_offset value ;;
    set_reference_unit backup ;;
    ret value.

Definition pyarg_is (a : pyarg) (lit : string) : bool :=
  match a with
  | PStr s => String.eqb s lit
  | _ => false
  end.

Definition set_reading_format (byte_format bit_format : pyarg)
  : M HX711 unit :=
  (if pyarg_is byte_format "LSB" then modify (with_byte_format "LSB")
   else if pyarg_is byte_format "MSB" then modify (with_byte_format "MSB")
   else print (PrBadByteFormat byte_format)) ;;
  (if pyarg_is bit_format "LSB" then modify (with_bit_format "LSB")
   else if pyarg_is bit_format "MSB" then modify (with_bit_format "MSB")
   else print (PrBadBitFormat bit_format)).

Definition power_down : M HX711 unit := with_lock (ret tt).

Definition power_up : M HX711 unit :=
  with_lock (ret tt) ;;
  g <- get_gain ;;
  if negb (g =? 128) then read_raw_bytes ;; ret tt else ret tt.

Definition reset : M HX711 unit :=
  now <- time_time ;;
  modify (with_reset_timestamp now).

(** [HX711(dout, pd_sck, gain)] in an environment given by its recordings. *)
Definition init (dout_pin pd_sck_pin g : Z)
    (clock_rec : list Q) (draws : list Z) (wave : Q -> Q)
  : result HX711 unit :=
  (t0 <- time_time ;;
   modify (with_last_read_time t0) ;;
   t1 <- time_time ;;
   modify (with_reset_timestamp t1) ;;
   set_gain g)
    (mk pd_sck_pin dout_pin 0 80 0 0 false false 0 1 1 0 false "MSB" "MSB"
        clock_rec draws wave []).

Definition calibration (s : HX711) : Q * Q := (reference_unit s, offset s).

Definition settings (s : HX711) : Z * (Q * Q) * (string * string) :=
  (gain s, calibration s, (byte_format s, bit_format s)).

Definition code_of_gain (g : Z) : Z :=
  if g =? 128 then 1 else if g =? 64 then 3 else 2.

End Emu.

(** ** The notions the specification is written in *)

(** The raw samples delivered by [n] successive reads, in the order read. *)
Fixpoint acquire {S} (read : M S Z) (n : nat) : M S (list Z) :=
  match n with
  | O => ret []
  | S k => v <- read ;; vs <- acquire read k ;; ret (v :: vs)
  end.

Definition total (l : list Z) : Z := fold_right Z.add 0 l.

(** Arithmetic mean of a non-empty list of samples. *)
Definition mean (l : list Z) : Q := (inject_Z (total l) / inject_Z (len l))%Q.

(** Statistical median: sort ascending; the middle element for an odd
    count, the mean of the two elements next to the midpoint for an even
    one. *)
Definition median (l : list Z) : Q :=
  let sorted := py_sort l in
  let n := List.length l in
  if Nat.odd n then inject_Z (nth (n / 2) sorted 0)
  else mean [nth (n / 2 - 1) sorted 0; nth (n / 2) sorted 0].

(** Trimmed mean: sort ascending, [trim = floor(n * 0.2)], drop the first
    [trim] and the last [trim] elements, mean of the remainder. *)
Definition trimmed_mean (l : list Z) : Q :=
  let sorted := py_sort l in
  let n := List.length l in
  let trim := Z.to_nat (Qfloor (inject_Z (Z.of_nat n) * (2 # 10))) in
  mean (skipn trim (firstn (n - trim) sorted)).

(** [get_gain()] as a function of the stored pulse-count code. *)
Definition gain_of_code (code : Z) : Z :=
  if code =? 1 then 128 else if code =? 3 then 64
  else if code =? 2 then 32 else 0.

(** ** Recordings used to run the drivers on given samples *)

(** The 24 data bits of a sample as the chip shifts them out, most
    significant first. *)
Definition data_bits (x : Z) : list bool :=
  map (fun i => Z.testbit x (Z.of_nat i)) (rev (seq 0 24)).

(** One conversion on DOUT: low when ready, the data bits, then high during
    the [pulses] gain-select pulses. *)
Definition conversion (pulses : nat) (x : Z) : list bool :=
  false :: data_bits x ++ repeat true pulses.

Definition conversions (pulses : nat) (xs : list Z) : list bool :=
  flat_map (conversion pulses) xs.

(** Random draws that make the simulated generator return the given
    integers when the wave is flat and the reference unit is 1: the noise
    draw, then a non-zero draw that skips the bad-sample injection. *)
Definition draws_for (xs : list Z) : list Z :=
  flat_map (fun x => [x; 1]) xs.

(** A clock that reads 1, 2, ..., [n] seconds: one second passes between
    two readings. *)
Definition ticking (n : nat) : list Q :=
  map (fun k => inject_Z (Z.of_nat k)) (seq 1 n).

Definition flat_wave : Q -> Q := fun _ => 0%Q.

(** A hardware driver at its defaults (gain 128 stored), with [line] still
    to come on DOUT. *)
Definition hw_idle (line : list bool) : Hw.HX711 :=
  Hw.mk 6 5 false 1 1 1 1 1 0 false "MSB" "MSB" line [] [].

(** A simulated driver at its defaults (gain 128 stored), whose generator
    will return the integers [xs]. *)
Definition emu_idle (xs : list Z) : Emu.HX711 :=
  Emu.mk 6 5 0 80 0 0 false false 1 1 1 0 false "MSB" "MSB"
    (ticking (3 * List.length xs)) (draws_for xs) flat_wave [].

(** ** Notions used to describe the acquisition path *)

(** Saturation to the signed 24-bit range. *)
Definition clamp24 (x : Z) : Z := Z.max (- 0x800000) (Z.min x 0x7FFFFF).

(** The number spelled by sampled levels when the first one is the most
    significant bit. *)
Fixpoint msb_value (bits : list bool) : Z :=
  match bits with
  | [] => 0
  | b :: rest => Z.b2z b * 2 ^ len rest + msb_value rest
  end.

(** The number spelled by sampled levels when the first one is the least
    significant bit. *)
Fixpoint lsb_value (bits : list bool) : Z :=
  match bits with
  | [] => 0
  | b :: rest => Z.b2z b + 2 * lsb_value rest
  end.

(** The levels that [n] clock pulses write on PD_SCK, latest first: every
    pulse is a high followed by a low. *)
Fixpoint pulses (n : nat) : list bool :=
  match n with
  | O => []
  | S k => false :: true :: pulses k
  end.

(** A 24-bit word with its first and third bytes exchanged. *)
Definition byte_swap24 (w : Z) : Z :=
  Z.lor (Z.lor (Z.shiftl (Z.land w 0xFF) 16)
               (Z.shiftl (Z.land (Z.shiftr w 8) 0xFF) 8))
        (Z.land (Z.shiftr w 16) 0xFF).

(** The hardware driver after [n] pulses that left [rest] on the DOUT
    recording. *)
Definition hw_clocked (n : nat) (rest : list bool) (s : Hw.HX711)
  : Hw.HX711 :=
  Hw.with_dout_levels rest
    (Hw.with_sck_levels (pulses n ++ Hw.sck_levels s) s).

(** The byte that [read_next_byte] assembles from eight levels under the
    given bit format. *)
Definition hw_byte_of (bit_format : string) (bits : list bool) : Z :=
  if String.eqb bit_format "MSB" then msb_value bits else lsb_value bits.

(** The order in which [read_raw_bytes] returns the three bytes. *)
Definition hw_ordered (byte_format : string) (b0 b1 b2 : Z) : list Z :=
  if String.eqb byte_format "LSB" then [b2; b1; b0] else [b0; b1; b2].

(** The 24-bit word [read_long] joins from three bytes in the order read. *)
Definition join24 (b0 b1 b2 : Z) : Z :=
  Z.lor (Z.lor (Z.shiftl b0 16) (Z.shiftl b1 8)) b2.

(** [m] keeps the property [P] of the state, whether it returns or
    raises. *)
Definition preserves {S A} (P : S -> Prop) (m : M S A) : Prop :=
  forall s s', final (m s) = Some s' -> P s -> P s'.

(** Neither channel of the hardware driver has a zero reference unit. *)
Definition hw_units_nonzero (s : Hw.HX711) : Prop :=
  ~ (Hw.reference_unit s == 0)%Q /\ ~ (Hw.reference_unit_b s == 0)%Q.

(** [m] raises no exception. *)
Definition never_raises {S A} (m : M S A) : Prop :=
  forall s e s', m s <> Raise e s'.

(** Both formats of the simulated driver are one of the two literals its
    readers compare against. *)
Definition emu_formats_valid (s : Emu.HX711) : Prop :=
  (Emu.byte_format s = "LSB" \/ Emu.byte_format s = "MSB")%string /\
  (Emu.bit_format s = "LSB" \/ Emu.bit_format s = "MSB")%string.

(** The fields of the simulated driver that only its constructor writes. *)
Definition emu_configuration (s : Emu.HX711) : bool * Q * bool :=
  (Emu.simulate_tare s, Emu.sample_rate_hz s, Emu.debug_printing s).

(** * Properties *)

(** ** The monad and the loops *)

Section Monad.

Context {S : Type}.

Lemma bind_ok {A B} (m : M S A) (k : A -> M S B) s a s1 :
  m s = Ok a s1 -> bind m k s = k a s1.
Proof. intros H. unfold bind. now rewrite H. Qed.

Lemma bind_ok_inv {A B} (m : M S A) (k : A -> M S B) s b s' :
  bind m k s = Ok b s' ->
  exists a s1, m s = Ok a s1 /\ k a s1 = Ok b s'.
Proof.
  unfold bind. destruct (m s) as [a s1 | e s1 |] eqn:E; try discriminate.
  intros H. now exists a, s1.
Qed.

Lemma keeps_ret {A T} (f : S -> T) (a : A) : keeps f (ret a).
Proof. intros s s' H. cbn in H. now inversion H. Qed.

Lemma keeps_raise {A T} (f : S -> T) e : keeps f (@raise S A e).
Proof. intros s s' H. cbn in H. now inversion H. Qed.

Lemma keeps_gets {A T} (f : S -> T) (g : S -> A) : keeps f (gets g).
Proof. intros s s' H. cbn in H. now inversion H. Qed.

Lemma keeps_modify {T} (f : S -> T) (g : S -> S) :
  (forall s, f (g s) = f s) -> keeps f (modify g).
Proof. intros Hg s s' H. cbn in H. inversion H. apply Hg. Qed.

Lemma keeps_bind {A B T} (f : S -> T) (m : M S A) (k : A -> M S B) :
  keeps f m -> (forall a, keeps f (k a)) -> keeps f (bind m k).
Proof.
  intros Hm Hk s s' H. unfold bind in H.
  destruct (m s) as [a s1 | e s1 |] eqn:E.
  - rewrite (Hk a s1 s' H). apply Hm. now rewrite E.
  - cbn in H. inversion H; subst. apply Hm. now rewrite E.
  - discriminate.
Qed.

Lemma keeps_repeat_m {T} (f : S -> T) (body : M S unit) n :
  keeps f body -> keeps f (repeat_m n body).
Proof.
  intros Hb. induction n as [|n IH]; cbn.
  - apply keeps_ret.
  - apply keeps_bind; auto.
Qed.

Lemma keeps_py_index {A T} (f : S -> T) (l : list A) i :
  keeps f (py_index l i).
Proof.
  unfold py_index.
  destruct (_ <? 0); [apply keeps_raise|].
  destruct (nth_error _ _); [apply keeps_ret | apply keeps_raise].
Qed.

Lemma keeps_py_truediv {T} (f : S -> T) a b : keeps f (py_truediv a b).
Proof.
  unfold py_truediv. destruct (Qeq_bool b 0);
    [apply keeps_raise | apply keeps_ret].
Qed.

Section Loops.

Variable read : M S Z.

Lemma keeps_collect {T} (f : S -> T) n acc :
  keeps f read -> keeps f (collect read n acc).
Proof.
  intros Hr. revert acc. induction n as [|n IH]; intros acc; cbn.
  - apply keeps_ret.
  - apply keeps_bind; auto.
Qed.

Lemma keeps_accumulate {T} (f : S -> T) n acc :
  keeps f read -> keeps f (accumulate read n acc).
Proof.
  intros Hr. revert acc. induction n as [|n IH]; intros acc; cbn.
  - apply keeps_ret.
  - apply keeps_bind; auto.
Qed.

Lemma keeps_acquire {T} (f : S -> T) n :
  keeps f read -> keeps f (acquire read n).
Proof.
  intros Hr. induction n as [|n IH]; cbn.
  - apply keeps_ret.
  - apply keeps_bind; auto. intros v. apply keeps_bind; auto.
    intros vs. apply keeps_ret.
Qed.

(** The collecting loop appends the samples acquired, in order. *)
Lemma collect_acquire n : forall acc s,
  collect read n acc s =
  match acquire read n s with
  | Ok vs s' => Ok (acc ++ vs) s'
  | Raise e s' => Raise e s'
  | Blocked => Blocked
  end.
Proof.
  induction n as [|n IH]; intros acc s; cbn.
  - unfold ret. now rewrite app_nil_r.
  - unfold bind. destruct (read s) as [v s1 | e s1 |]; auto.
    rewrite IH.
    destruct (acquire read n s1) as [vs s2 | e s2 |]; auto.
    cbn. now rewrite <- app_assoc.
Qed.

(** The summing loop adds the samples acquired to its start value. *)
Lemma accumulate_acquire n : forall acc s,
  accumulate read n acc s =
  match acquire read n s with
  | Ok vs s' => Ok (acc + total vs) s'
  | Raise e s' => Raise e s'
  | Blocked => Blocked
  end.
Proof.
  induction n as [|n IH]; intros acc s; cbn.
  - unfold ret. now rewrite Z.add_0_r.
  - unfold bind. destruct (read s) as [v s1 | e s1 |]; auto.
    rewrite IH.
    destruct (acquire read n s1) as [vs s2 | e s2 |]; auto.
    cbn. now rewrite Z.add_assoc.
Qed.

Lemma acquire_length n : forall s vs s',
  acquire read n s = Ok vs s' -> List.length vs = n.
Proof.
  induction n as [|n IH]; intros s vs s' H; cbn in H.
  - inversion H. reflexivity.
  - apply bind_ok_inv in H. destruct H as (v & s1 & _ & H).
    apply bind_ok_inv in H. destruct H as (ws & s2 & Hws & H).
    inversion H; subst. cbn. f_equal. eauto.
Qed.

End Loops.

End Monad.

(** ** Sorting, sums and slices *)

Lemma insert_sorted_length x l :
  List.length (insert_sorted x l) = Datatypes.S (List.length l).
Proof.
  induction l as [|y l IH]; cbn; auto.
  destruct (x <=? y); cbn; auto.
Qed.

Lemma py_sort_length l : List.length (py_sort l) = List.length l.
Proof.
  induction l as [|x l IH]; cbn; auto.
  now rewrite insert_sorted_length, IH.
Qed.

Lemma insert_sorted_perm x l : Permutation (x :: l) (insert_sorted x l).
Proof.
  induction l as [|y l IH]; cbn; auto.
  destruct (x <=? y); auto.
  rewrite perm_swap. now constructor.
Qed.

Lemma py_sort_perm l : Permutation l (py_sort l).
Proof.
  induction l as [|x l IH]; cbn; auto.
  rewrite <- insert_sorted_perm. now constructor.
Qed.

Lemma insert_sorted_sorted x l :
  Sorted Z.le l -> Sorted Z.le (insert_sorted x l).
Proof.
  induction l as [|y l IH]; intros Hs; cbn.
  - repeat constructor.
  - destruct (Z.leb_spec x y) as [Hxy | Hxy].
    + constructor; auto.
    + inversion Hs as [| ? ? Hl Hhd]; subst.
      constructor; auto.
      destruct l as [|z l]; cbn.
      * constructor. lia.
      * destruct (Z.leb_spec x z); constructor; try lia.
        now inversion Hhd.
Qed.

(** [list.sort()] yields the same samples in ascending order. *)
Lemma py_sort_sorted l : Sorted Z.le (py_sort l).
Proof.
  induction l as [|x l IH]; cbn.
  - constructor.
  - now apply insert_sorted_sorted.
Qed.

Lemma py_sum_total l : py_sum l = total l.
Proof.
  unfold py_sum, total. apply fold_symmetric; intros; lia.
Qed.

Lemma len_nonneg {A} (l : list A) : 0 <= len l.
Proof. unfold len. lia. Qed.

(** [l[t:-t]] keeps the positions [t <= i < len - t]. *)
Lemma py_slice_trim {A} (l : list A) t :
  0 < t -> 2 * t <= len l ->
  py_slice l t (- t) =
  skipn (Z.to_nat t) (firstn (List.length l - Z.to_nat t) l).
Proof.
  intros Ht Hl. unfold py_slice, slice_bound.
  destruct (Z.ltb_spec t 0) as [|_]; [lia|].
  destruct (Z.ltb_spec (- t) 0) as [_|]; [|lia].
  unfold len in *.
  rewrite Z.min_l, Z.max_l by lia.
  rewrite firstn_skipn_comm. f_equal. f_equal. lia.
Qed.

(** [int(n * 0.2)] and [floor(n * 0.2)] are both the integer quotient by 5. *)
Lemma py_int_fifth n : 0 <= n -> py_int (inject_Z n * (2 # 10)) = n / 5.
Proof.
  intros Hn. unfold py_int. cbn.
  rewrite Z.quot_div_nonneg by lia.
  replace 10 with (5 * 2) by reflexivity.
  rewrite Z.div_mul_cancel_r by lia. reflexivity.
Qed.

Lemma Qfloor_fifth n : Qfloor (inject_Z n * (2 # 10)) = n / 5.
Proof.
  cbn. replace 10 with (5 * 2) by reflexivity.
  rewrite Z.div_mul_cancel_r by lia. reflexivity.
Qed.

Lemma py_int_half n : 0 <= n -> py_int (inject_Z n / 2) = n / 2.
Proof.
  intros Hn. unfold py_int. cbn.
  rewrite Z.quot_div_nonneg by lia.
  now rewrite Z.mul_1_r.
Qed.

Lemma Qeq_bool_inject_Z_0 k : k <> 0 -> Qeq_bool (inject_Z k) 0 = false.
Proof.
  intros Hk. unfold Qeq_bool, inject_Z. cbn.
  rewrite Z.mul_1_r. destruct k; [contradiction | reflexivity | reflexivity].
Qed.

Lemma py_truediv_inject_Z {S} a k (s : S) :
  k <> 0 -> py_truediv a (inject_Z k) s = Ok (a / inject_Z k)%Q s.
Proof.
  intros Hk. unfold py_truediv. now rewrite Qeq_bool_inject_Z_0.
Qed.

(** ** What an acquisition leaves alone *)

Ltac keeps_step :=
  match goal with
  | |- keeps _ (bind _ _) => apply keeps_bind; [| intros ?]
  | |- keeps _ (ret _) => apply keeps_ret
  | |- keeps _ (raise _) => apply keeps_raise
  | |- keeps _ (gets _) => apply keeps_gets
  | |- keeps _ (modify _) => apply keeps_modify; intros ?; reflexivity
  | |- keeps _ (py_index _ _) => apply keeps_py_index
  | |- keeps _ (py_truediv _ _) => apply keeps_py_truediv
  | |- keeps _ (repeat_m _ _) => apply keeps_repeat_m
  | |- keeps _ (collect _ _ _) => apply keeps_collect
  | |- keeps _ (accumulate _ _ _) => apply keeps_accumulate
  | |- keeps _ (acquire _ _) => apply keeps_acquire
  | |- keeps _ (if ?b then _ else _) => destruct b
  | |- keeps _ (let '(_, _) := ?p in _) => destruct p
  end.

Ltac keeps_auto := repeat (keeps_step || assumption).

Section HwFrame.

Import Hw.

Lemma hw_keeps_gpio_input : keeps settings gpio_input.
Proof.
  intros s s' H. unfold gpio_input in H.
  destruct (dout_levels s); cbn in H; [discriminate|].
  inversion H; subst. reflexivity.
Qed.

Lemma hw_keeps_lock_acquire : keeps settings lock_acquire.
Proof.
  intros s s' H. unfold lock_acquire in H.
  destruct (read_lock s); cbn in H; [discriminate|].
  inversion H; subst. reflexivity.
Qed.

Lemma hw_keeps_read_next_bit : keeps settings read_next_bit.
Proof.
  unfold read_next_bit, gpio_output. keeps_auto. apply hw_keeps_gpio_input.
Qed.

Lemma hw_keeps_read_next_byte_loop n : forall acc,
  keeps settings (read_next_byte_loop n acc).
Proof.
  induction n as [|n IH]; intros acc; cbn; keeps_auto;
    auto using hw_keeps_read_next_bit.
Qed.

Lemma hw_keeps_poll_ready n : keeps settings (poll_ready n).
Proof.
  induction n as [|n IH]; cbn.
  - intros s s' H. discriminate.
  - unfold is_ready. keeps_auto. apply hw_keeps_gpio_input.
Qed.

Lemma hw_keeps_wait_until_ready : keeps settings wait_until_ready.
Proof. intros s s' H. eapply hw_keeps_poll_ready, H. Qed.

Lemma hw_keeps_read_raw_bytes : keeps settings read_raw_bytes.
Proof.
  unfold read_raw_bytes, read_next_byte, lock_release. keeps_auto;
    auto using hw_keeps_lock_acquire, hw_keeps_wait_until_ready,
      hw_keeps_read_next_byte_loop, hw_keeps_read_next_bit.
Qed.

Lemma hw_keeps_when_debug p : keeps settings (when_debug p).
Proof. unfold when_debug, print. keeps_auto. Qed.

Lemma hw_keeps_read_long : keeps settings read_long.
Proof.
  unfold read_long. keeps_auto;
    auto using hw_keeps_read_raw_bytes, hw_keeps_when_debug.
Qed.

Lemma hw_keeps_read_median times : keeps settings (read_median times).
Proof.
  unfold read_median. keeps_auto; auto using hw_keeps_read_long.
Qed.

Lemma hw_keeps_read_average times : keeps settings (read_average times).
Proof.
  unfold read_average. keeps_auto;
    auto using hw_keeps_read_long, hw_keeps_read_median.
Qed.

(** [set_gain] writes the gain code and nothing else of the settings. *)
Lemma hw_set_gain_keeps g :
  keeps (fun s => (calibration s, (byte_format s, bit_format s))) (set_gain g).
Proof.
  assert (Hr : keeps (fun s => (calibration s, (byte_format s, bit_format s)))
                 read_raw_bytes).
  { intros s s' H. apply hw_keeps_read_raw_bytes in H.
    unfold settings in H. cbv beta. congruence. }
  unfold set_gain, gpio_output. keeps_auto.
Qed.

End HwFrame.

Section EmuFrame.

Import Emu.

Lemma emu_keeps_time_time : keeps settings time_time.
Proof.
  intros s s' H. unfold time_time in H.
  destruct (clock s); cbn in H; [discriminate|].
  inversion H; subst. reflexivity.
Qed.

Lemma emu_keeps_random_draw : keeps settings random_draw.
Proof.
  intros s s' H. unfold random_draw in H.
  destruct (random_draws s); cbn in H; [discriminate|].
  inversion H; subst. reflexivity.
Qed.

Lemma emu_keeps_with_lock {A} (body : M HX711 A) :
  keeps settings body -> keeps settings (with_lock body).
Proof.
  intros Hb s s' H. unfold with_lock in H.
  destruct (read_lock s); [discriminate|].
  destruct (body (with_read_lock true s)) as [a s1 | e s1 |] eqn:E;
    cbn in H; try discriminate; inversion H; subst;
    change (settings s1 = settings (with_read_lock true s));
    apply Hb; now rewrite E.
Qed.

Lemma emu_keeps_is_ready : keeps settings is_ready.
Proof. unfold is_ready. keeps_auto. apply emu_keeps_time_time. Qed.

Lemma emu_keeps_poll_ready n : keeps settings (poll_ready n).
Proof.
  induction n as [|n IH]; cbn.
  - intros s s' H. discriminate.
  - keeps_auto. apply emu_keeps_is_ready.
Qed.

Lemma emu_keeps_wait_until_ready : keeps settings wait_until_ready.
Proof. intros s s' H. eapply emu_keeps_poll_ready, H. Qed.

Lemma emu_keeps_generate_fake_sample : keeps settings generate_fake_sample.
Proof.
  unfold generate_fake_sample, print. keeps_auto;
    auto using emu_keeps_time_time, emu_keeps_random_draw.
Qed.

Lemma emu_keeps_read_raw_bytes : keeps settings read_raw_bytes.
Proof.
  unfold read_raw_bytes. keeps_step.
  - apply emu_keeps_with_lock. keeps_auto;
      auto using emu_keeps_wait_until_ready, emu_keeps_time_time,
        emu_keeps_generate_fake_sample.
  - destruct a as [[b0 b1] b2]. keeps_auto.
Qed.

Lemma emu_keeps_when_debug p : keeps settings (when_debug p).
Proof. unfold when_debug, print. keeps_auto. Qed.

Lemma emu_keeps_read_long : keeps settings read_long.
Proof.
  unfold read_long. keeps_auto;
    auto using emu_keeps_read_raw_bytes, emu_keeps_when_debug.
Qed.

Lemma emu_keeps_read_average times : keeps settings (read_average times).
Proof.
  unfold read_average, print. keeps_auto; auto using emu_keeps_read_long.
Qed.

End EmuFrame.

(** ** The hardware acquisition returns when the chip answers *)

Section HwProgress.

Import Hw.

Lemma sampled_trans j k s s1 s2 :
  sampled j s s1 -> sampled k s1 s2 -> sampled (j + k) s s2.
Proof.
  intros [H1 L1] [H2 L2]. split; [|congruence].
  rewrite H2, H1, skipn_skipn. f_equal. lia.
Qed.

Lemma hw_read_next_bit_returns s :
  (1 <= List.length (dout_levels s))%nat ->
  exists v s', read_next_bit s = Ok v s' /\ sampled 1 s s'.
Proof.
  intros Hl. destruct (dout_levels s) as [|b rest] eqn:E; [cbn in Hl; lia|].
  unfold read_next_bit, bind, gpio_output, modify, gpio_input. cbn.
  rewrite E. eexists _, _. split; [reflexivity|].
  split; cbn; auto. now rewrite E.
Qed.

Lemma hw_read_next_byte_loop_step n acc s :
  read_next_byte_loop (Datatypes.S n) acc s =
  if String.eqb (bit_format s) "MSB" then
    bind read_next_bit
      (fun b => read_next_byte_loop n (Z.lor (Z.shiftl acc 1) b)) s
  else
    bind read_next_bit
      (fun b => read_next_byte_loop n (Z.lor (Z.shiftr acc 1) (b * 0x80))) s.
Proof.
  change (read_next_byte_loop (Datatypes.S n) acc s)
    with ((if String.eqb (bit_format s) "MSB" then
             bind read_next_bit
               (fun b => read_next_byte_loop n (Z.lor (Z.shiftl acc 1) b))
           else
             bind read_next_bit
               (fun b =>
                  read_next_byte_loop n (Z.lor (Z.shiftr acc 1) (b * 0x80))))
            s).
  now destruct (String.eqb (bit_format s) "MSB").
Qed.

Lemma hw_read_next_byte_loop_returns n : forall acc s,
  (n <= List.length (dout_levels s))%nat ->
  exists v s', read_next_byte_loop n acc s = Ok v s' /\ sampled n s s'.
Proof.
  induction n as [|n IH]; intros acc s Hl.
  - eexists _, _. split; [reflexivity|]. now split.
  - destruct (hw_read_next_bit_returns s) as (b & s1 & Hb & Hs1); [lia|].
    assert (Hl1 : (n <= List.length (dout_levels s1))%nat).
    { destruct Hs1 as [-> _]. rewrite length_skipn. lia. }
    rewrite hw_read_next_byte_loop_step.
    destruct (String.eqb (bit_format s) "MSB");
      rewrite (bind_ok _ _ _ _ _ Hb);
      [ destruct (IH (Z.lor (Z.shiftl acc 1) b) s1 Hl1) as (v & s2 & Hv & Hs2)
      | destruct (IH (Z.lor (Z.shiftr acc 1) (b * 128)) s1 Hl1)
          as (v & s2 & Hv & Hs2) ];
      exists v, s2; (split; [exact Hv|]);
      apply (sampled_trans 1 n _ _ _ Hs1 Hs2).
Qed.

Lemma hw_discard_bits_returns n : forall s,
  (n <= List.length (dout_levels s))%nat ->
  exists s', repeat_m n (read_next_bit ;; ret tt) s = Ok tt s' /\
             sampled n s s'.
Proof.
  induction n as [|n IH]; intros s Hl; cbn.
  - eexists. split; [reflexivity|]. now split.
  - destruct (hw_read_next_bit_returns s) as (b & s1 & Hb & Hs1); [lia|].
    assert (Hl1 : (n <= List.length (dout_levels s1))%nat).
    { destruct Hs1 as [-> _]. rewrite length_skipn. lia. }
    destruct (IH s1 Hl1) as (s2 & H2 & Hs2).
    exists s2. split; [|apply (sampled_trans 1 n _ _ _ Hs1 Hs2)].
    unfold bind at 1. unfold bind at 1. rewrite Hb. cbn. exact H2.
Qed.

Lemma hw_poll_ready_returns line : forall fuel s rest,
  dout_levels s = line -> (List.length line < fuel)%nat ->
  after_ready line = Some rest ->
  exists s', poll_ready fuel s = Ok tt s' /\
             dout_levels s' = rest /\ read_lock s' = read_lock s.
Proof.
  induction line as [|b line IH]; intros fuel s rest Hs Hf Hr; cbn in Hr.
  - discriminate.
  - destruct fuel as [|fuel]; [cbn in Hf; lia|]. cbn in Hf.
    cbn. unfold is_ready, bind, gpio_input. rewrite Hs. cbn.
    destruct b; cbn.
    + destruct (IH fuel (with_dout_levels line s) rest) as (s' & H1 & H2 & H3);
        auto; try lia.
      exists s'. auto.
    + inversion Hr; subst. eexists. split; [reflexivity|]. auto.
Qed.

(** One acquisition returns three bytes once the chip answers, leaving the
    lock free. *)
Lemma hw_read_raw_bytes_returns s :
  conversion_ready (gain s) s = true ->
  exists bytes s', read_raw_bytes s = Ok bytes s' /\ read_lock s' = false.
Proof.
  unfold conversion_ready. intros H.
  apply andb_prop in H. destruct H as [Hlock Hrest].
  apply negb_true_iff in Hlock.
  destruct (after_ready (dout_levels s)) as [rest|] eqn:Hr; [|discriminate].
  apply Nat.leb_le in Hrest.
  unfold read_raw_bytes.
  assert (Ha : lock_acquire s = Ok tt (with_read_lock true s)).
  { unfold lock_acquire. now rewrite Hlock. }
  rewrite (bind_ok _ _ _ _ _ Ha).
  destruct (hw_poll_ready_returns (dout_levels s)
              (Datatypes.S (List.length (dout_levels s)))
              (with_read_lock true s) rest)
    as (s1 & H1 & Hd1 & _); auto.
  assert (Hw : wait_until_ready (with_read_lock true s) = Ok tt s1) by exact H1.
  rewrite (bind_ok _ _ _ _ _ Hw).
  assert (Hg1 : gain s1 = gain s).
  { assert (Hk : settings s1 = settings (with_read_lock true s)).
    { apply hw_keeps_wait_until_ready. now rewrite Hw. }
    unfold settings in Hk. cbn in Hk. congruence. }
  unfold read_next_byte.
  destruct (hw_read_next_byte_loop_returns 8 0 s1) as (b1 & s2 & H2 & Hs2);
    [rewrite Hd1; lia|].
  rewrite (bind_ok _ _ _ _ _ H2).
  assert (Hg2 : gain s2 = gain s1).
  { assert (Hk : settings s2 = settings s1).
    { apply (hw_keeps_read_next_byte_loop 8 0). now rewrite H2. }
    unfold settings in Hk. congruence. }
  destruct (hw_read_next_byte_loop_returns 8 0 s2) as (b2 & s3 & H3 & Hs3).
  { destruct Hs2 as [-> _]. rewrite length_skipn, Hd1. lia. }
  rewrite (bind_ok _ _ _ _ _ H3).
  assert (Hs13 := sampled_trans _ _ _ _ _ Hs2 Hs3).
  assert (Hg3 : gain s3 = gain s2).
  { assert (Hk : settings s3 = settings s2).
    { apply (hw_keeps_read_next_byte_loop 8 0). now rewrite H3. }
    unfold settings in Hk. congruence. }
  destruct (hw_read_next_byte_loop_returns 8 0 s3) as (b3 & s4 & H4 & Hs4).
  { destruct Hs13 as [-> _]. rewrite length_skipn, Hd1. lia. }
  rewrite (bind_ok _ _ _ _ _ H4).
  assert (Hs14 := sampled_trans _ _ _ _ _ Hs13 Hs4).
  assert (Hg4 : gain s4 = gain s3).
  { assert (Hk : settings s4 = settings s3).
    { apply (hw_keeps_read_next_byte_loop 8 0). now rewrite H4. }
    unfold settings in Hk. congruence. }
  unfold bind at 1, gets.
  destruct (hw_discard_bits_returns (Z.to_nat (gain s4)) s4)
    as (s5 & H5 & Hs5).
  { destruct Hs14 as [-> _]. rewrite length_skipn, Hd1.
    rewrite Hg4, Hg3, Hg2, Hg1. lia. }
  rewrite (bind_ok _ _ _ _ _ H5).
  unfold lock_release, bind, modify, gets. cbn.
  destruct (String.eqb (byte_format s5) "LSB"); eexists _, _; split;
    reflexivity.
Qed.

End HwProgress.

(** ** 24-bit two's complement *)

Lemma sign_and_magnitude_disjoint y :
  Z.land (Z.land y 0x800000) (Z.land y 0x7fffff) = 0.
Proof.
  apply Z.bits_inj'. intros n _.
  rewrite !Z.land_spec, Z.bits_0.
  assert (H : Z.testbit 0x800000 n && Z.testbit 0x7fffff n = false).
  { rewrite <- Z.land_spec. change (Z.land 0x800000 0x7fffff) with 0.
    apply Z.bits_0. }
  destruct (Z.testbit y n), (Z.testbit 0x800000 n), (Z.testbit 0x7fffff n);
    cbn in *; congruence.
Qed.

(** On a 24-bit word the sign bit and the magnitude bits add up to the
    word. *)
Lemma sign_plus_magnitude y :
  0 <= y < 2 ^ 24 -> Z.land y 0x800000 + Z.land y 0x7fffff = y.
Proof.
  intros Hy.
  rewrite <- Z.add_lor_land, sign_and_magnitude_disjoint, Z.add_0_r.
  rewrite <- Z.land_lor_distr_r.
  change (Z.lor 0x800000 0x7fffff) with (Z.ones 24).
  rewrite Z.land_ones by lia. apply Z.mod_small. exact Hy.
Qed.

Lemma convert_from_arith y :
  0 <= y < 2 ^ 24 ->
  convert_from_twos_complement_24_bit y = 2 * (y mod 2 ^ 23) - y.
Proof.
  intros Hy. unfold convert_from_twos_complement_24_bit.
  pose proof (sign_plus_magnitude y Hy) as Hs.
  change 0x7fffff with (Z.ones 23) in *.
  rewrite Z.land_ones in * by lia. lia.
Qed.

(** Claim C3.  For every integer [x] with [-0x800000 <= x <= 0x7FFFFF],
    decoding the 24-bit two's complement encoding of [x] gives [x] back. *)
Theorem twos_complement_round_trip x :
  - 0x800000 <= x <= 0x7FFFFF ->
  convert_from_twos_complement_24_bit
    (Emu.convert_to_twos_complement_24_bit x) = x.
Proof.
  intros Hx. unfold Emu.convert_to_twos_complement_24_bit.
  rewrite !Z.geb_leb.
  destruct (Z.leb_spec 0x7fffff x) as [Hmax | Hmax].
  - replace x with 0x7fffff by lia. reflexivity.
  - destruct (Z.leb_spec 0 x) as [Hpos | Hneg].
    + change 0x7fffff with (Z.ones 23). rewrite Z.land_ones by lia.
      rewrite Z.mod_small by (change (2 ^ 23) with 0x800000; lia).
      rewrite convert_from_arith by (change (2 ^ 24) with 0x1000000; lia).
      rewrite Z.mod_small by (change (2 ^ 23) with 0x800000; lia). lia.
    + destruct (Z.ltb_spec x (- 0x800000)) as [Hlow | Hlow]; [lia|].
      rewrite convert_from_arith by (change (2 ^ 24) with 0x1000000; lia).
      replace (0x800000 + (x + 0x800000)) with (x + 0x800000 + 1 * 2 ^ 23)
        by (change (2 ^ 23) with 0x800000; lia).
      rewrite Z.mod_add by lia.
      rewrite Z.mod_small by (change (2 ^ 23) with 0x800000; lia).
      change (2 ^ 23) with 0x800000. lia.
Qed.

Lemma twos_complement_round_trip_witness :
  - 0x800000 <= - 5 <= 0x7FFFFF /\
  convert_from_twos_complement_24_bit
    (Emu.convert_to_twos_complement_24_bit (- 5)) = - 5.
Proof. split; [lia | apply twos_complement_round_trip; lia]. Defined.

(** Claim C4.  The encoding saturates at the 24-bit bounds: for every
    [k > 0], [0x7FFFFF + k] is encoded as [0x7FFFFF], and [-0x800000 - k] is
    encoded like [-0x800000] itself, by the word [0x800000] that decodes to
    [-0x800000]. *)
Theorem encoding_saturates k :
  0 < k ->
  Emu.convert_to_twos_complement_24_bit (0x7FFFFF + k) = 0x7FFFFF /\
  convert_from_twos_complement_24_bit
    (Emu.convert_to_twos_complement_24_bit (0x7FFFFF + k)) = 0x7FFFFF /\
  Emu.convert_to_twos_complement_24_bit (- 0x800000 - k) =
    Emu.convert_to_twos_complement_24_bit (- 0x800000) /\
  Emu.convert_to_twos_complement_24_bit (- 0x800000 - k) = 0x800000 /\
  convert_from_twos_complement_24_bit
    (Emu.convert_to_twos_complement_24_bit (- 0x800000 - k)) = - 0x800000.
Proof.
  intros Hk.
  assert (Hhi : Emu.convert_to_twos_complement_24_bit (0x7FFFFF + k)
                = 0x7FFFFF).
  { unfold Emu.convert_to_twos_complement_24_bit. rewrite Z.geb_leb.
    destruct (Z.leb_spec 0x7fffff (0x7FFFFF + k)); [reflexivity | lia]. }
  assert (Hlo : Emu.convert_to_twos_complement_24_bit (- 0x800000 - k)
                = 0x800000).
  { unfold Emu.convert_to_twos_complement_24_bit. rewrite !Z.geb_leb.
    destruct (Z.leb_spec 0x7fffff (- 0x800000 - k)); [lia|].
    destruct (Z.leb_spec 0 (- 0x800000 - k)); [lia|].
    destruct (Z.ltb_spec (- 0x800000 - k) (- 0x800000)); [reflexivity | lia]. }
  rewrite Hhi, Hlo. repeat split; reflexivity.
Qed.

Lemma encoding_saturates_witness :
  0 < 1 /\
  Emu.convert_to_twos_complement_24_bit (0x7FFFFF + 1) = 0x7FFFFF /\
  convert_from_twos_complement_24_bit
    (Emu.convert_to_twos_complement_24_bit (0x7FFFFF + 1)) = 0x7FFFFF /\
  Emu.convert_to_twos_complement_24_bit (- 0x800000 - 1) =
    Emu.convert_to_twos_complement_24_bit (- 0x800000) /\
  Emu.convert_to_twos_complement_24_bit (- 0x800000 - 1) = 0x800000 /\
  convert_from_twos_complement_24_bit
    (Emu.convert_to_twos_complement_24_bit (- 0x800000 - 1)) = - 0x800000.
Proof. split; [lia | apply encoding_saturates; lia]. Defined.

(** ** Argument validation *)

(** Claim C5.  In the hardware-backed driver, for every [times <= 0] both
    [read_average(times)] and [read_median(times)] raise [ValueError]; the
    state is exactly the one before the call, so nothing was sampled from
    DOUT and no clock pulse was sent. *)
Theorem nonpositive_count_rejected times (s : Hw.HX711) :
  times <= 0 ->
  Hw.read_average times s = Raise ValueError s /\
  Hw.read_median times s = Raise ValueError s.
Proof.
  intros Ht. unfold Hw.read_average, Hw.read_median.
  destruct (Z.leb_spec times 0); [|lia]. split; reflexivity.
Qed.

Lemma nonpositive_count_rejected_witness :
  -2 <= 0 /\
  Hw.read_average (-2) (hw_idle (conversions 1 [7; 8])) =
    Raise ValueError (hw_idle (conversions 1 [7; 8])) /\
  Hw.read_median (-2) (hw_idle (conversions 1 [7; 8])) =
    Raise ValueError (hw_idle (conversions 1 [7; 8])).
Proof. split; [lia | apply nonpositive_count_rejected; lia]. Defined.

(** Against claim C6 as stated: the simulated driver does not raise on a
    zero reference unit, it prints a line and returns. *)
Lemma emulated_zero_reference_unit_returns :
  ~ (forall s : Emu.HX711,
       exists e s', Emu.set_reference_unit 0 s = Raise e s').
Proof.
  intros H. destruct (H (emu_idle [])) as (e & s' & Hs). discriminate Hs.
Qed.

(** Claim C6, as amended.  A reference unit equal to 0 is refused and the
    stored units stay as they were: the hardware-backed [set_reference_unit],
    [set_reference_unit_a] and [set_reference_unit_b] raise [ValueError] in
    an unchanged state; the simulated [set_reference_unit] prints a line and
    returns normally, the reference unit unchanged.  Any other value is
    stored for the addressed channel, the other channel untouched. *)
Theorem reference_unit_zero_refused (v : Q) :
  ((v == 0)%Q ->
   (forall s : Hw.HX711,
      Hw.set_reference_unit v s = Raise ValueError s /\
      Hw.set_reference_unit_a v s = Raise ValueError s /\
      Hw.set_reference_unit_b v s = Raise ValueError s) /\
   (forall s : Emu.HX711,
      exists s', Emu.set_reference_unit v s = Ok tt s' /\
                 Emu.stdout s' = PrZeroReferenceUnit :: Emu.stdout s /\
                 Emu.settings s' = Emu.settings s)) /\
  (~ (v == 0)%Q ->
   (forall s : Hw.HX711,
      exists sa sb,
        Hw.set_reference_unit v s = Ok tt sa /\
        Hw.set_reference_unit_a v s = Ok tt sa /\
        Hw.reference_unit sa = v /\
        Hw.reference_unit_b sa = Hw.reference_unit_b s /\
        Hw.set_reference_unit_b v s = Ok tt sb /\
        Hw.reference_unit_b sb = v /\
        Hw.reference_unit sb = Hw.reference_unit s) /\
   (forall s : Emu.HX711,
      exists s', Emu.set_reference_unit v s = Ok tt s' /\
                 Emu.reference_unit s' = v)).
Proof.
  split; intros Hv.
  - apply Qeq_bool_iff in Hv. split; intros s.
    + unfold Hw.set_reference_unit, Hw.set_reference_unit_a,
        Hw.set_reference_unit_b. rewrite Hv. repeat split.
    + unfold Emu.set_reference_unit. rewrite Hv.
      eexists. split; [reflexivity|]. split; reflexivity.
  - assert (Hb : Qeq_bool v 0 = false).
    { destruct (Qeq_bool v 0) eqn:E; [|reflexivity].
      apply Qeq_bool_iff in E. contradiction. }
    split; intros s.
    + unfold Hw.set_reference_unit, Hw.set_reference_unit_a,
        Hw.set_reference_unit_b. rewrite Hb.
      eexists _, _. repeat split.
    + unfold Emu.set_reference_unit. rewrite Hb.
      eexists. split; reflexivity.
Qed.

Lemma reference_unit_zero_refused_witness :
  (0 == 0)%Q /\ ~ (5 # 2 == 0)%Q /\
  Hw.set_reference_unit_b 0 (hw_idle []) = Raise ValueError (hw_idle []) /\
  (exists s', Emu.set_reference_unit (5 # 2) (emu_idle []) = Ok tt s' /\
              Emu.reference_unit s' = 5 # 2).
Proof.
  assert (H0 : (0 == 0)%Q) by reflexivity.
  assert (H1 : ~ (5 # 2 == 0)%Q) by (intros H; discriminate H).
  split; [exact H0|]. split; [exact H1|]. split.
  - apply (proj1 (proj1 (reference_unit_zero_refused 0) H0)).
  - apply (proj2 (proj2 (reference_unit_zero_refused (5 # 2)) H1)).
Defined.

(** Claim C7, at the failing input.  With a recognised byte format and an
    unrecognised bit format the hardware-backed [set_reading_format] stores
    the byte format and only then raises [ValueError]: the call is refused
    with [byte_format] already changed.  The simulated one refuses nothing:
    it prints a line for the unrecognised field and stores the other. *)
Theorem set_reading_format_partial_update :
  (forall s : Hw.HX711,
     Hw.set_reading_format (PStr "LSB") (PStr "XYZ") s =
       Raise ValueError (Hw.with_byte_format "LSB" s)) /\
  (exists s', Hw.set_reading_format (PStr "LSB") (PStr "XYZ") (hw_idle []) =
                Raise ValueError s' /\
              Hw.byte_format (hw_idle []) = "MSB"%string /\
              Hw.byte_format s' = "LSB"%string) /\
  (forall s : Emu.HX711,
     exists s', Emu.set_reading_format (PStr "XYZ") (PStr "LSB") s =
                  Ok tt s' /\
                Emu.bit_format s' = "LSB"%string /\
                Emu.byte_format s' = Emu.byte_format s).
Proof.
  split; [|split].
  - intros s. reflexivity.
  - eexists. split; [reflexivity|]. split; reflexivity.
  - intros s. eexists. split; [reflexivity|]. split; reflexivity.
Qed.

(** With an unrecognised byte format, or an argument that is not a string,
    the hardware-backed [set_reading_format] raises before any write. *)
Lemma hw_set_reading_format_refused_early byte_format bit_format
    (s : Hw.HX711) :
  match byte_format, bit_format with
  | PStr byte_s, PStr _ => str_in (py_upper byte_s) ["LSB"; "MSB"]%string = false
  | _, _ => True
  end ->
  Hw.set_reading_format byte_format bit_format s = Raise ValueError s.
Proof.
  unfold Hw.set_reading_format.
  destruct byte_format as [byte_s| |]; destruct bit_format as [bit_s| |];
    try reflexivity.
  intros ->. reflexivity.
Qed.

(** ** Gain selection *)

Lemma hw_get_gain_eq (s : Hw.HX711) :
  Hw.get_gain s = Ok (gain_of_code (Hw.gain s)) s.
Proof.
  unfold Hw.get_gain, gain_of_code, bind, gets, ret.
  destruct (Hw.gain s =? 1); [reflexivity|].
  destruct (Hw.gain s =? 3); [reflexivity|].
  destruct (Hw.gain s =? 2); reflexivity.
Qed.

Lemma emu_get_gain_eq (s : Emu.HX711) :
  Emu.get_gain s = Ok (gain_of_code (Emu.gain s)) s.
Proof.
  unfold Emu.get_gain, gain_of_code, bind, gets, ret.
  destruct (Emu.gain s =? 1); [reflexivity|].
  destruct (Emu.gain s =? 3); [reflexivity|].
  destruct (Emu.gain s =? 2); reflexivity.
Qed.

Lemma gain_of_code_of_gain v :
  v = 128 \/ v = 64 \/ v = 32 -> gain_of_code (Hw.code_of_gain v) = v.
Proof. intros [-> | [-> | ->]]; reflexivity. Qed.

(** [set_gain] is the selection of the code followed by one acquisition
    whose bytes are thrown away. *)
Lemma hw_set_gain_valid v (s : Hw.HX711) :
  v = 128 \/ v = 64 \/ v = 32 ->
  Hw.set_gain v s =
  bind Hw.read_raw_bytes (fun _ => ret tt)
    (Hw.with_sck_levels (false :: Hw.sck_levels s)
       (Hw.with_gain (Hw.code_of_gain v) s)).
Proof. intros [-> | [-> | ->]]; reflexivity. Qed.

Lemma hw_set_gain_invalid v (s : Hw.HX711) :
  v <> 128 -> v <> 64 -> v <> 32 ->
  Hw.set_gain v s =
  bind Hw.read_raw_bytes (fun _ => ret tt)
    (Hw.with_sck_levels (false :: Hw.sck_levels s) s).
Proof.
  intros H1 H2 H3. unfold Hw.set_gain.
  destruct (Z.eqb_spec v 128); [contradiction|].
  destruct (Z.eqb_spec v 64); [contradiction|].
  destruct (Z.eqb_spec v 32); [contradiction|]. reflexivity.
Qed.

Lemma emu_set_gain_valid v (s : Emu.HX711) :
  v = 128 \/ v = 64 \/ v = 32 ->
  Emu.set_gain v s =
  bind Emu.read_raw_bytes (fun _ => ret tt)
    (Emu.with_gain (Emu.code_of_gain v) s).
Proof. intros [-> | [-> | ->]]; reflexivity. Qed.

Lemma emu_set_gain_invalid v (s : Emu.HX711) :
  v <> 128 -> v <> 64 -> v <> 32 ->
  Emu.set_gain v s = bind Emu.read_raw_bytes (fun _ => ret tt) s.
Proof.
  intros H1 H2 H3. unfold Emu.set_gain.
  destruct (Z.eqb_spec v 128); [contradiction|].
  destruct (Z.eqb_spec v 64); [contradiction|].
  destruct (Z.eqb_spec v 32); [contradiction|]. reflexivity.
Qed.

(** Whatever a discarding acquisition ends in, the gain code is the one it
    started with. *)
Lemma hw_discard_keeps_gain (s s' : Hw.HX711) :
  final (bind Hw.read_raw_bytes (fun _ => ret tt) s) = Some s' ->
  Hw.gain s' = Hw.gain s.
Proof.
  intros H.
  assert (Hk : Hw.settings s' = Hw.settings s).
  { revert H. apply keeps_bind; [apply hw_keeps_read_raw_bytes|].
    intros _. apply keeps_ret. }
  unfold Hw.settings in Hk. congruence.
Qed.

Lemma emu_discard_keeps_gain (s s' : Emu.HX711) :
  final (bind Emu.read_raw_bytes (fun _ => ret tt) s) = Some s' ->
  Emu.gain s' = Emu.gain s.
Proof.
  intros H.
  assert (Hk : Emu.settings s' = Emu.settings s).
  { revert H. apply keeps_bind; [apply emu_keeps_read_raw_bytes|].
    intros _. apply keeps_ret. }
  unfold Emu.settings in Hk. congruence.
Qed.

Lemma hw_set_gain_stores v (s s' : Hw.HX711) :
  v = 128 \/ v = 64 \/ v = 32 ->
  final (Hw.set_gain v s) = Some s' -> Hw.gain s' = Hw.code_of_gain v.
Proof.
  intros Hv H. rewrite (hw_set_gain_valid v s Hv) in H.
  now apply hw_discard_keeps_gain in H.
Qed.

Lemma hw_set_gain_keeps_invalid v (s s' : Hw.HX711) :
  v <> 128 -> v <> 64 -> v <> 32 ->
  final (Hw.set_gain v s) = Some s' -> Hw.gain s' = Hw.gain s.
Proof.
  intros H1 H2 H3 H. rewrite (hw_set_gain_invalid v s H1 H2 H3) in H.
  now apply hw_discard_keeps_gain in H.
Qed.

(** Claim C8.  For [v] in {128, 64, 32}, [set_gain(v)] followed by
    [get_gain()] returns [v]: the hardware-backed call returns once the chip
    answers the acquisition that [set_gain] throws away, the simulated one
    once its own discarded acquisition completes.  For any other input the
    stored gain code, hence [get_gain()], is the one before the call, however
    the call ends, and the call returns under the same conditions. *)
Theorem gain_round_trip (v : Z) :
  (v = 128 \/ v = 64 \/ v = 32 ->
   (forall s : Hw.HX711,
      Hw.conversion_ready (Hw.code_of_gain v) s = true ->
      exists s', Hw.set_gain v s = Ok tt s' /\ Hw.get_gain s' = Ok v s') /\
   (forall (s : Emu.HX711) bytes s',
      Emu.read_raw_bytes (Emu.with_gain (Emu.code_of_gain v) s)
        = Ok bytes s' ->
      Emu.set_gain v s = Ok tt s' /\ Emu.get_gain s' = Ok v s')) /\
  (v <> 128 -> v <> 64 -> v <> 32 ->
   (forall s s' : Hw.HX711,
      final (Hw.set_gain v s) = Some s' ->
      Hw.gain s' = Hw.gain s /\
      exists g, Hw.get_gain s = Ok g s /\ Hw.get_gain s' = Ok g s') /\
   (forall s : Hw.HX711,
      Hw.conversion_ready (Hw.gain s) s = true ->
      exists s', Hw.set_gain v s = Ok tt s') /\
   (forall s s' : Emu.HX711,
      final (Emu.set_gain v s) = Some s' ->
      Emu.gain s' = Emu.gain s /\
      exists g, Emu.get_gain s = Ok g s /\ Emu.get_gain s' = Ok g s') /\
   (forall (s : Emu.HX711) bytes s',
      Emu.read_raw_bytes s = Ok bytes s' -> Emu.set_gain v s = Ok tt s')).
Proof.
  split.
  - intros Hv. split.
    + intros s Hready.
      destruct (hw_read_raw_bytes_returns
                  (Hw.with_sck_levels (false :: Hw.sck_levels s)
                     (Hw.with_gain (Hw.code_of_gain v) s)))
        as (bytes & s' & Hread & _); [exact Hready|].
      exists s'.
      assert (Hset : Hw.set_gain v s = Ok tt s').
      { rewrite (hw_set_gain_valid v s Hv).
        now rewrite (bind_ok _ _ _ _ _ Hread). }
      split; [exact Hset|].
      rewrite hw_get_gain_eq,
        (hw_set_gain_stores v s s' Hv) by (now rewrite Hset).
      now rewrite gain_of_code_of_gain.
    + intros s bytes s' Hread.
      assert (Hset : Emu.set_gain v s = Ok tt s').
      { rewrite (emu_set_gain_valid v s Hv).
        now rewrite (bind_ok _ _ _ _ _ Hread). }
      split; [exact Hset|].
      rewrite emu_get_gain_eq.
      assert (Hg : Emu.gain s' = Emu.code_of_gain v).
      { assert (Hk : Emu.settings s' =
                     Emu.settings (Emu.with_gain (Emu.code_of_gain v) s)).
        { apply emu_keeps_read_raw_bytes. now rewrite Hread. }
        unfold Emu.settings in Hk. cbn in Hk. congruence. }
      rewrite Hg. change (Emu.code_of_gain v) with (Hw.code_of_gain v).
      now rewrite (gain_of_code_of_gain v Hv).
  - intros H1 H2 H3. repeat split.
    + now apply (hw_set_gain_keeps_invalid v).
    + exists (gain_of_code (Hw.gain s)).
      rewrite !hw_get_gain_eq.
      now rewrite (hw_set_gain_keeps_invalid v s s').
    + intros s Hready.
      destruct (hw_read_raw_bytes_returns
                  (Hw.with_sck_levels (false :: Hw.sck_levels s) s))
        as (bytes & s' & Hread & _); [exact Hready|].
      exists s'. rewrite (hw_set_gain_invalid v s H1 H2 H3).
      now rewrite (bind_ok _ _ _ _ _ Hread).
    + rewrite (emu_set_gain_invalid v s H1 H2 H3) in H.
      now apply emu_discard_keeps_gain in H.
    + exists (gain_of_code (Emu.gain s)).
      rewrite !emu_get_gain_eq.
      rewrite (emu_set_gain_invalid v s H1 H2 H3) in H.
      apply emu_discard_keeps_gain in H. now rewrite H.
    + intros s bytes s' Hread.
      rewrite (emu_set_gain_invalid v s H1 H2 H3).
      now rewrite (bind_ok _ _ _ _ _ Hread).
Qed.

Lemma gain_round_trip_witness :
  (64 = 128 \/ 64 = 64 \/ 64 = 32) /\
  Hw.conversion_ready (Hw.code_of_gain 64) (hw_idle (conversions 3 [0]))
    = true /\
  (exists s', Hw.set_gain 64 (hw_idle (conversions 3 [0])) = Ok tt s' /\
              Hw.get_gain s' = Ok 64 s') /\
  (exists s', Emu.set_gain 64 (emu_idle [0]) = Ok tt s' /\
              Emu.get_gain s' = Ok 64 s') /\
  (5 <> 128 /\ 5 <> 64 /\ 5 <> 32) /\
  (exists s', Hw.set_gain 5 (hw_idle (conversions 1 [0])) = Ok tt s').
Proof.
  assert (Hv : 64 = 128 \/ 64 = 64 \/ 64 = 32) by (right; left; reflexivity).
  assert (Hr : Hw.conversion_ready (Hw.code_of_gain 64)
                 (hw_idle (conversions 3 [0])) = true) by reflexivity.
  split; [exact Hv|]. split; [exact Hr|]. split; [|split; [|split]].
  - exact (proj1 (proj1 (gain_round_trip 64) Hv) _ Hr).
  - destruct (Emu.read_raw_bytes
                (Emu.with_gain (Emu.code_of_gain 64) (emu_idle [0])))
      as [bytes s' | e s' |] eqn:E.
    + exists s'. exact (proj2 (proj1 (gain_round_trip 64) Hv) _ _ _ E).
    + vm_compute in E. discriminate E.
    + vm_compute in E. discriminate E.
  - repeat split; lia.
  - apply (proj2 (gain_round_trip 5)); try lia. reflexivity.
Defined.

(** ** Channel B *)

Lemma code_of_gain_of_code c g :
  gain_of_code c = g -> g = 128 \/ g = 64 \/ g = 32 -> Hw.code_of_gain g = c.
Proof.
  unfold gain_of_code. intros Hc Hg.
  destruct (Z.eqb_spec c 1); [subst; reflexivity|].
  destruct (Z.eqb_spec c 3); [subst; reflexivity|].
  destruct (Z.eqb_spec c 2); [subst; reflexivity|]. lia.
Qed.

Ltac bind_inv H :=
  let a := fresh "a" in
  let s := fresh "s" in
  let Ha := fresh "H" in
  apply bind_ok_inv in H; destruct H as (a & s & Ha & H).

Lemma hw_settings_gain (s s' : Hw.HX711) :
  Hw.settings s' = Hw.settings s ->
  Hw.gain s' = Hw.gain s /\ Hw.reference_unit_b s' = Hw.reference_unit_b s /\
  Hw.offset_b s' = Hw.offset_b s /\ Hw.offset s' = Hw.offset s /\
  Hw.reference_unit s' = Hw.reference_unit s.
Proof.
  unfold Hw.settings, Hw.calibration. intros H.
  inversion H. repeat split; congruence.
Qed.

Lemma hw_set_gain_calibration g (s s' : Hw.HX711) :
  final (Hw.set_gain g s) = Some s' ->
  Hw.reference_unit_b s' = Hw.reference_unit_b s /\
  Hw.offset_b s' = Hw.offset_b s.
Proof.
  intros H. apply hw_set_gain_keeps in H. unfold Hw.calibration in H.
  inversion H. split; congruence.
Qed.

(** Claim C9.  When a gain [g] of {128, 64, 32} is selected,
    [get_value_b(times)] and [tare_B(times)] select gain 32 (code 2, channel
    B), acquire with that code, and select [g] again: on return [get_gain()]
    is [g], and after [tare_B] the channel-B reference unit is the one before
    the call.  Both return as soon as each of their steps does. *)
Theorem channel_b_restores_gain times g (s : Hw.HX711) :
  Hw.get_gain s = Ok g s ->
  g = 128 \/ g = 64 \/ g = 32 ->
  (forall r s',
     Hw.get_value_b times s = Ok r s' ->
     Hw.get_gain s' = Ok g s' /\
     exists s1 m s2,
       Hw.set_gain 32 s = Ok tt s1 /\ Hw.gain s1 = 2 /\
       Hw.read_median times s1 = Ok m s2 /\ Hw.gain s2 = 2 /\
       r = (m - Hw.offset_b s)%Q /\
       Hw.set_gain g s2 = Ok tt s') /\
  (forall s1 m s2 s3,
     Hw.set_gain 32 s = Ok tt s1 ->
     Hw.read_median times s1 = Ok m s2 ->
     Hw.set_gain g s2 = Ok tt s3 ->
     Hw.get_value_b times s = Ok (m - Hw.offset_b s)%Q s3) /\
  (forall r s',
     Hw.tare_B times s = Ok r s' ->
     Hw.get_gain s' = Ok g s' /\
     Hw.reference_unit_b s' = Hw.reference_unit_b s /\
     Hw.offset_b s' = r /\
     exists s1 s2,
       Hw.set_gain 32 (Hw.with_reference_unit_b 1 s) = Ok tt s1 /\
       Hw.gain s1 = 2 /\
       Hw.read_average times s1 = Ok r s2 /\ Hw.gain s2 = 2) /\
  (forall s1 v s2 s3 s4,
     Hw.set_gain 32 (Hw.with_reference_unit_b 1 s) = Ok tt s1 ->
     Hw.read_average times s1 = Ok v s2 ->
     Hw.when_debug (PrTare "B" v) s2 = Ok tt s3 ->
     Hw.set_gain g (Hw.with_offset_b v s3) = Ok tt s4 ->
     ~ (Hw.reference_unit_b s == 0)%Q ->
     Hw.tare_B times s =
       Ok v (Hw.with_reference_unit_b (Hw.reference_unit_b s) s4)).
Proof.
  intros Hg Hvalid.
  assert (Hcode : Hw.code_of_gain g = Hw.gain s).
  { rewrite hw_get_gain_eq in Hg. inversion Hg as [Hgc].
    rewrite Hgc. now apply code_of_gain_of_code. }
  assert (H32 : 32 = 128 \/ 32 = 64 \/ 32 = 32) by (right; right; reflexivity).
  assert (Hback : forall t t' : Hw.HX711,
             Hw.set_gain g t = Ok tt t' -> Hw.get_gain t' = Ok g t').
  { intros t t' Ht. rewrite hw_get_gain_eq.
    rewrite (hw_set_gain_stores g t t' Hvalid) by (now rewrite Ht).
    now rewrite gain_of_code_of_gain. }
  split; [|split; [|split]].
  - intros r s' H. unfold Hw.get_value_b in H.
    rewrite (bind_ok _ _ _ _ _ Hg) in H.
    bind_inv H. destruct a. rename s0 into s1, H0 into Hset.
    bind_inv H. rename a into m, s0 into s2, H0 into Hmed.
    unfold Hw.get_offset_b, gets in H. unfold bind at 1 in H.
    bind_inv H. destruct a. rename s0 into s3, H0 into Hrest.
    inversion H; subst r s3.
    assert (Hg1 : Hw.gain s1 = 2).
    { apply (hw_set_gain_stores 32 s s1 H32). now rewrite Hset. }
    assert (Hk2 : Hw.settings s2 = Hw.settings s1).
    { apply (hw_keeps_read_median times). now rewrite Hmed. }
    apply hw_settings_gain in Hk2. destruct Hk2 as (Hg2 & _ & Hob2 & _).
    assert (Hc1 := hw_set_gain_calibration 32 s s1).
    rewrite Hset in Hc1. destruct (Hc1 eq_refl) as [_ Hob1].
    split; [now apply (Hback s2)|].
    exists s1, m, s2. repeat split; auto; congruence.
  - intros s1 m s2 s3 Hset Hmed Hrest. unfold Hw.get_value_b.
    rewrite (bind_ok _ _ _ _ _ Hg), (bind_ok _ _ _ _ _ Hset),
      (bind_ok _ _ _ _ _ Hmed).
    unfold Hw.get_offset_b, gets. unfold bind at 1.
    rewrite (bind_ok _ _ _ _ _ Hrest). unfold ret.
    assert (Hk2 : Hw.settings s2 = Hw.settings s1).
    { apply (hw_keeps_read_median times). now rewrite Hmed. }
    apply hw_settings_gain in Hk2. destruct Hk2 as (_ & _ & Hob2 & _).
    assert (Hc1 := hw_set_gain_calibration 32 s s1).
    rewrite Hset in Hc1. destruct (Hc1 eq_refl) as [_ Hob1].
    now rewrite Hob2, Hob1.
  - intros r s' H. unfold Hw.tare_B in H.
    unfold Hw.get_reference_unit_b, gets in H. unfold bind at 1 in H.
    unfold Hw.set_reference_unit_b at 1 in H.
    change (Qeq_bool 1 0) with false in H. cbv iota in H.
    unfold bind at 1, modify in H.
    assert (Hg' : Hw.get_gain (Hw.with_reference_unit_b 1 s)
                  = Ok g (Hw.with_reference_unit_b 1 s)).
    { rewrite hw_get_gain_eq. rewrite hw_get_gain_eq in Hg.
      inversion Hg as [Hgc]. cbn. now rewrite !Hgc. }
    rewrite (bind_ok _ _ _ _ _ Hg') in H.
    bind_inv H. destruct a. rename s0 into s1, H0 into Hset.
    bind_inv H. rename a into v, s0 into s2, H0 into Havg.
    bind_inv H. destruct a. rename s0 into s3, H0 into Hdbg.
    unfold Hw.set_offset_b, modify in H. unfold bind at 1 in H.
    bind_inv H. destruct a. rename s0 into s4, H0 into Hrest.
    bind_inv H. destruct a. rename s0 into s5, H0 into Href.
    inversion H; subst r s5.
    unfold Hw.set_reference_unit_b in Href.
    destruct (Qeq_bool (Hw.reference_unit_b s) 0); [discriminate|].
    inversion Href; subst s'.
    assert (Hg1 : Hw.gain s1 = 2).
    { apply (hw_set_gain_stores 32 (Hw.with_reference_unit_b 1 s) s1 H32).
      now rewrite Hset. }
    assert (Hk2 : Hw.settings s2 = Hw.settings s1).
    { apply (hw_keeps_read_average times). now rewrite Havg. }
    apply hw_settings_gain in Hk2. destruct Hk2 as (Hg2 & _).
    assert (Hc4 := hw_set_gain_calibration g (Hw.with_offset_b v s3) s4).
    rewrite Hrest in Hc4. destruct (Hc4 eq_refl) as [_ Hob4].
    split; [|split; [|split]].
    + rewrite hw_get_gain_eq. cbn.
      assert (Hb := Hback _ _ Hrest). rewrite hw_get_gain_eq in Hb.
      inversion Hb as [Hgc]. now rewrite !Hgc.
    + reflexivity.
    + cbn. exact Hob4.
    + exists s1, s2. repeat split; auto; congruence.
  - intros s1 v s2 s3 s4 Hset Havg Hdbg Hrest Hnz. unfold Hw.tare_B.
    unfold Hw.get_reference_unit_b, gets. unfold bind at 1.
    unfold Hw.set_reference_unit_b at 1.
    change (Qeq_bool 1 0) with false. cbv iota.
    unfold bind at 1, modify.
    assert (Hg' : Hw.get_gain (Hw.with_reference_unit_b 1 s)
                  = Ok g (Hw.with_reference_unit_b 1 s)).
    { rewrite hw_get_gain_eq. rewrite hw_get_gain_eq in Hg.
      inversion Hg as [Hgc]. cbn. now rewrite !Hgc. }
    rewrite (bind_ok _ _ _ _ _ Hg'), (bind_ok _ _ _ _ _ Hset),
      (bind_ok _ _ _ _ _ Havg), (bind_ok _ _ _ _ _ Hdbg).
    unfold Hw.set_offset_b, modify. unfold bind at 1.
    rewrite (bind_ok _ _ _ _ _ Hrest).
    unfold Hw.set_reference_unit_b, bind.
    destruct (Qeq_bool (Hw.reference_unit_b s) 0) eqn:E.
    + apply Qeq_bool_iff in E. contradiction.
    + reflexivity.
Qed.

Lemma channel_b_restores_gain_witness :
  let s := hw_idle (conversions 2 [0; 10; 20; 30] ++ conversions 1 [0]) in
  let t := hw_idle (conversions 2 [0; 1; 2; 3; 4; 5] ++ conversions 1 [0]) in
  Hw.get_gain s = Ok 128 s /\
  Hw.get_gain t = Ok 128 t /\
  (128 = 128 \/ 128 = 64 \/ 128 = 32) /\
  (exists r s', Hw.get_value_b 3 s = Ok r s' /\ Hw.get_gain s' = Ok 128 s') /\
  (exists r t', Hw.tare_B 5 t = Ok r t' /\ Hw.get_gain t' = Ok 128 t' /\
                Hw.reference_unit_b t' = Hw.reference_unit_b t).
Proof.
  intros s t.
  assert (Hg : Hw.get_gain s = Ok 128 s) by reflexivity.
  assert (Hgt : Hw.get_gain t = Ok 128 t) by reflexivity.
  assert (Hv : 128 = 128 \/ 128 = 64 \/ 128 = 32) by (left; reflexivity).
  split; [exact Hg|]. split; [exact Hgt|]. split; [exact Hv|]. split.
  - destruct (Hw.get_value_b 3 s) as [r s' | e s' |] eqn:E.
    + exists r, s'. split; [reflexivity|].
      exact (proj1 (proj1 (channel_b_restores_gain 3 128 s Hg Hv) r s' E)).
    + vm_compute in E. discriminate E.
    + vm_compute in E. discriminate E.
  - destruct (Hw.tare_B 5 t) as [r t' | e t' |] eqn:E.
    + exists r, t'. split; [reflexivity|].
      destruct (proj1 (proj2 (proj2 (channel_b_restores_gain 5 128 t Hgt Hv)))
                  r t' E) as (H1 & H2 & _).
      split; [exact H1 | exact H2].
    + vm_compute in E. discriminate E.
    + vm_compute in E. discriminate E.
Defined.

(** Leaving channel B through an exception: the count is checked after gain
    32 was selected, so the gain is not selected back. *)
Lemma hw_get_value_b_raise_keeps_channel_b :
  exists s', Hw.get_value_b 0 (hw_idle (conversions 2 [0])) =
               Raise ValueError s' /\ Hw.get_gain s' = Ok 32 s'.
Proof.
  destruct (Hw.get_value_b 0 (hw_idle (conversions 2 [0])))
    as [r s' | e s' |] eqn:E; vm_compute in E; try discriminate E.
  inversion E; subst. eexists. split; [reflexivity|]. vm_compute. reflexivity.
Qed.

(** ** A fresh driver *)

Lemma keeps_proj {S A T U} (f : S -> T) (p : T -> U) (m : M S A) :
  keeps f m -> keeps (fun s => p (f s)) m.
Proof. intros H s s' Hs. cbv beta. now rewrite (H s s' Hs). Qed.

Lemma emu_set_gain_keeps g : keeps Emu.calibration (Emu.set_gain g).
Proof.
  assert (Hr : keeps Emu.calibration Emu.read_raw_bytes).
  { apply (keeps_proj Emu.settings (fun t => snd (fst t))).
    apply emu_keeps_read_raw_bytes. }
  unfold Emu.set_gain. keeps_auto.
Qed.

Lemma emu_keeps_time_time_calibration : keeps Emu.calibration Emu.time_time.
Proof.
  apply (keeps_proj Emu.settings (fun t => snd (fst t))).
  apply emu_keeps_time_time.
Qed.

Lemma Qdiv_1_r (q : Q) : (q / 1 == q)%Q.
Proof. unfold Qdiv. change (/ 1)%Q with 1%Q. apply Qmult_1_r. Qed.

(** Claim C10.  A freshly constructed driver has offset 1 and reference unit
    1 on each channel, in both implementations.  With these values
    [get_value(times)] returns the aggregated raw reading minus 1 and
    [get_weight(times)] returns the same number. *)
Theorem fresh_driver_defaults :
  (forall d p g line s,
     Hw.init d p g line = Ok tt s ->
     Hw.offset s = 1%Q /\ Hw.offset_b s = 1%Q /\
     Hw.reference_unit s = 1%Q /\ Hw.reference_unit_b s = 1%Q) /\
  (forall d p g clk draws wave s,
     Emu.init d p g clk draws wave = Ok tt s ->
     Emu.offset s = 1%Q /\ Emu.reference_unit s = 1%Q) /\
  (forall (s : Hw.HX711) times m s',
     Hw.offset s = 1%Q -> Hw.reference_unit s = 1%Q ->
     Hw.read_median times s = Ok m s' ->
     Hw.get_value times s = Ok (m - 1)%Q s' /\
     exists w, Hw.get_weight times s = Ok w s' /\ (w == m - 1)%Q) /\
  (forall (s : Emu.HX711) times a s',
     Emu.offset s = 1%Q -> Emu.reference_unit s = 1%Q ->
     Emu.read_average times s = Ok a s' ->
     Emu.get_value times s = Ok (a - 1)%Q s' /\
     exists w, Emu.get_weight times s = Ok w s' /\ (w == a - 1)%Q).
Proof.
  split; [|split; [|split]].
  - intros d p g line s H. unfold Hw.init in H.
    match type of H with
    | _ ?s0 = _ => assert (Hk := hw_set_gain_keeps g s0 s)
    end.
    rewrite H in Hk. specialize (Hk eq_refl). cbn in Hk.
    inversion Hk. repeat split; assumption.
  - intros d p g clk draws wave s H. unfold Emu.init in H.
    match type of H with
    | ?m ?s0 = _ =>
        assert (Hk : keeps Emu.calibration m)
    end.
    { keeps_auto; auto using emu_keeps_time_time_calibration,
        emu_set_gain_keeps. }
    match type of H with
    | ?m ?s0 = _ => specialize (Hk s0 s)
    end.
    rewrite H in Hk. specialize (Hk eq_refl).
    unfold Emu.calibration in Hk. cbn in Hk.
    inversion Hk. split; reflexivity.
  - intros s times m s' Ho Hr Hm.
    assert (Hk : Hw.settings s' = Hw.settings s).
    { apply (hw_keeps_read_median times). now rewrite Hm. }
    apply hw_settings_gain in Hk. destruct Hk as (_ & _ & _ & Ho' & Hr').
    assert (Hv : Hw.get_value times s = Ok (m - 1)%Q s').
    { unfold Hw.get_value, Hw.get_value_a.
      rewrite (bind_ok _ _ _ _ _ Hm).
      unfold Hw.get_offset_a, gets, bind, ret. now rewrite Ho', Ho. }
    split; [exact Hv|].
    exists ((m - 1) / 1)%Q. split; [|apply Qdiv_1_r].
    unfold Hw.get_weight, Hw.get_weight_A.
    change (Hw.get_value_a times) with (Hw.get_value times).
    rewrite (bind_ok _ _ _ _ _ Hv).
    unfold gets, bind. rewrite Hr', Hr. reflexivity.
  - intros s times a s' Ho Hr Ha.
    assert (Hk : Emu.settings s' = Emu.settings s).
    { apply (emu_keeps_read_average times). now rewrite Ha. }
    unfold Emu.settings, Emu.calibration in Hk.
    assert (Ho' : Emu.offset s' = Emu.offset s) by congruence.
    assert (Hr' : Emu.reference_unit s' = Emu.reference_unit s)
      by congruence.
    assert (Hv : Emu.get_value times s = Ok (a - 1)%Q s').
    { unfold Emu.get_value. rewrite (bind_ok _ _ _ _ _ Ha).
      unfold gets, bind, ret. now rewrite Ho', Ho. }
    split; [exact Hv|].
    exists ((a - 1) / 1)%Q. split; [|apply Qdiv_1_r].
    unfold Emu.get_weight. rewrite (bind_ok _ _ _ _ _ Hv).
    unfold gets, bind. rewrite Hr', Hr. reflexivity.
Qed.

Lemma fresh_driver_defaults_witness :
  (exists s,
     Hw.init 5 6 128 (conversions 1 [0; 5; 1; 9]) = Ok tt s /\
     Hw.offset s = 1%Q /\ Hw.reference_unit s = 1%Q /\
     exists m s', Hw.read_median 3 s = Ok m s' /\
                  Hw.get_value 3 s = Ok (m - 1)%Q s') /\
  (exists s,
     Emu.init 5 6 128 (ticking 14) (draws_for [0; 5; 1; 9]) flat_wave
       = Ok tt s /\
     Emu.offset s = 1%Q /\ Emu.reference_unit s = 1%Q /\
     exists a s', Emu.read_average 3 s = Ok a s' /\
                  Emu.get_value 3 s = Ok (a - 1)%Q s').
Proof.
  split.
  - destruct (Hw.init 5 6 128 (conversions 1 [0; 5; 1; 9]))
      as [[] s | e s |] eqn:E;
      [| vm_compute in E; discriminate E | vm_compute in E; discriminate E].
    destruct (proj1 fresh_driver_defaults _ _ _ _ _ E) as (Ho & _ & Hr & _).
    exists s. split; [reflexivity|]. split; [exact Ho|]. split; [exact Hr|].
    destruct (Hw.read_median 3 s) as [m s' | e s' |] eqn:Em.
    + exists m, s'. split; [reflexivity|].
      exact (proj1 (proj1 (proj2 (proj2 fresh_driver_defaults))
                      s 3 m s' Ho Hr Em)).
    + vm_compute in E. inversion E; subst s. vm_compute in Em.
      discriminate Em.
    + vm_compute in E. inversion E; subst s. vm_compute in Em.
      discriminate Em.
  - destruct (Emu.init 5 6 128 (ticking 14) (draws_for [0; 5; 1; 9])
                flat_wave) as [[] s | e s |] eqn:E;
      [| vm_compute in E; discriminate E | vm_compute in E; discriminate E].
    destruct (proj1 (proj2 fresh_driver_defaults) _ _ _ _ _ _ _ E)
      as (Ho & Hr).
    exists s. split; [reflexivity|]. split; [exact Ho|]. split; [exact Hr|].
    destruct (Emu.read_average 3 s) as [a s' | e s' |] eqn:Ea.
    + exists a, s'. split; [reflexivity|].
      exact (proj1 (proj2 (proj2 (proj2 fresh_driver_defaults))
                      s 3 a s' Ho Hr Ea)).
    + vm_compute in E. inversion E; subst s. vm_compute in Ea.
      discriminate Ea.
    + vm_compute in E. inversion E; subst s. vm_compute in Ea.
      discriminate Ea.
Defined.

(** ** Aggregation of samples *)

Section Aggregation.

Context {S : Type}.

(** What [read_median] computes from the collected samples, for the counts
    that [read_average] passes to it. *)
Lemma median_of_collected times vs (s : S) :
  2 <= times <= 4 ->
  List.length vs = Z.to_nat times ->
  (let value_list := py_sort vs in
   if Z.land times 1 =? 1 then
     v <- py_index value_list (len value_list / 2) ;; ret (inject_Z v)
   else
     let midpoint := py_int (inject_Z (len value_list) / 2) in
     py_truediv
       (inject_Z (py_sum (py_slice value_list (midpoint - 1) (midpoint + 1))))
       2) s = Ok (median vs) s.
Proof.
  intros Ht Hlen.
  assert (Hs := py_sort_length vs). rewrite Hlen in Hs.
  unfold median. rewrite Hlen.
  assert (Hc : times = 2 \/ times = 3 \/ times = 4) by lia.
  destruct Hc as [-> | [-> | ->]]; cbv zeta;
    [ change (Z.to_nat 2) with 2%nat in *
    | change (Z.to_nat 3) with 3%nat in *
    | change (Z.to_nat 4) with 4%nat in * ];
    destruct (py_sort vs) as [|a [|b [|c [|d [|e l]]]]];
    cbn in Hs; try discriminate Hs.
  - unfold mean, total, len, py_slice, py_sum. cbn.
    try change (Pos.to_nat 2) with 2%nat.
    try change (Pos.to_nat 1) with 1%nat. cbn.
    apply (f_equal (fun z => Ok (inject_Z z / 2)%Q s)). lia.
  - reflexivity.
  - unfold mean, total, len, py_slice, py_sum. cbn.
    try change (Pos.to_nat 2) with 2%nat.
    try change (Pos.to_nat 1) with 1%nat. cbn.
    apply (f_equal (fun z => Ok (inject_Z z / 2)%Q s)). lia.
Qed.

(** What [read_average] computes from five or more collected samples. *)
Lemma trimmed_mean_of_collected vs (s : S) :
  5 <= len vs ->
  (let value_list := py_sort vs in
   let trim_amount := py_int (inject_Z (len value_list) * (2 # 10)) in
   let value_list := py_slice value_list trim_amount (- trim_amount) in
   py_truediv (inject_Z (py_sum value_list)) (inject_Z (len value_list))) s
  = Ok (trimmed_mean vs) s.
Proof.
  intros Hn. cbv zeta.
  assert (Hl : len (py_sort vs) = len vs).
  { unfold len. now rewrite py_sort_length. }
  rewrite Hl, py_int_fifth by lia.
  assert (Hq : 0 < len vs / 5) by (apply Z.div_str_pos; lia).
  assert (Hq2 : 2 * (len vs / 5) < len vs).
  { pose proof (Z.mul_div_le (len vs) 5). lia. }
  rewrite py_slice_trim by lia.
  unfold trimmed_mean. rewrite Qfloor_fifth, py_sort_length.
  fold (len vs).
  set (rest := skipn (Z.to_nat (len vs / 5))
                 (firstn (List.length vs - Z.to_nat (len vs / 5))
                    (py_sort vs))).
  assert (Hr : len rest <> 0).
  { unfold rest, len. rewrite length_skipn, length_firstn, py_sort_length.
    unfold len in Hq, Hq2.
    set (q := Z.of_nat (List.length vs) / 5) in *. clearbody q. lia. }
  rewrite py_truediv_inject_Z by exact Hr.
  unfold mean. now rewrite py_sum_total.
Qed.

End Aggregation.

Lemma len_acquired {S} (read : M S Z) times s vs s' :
  0 <= times ->
  acquire read (Z.to_nat times) s = Ok vs s' -> len vs = times.
Proof.
  intros Ht H. apply acquire_length in H. unfold len. lia.
Qed.

(** Against claim C1 as stated: the simulated driver aggregates two to four
    samples by their mean, not their median; on the samples 1, 2, 9 it
    returns 4, the median being 2. *)
Lemma emulated_small_count_not_median :
  ~ (forall times (s : Emu.HX711) vs s',
       2 <= times <= 4 ->
       acquire Emu.read_long (Z.to_nat times) s = Ok vs s' ->
       exists v, Emu.read_average times s = Ok v s' /\ (v == median vs)%Q).
Proof.
  intros H.
  destruct (acquire Emu.read_long (Z.to_nat 3) (emu_idle [1; 2; 9]))
    as [vs s' | e s' |] eqn:E.
  - destruct (H 3 _ vs s' ltac:(lia) E) as (v & Hv & Hm).
    vm_compute in E. inversion E; subst vs s'.
    vm_compute in Hv. inversion Hv; subst v.
    vm_compute in Hm. discriminate Hm.
  - vm_compute in E. discriminate E.
  - vm_compute in E. discriminate E.
Qed.

(** Claim C1, as amended.  For a sample count [times] with
    [2 <= times <= 4], the hardware-backed [read_average] and [read_median]
    return the statistical median of the [times] samples read, and
    [get_value] that median minus the offset; the simulated [read_average]
    returns their arithmetic mean, and [get_value] that mean minus the
    offset. *)
Theorem small_counts_aggregate times :
  2 <= times <= 4 ->
  (forall (s : Hw.HX711) vs s',
     acquire Hw.read_long (Z.to_nat times) s = Ok vs s' ->
     Hw.read_average times s = Ok (median vs) s' /\
     Hw.read_median times s = Ok (median vs) s' /\
     Hw.get_value times s = Ok (median vs - Hw.offset s)%Q s') /\
  (forall (s : Emu.HX711) vs s',
     acquire Emu.read_long (Z.to_nat times) s = Ok vs s' ->
     Emu.read_average times s = Ok (mean vs) s' /\
     Emu.get_value times s = Ok (mean vs - Emu.offset s)%Q s').
Proof.
  intros Ht. split.
  - intros s vs s' Hacq.
    assert (Hmed : Hw.read_median times s = Ok (median vs) s').
    { unfold Hw.read_median.
      destruct (Z.leb_spec times 0); [lia|].
      destruct (Z.eqb_spec times 1); [lia|].
      unfold bind at 1. rewrite collect_acquire, Hacq. cbn [app].
      apply median_of_collected; [exact Ht|].
      now apply acquire_length in Hacq. }
    assert (Hk : Hw.settings s' = Hw.settings s).
    { apply (hw_keeps_read_median times). now rewrite Hmed. }
    apply hw_settings_gain in Hk. destruct Hk as (_ & _ & _ & Ho & _).
    split; [|split].
    + unfold Hw.read_average.
      destruct (Z.leb_spec times 0); [lia|].
      destruct (Z.eqb_spec times 1); [lia|].
      destruct (Z.ltb_spec times 5); [exact Hmed | lia].
    + exact Hmed.
    + unfold Hw.get_value, Hw.get_value_a.
      rewrite (bind_ok _ _ _ _ _ Hmed).
      unfold Hw.get_offset_a, gets, bind, ret. now rewrite Ho.
  - intros s vs s' Hacq.
    assert (Havg : Emu.read_average times s = Ok (mean vs) s').
    { unfold Emu.read_average.
      destruct (Z.leb_spec times 0); [lia|].
      unfold bind at 1, ret at 1.
      destruct (Z.eqb_spec times 1); [lia|].
      destruct (Z.ltb_spec times 5); [|lia].
      unfold bind. rewrite accumulate_acquire, Hacq.
      rewrite py_truediv_inject_Z by lia.
      assert (Hlen : len vs = times).
      { apply (len_acquired Emu.read_long times s vs s'); [lia | exact Hacq]. }
      unfold mean. rewrite Hlen. reflexivity. }
    split; [exact Havg|].
    assert (Hk : Emu.settings s' = Emu.settings s).
    { apply (emu_keeps_read_average times). now rewrite Havg. }
    unfold Emu.settings, Emu.calibration in Hk.
    assert (Ho : Emu.offset s' = Emu.offset s) by congruence.
    unfold Emu.get_value. rewrite (bind_ok _ _ _ _ _ Havg).
    unfold gets, bind, ret. now rewrite Ho.
Qed.

Lemma small_counts_aggregate_witness :
  2 <= 3 <= 4 /\
  (exists s',
     acquire Hw.read_long (Z.to_nat 3) (hw_idle (conversions 1 [5; 1; 9]))
       = Ok [5; 1; 9] s' /\
     Hw.read_average 3 (hw_idle (conversions 1 [5; 1; 9]))
       = Ok (median [5; 1; 9]) s') /\
  median [5; 1; 9] = 5%Q /\
  (exists s',
     acquire Emu.read_long (Z.to_nat 3) (emu_idle [1; 2; 9])
       = Ok [1; 2; 9] s' /\
     Emu.read_average 3 (emu_idle [1; 2; 9]) = Ok (mean [1; 2; 9]) s') /\
  (mean [1; 2; 9]%Z == 4)%Q.
Proof.
  assert (Ht : 2 <= 3 <= 4) by lia.
  split; [exact Ht|]. split; [|split; [reflexivity|split; [|reflexivity]]].
  - destruct (acquire Hw.read_long (Z.to_nat 3)
                (hw_idle (conversions 1 [5; 1; 9])))
      as [vs s' | e s' |] eqn:E;
      [| vm_compute in E; discriminate E | vm_compute in E; discriminate E].
    pose proof (proj1 (proj1 (small_counts_aggregate 3 Ht) _ vs s' E))
      as Havg.
    assert (Hvs : vs = [5; 1; 9]) by (vm_compute in E; now inversion E).
    subst vs. exists s'. split; [reflexivity | exact Havg].
  - destruct (acquire Emu.read_long (Z.to_nat 3) (emu_idle [1; 2; 9]))
      as [vs s' | e s' |] eqn:E;
      [| vm_compute in E; discriminate E | vm_compute in E; discriminate E].
    pose proof (proj1 (proj2 (small_counts_aggregate 3 Ht) _ vs s' E))
      as Havg.
    assert (Hvs : vs = [1; 2; 9]) by (vm_compute in E; now inversion E).
    subst vs. exists s'. split; [reflexivity | exact Havg].
Defined.

(** Claim C2.  For a sample count [times >= 5], [read_average(times)] of
    either driver returns the trimmed mean of the [times] samples read: they
    are sorted ascending, [trim = floor(times * 0.2)] elements are dropped at
    each end, and the mean of the rest is returned.  On the samples
    0, 1, ..., 9 this is the mean of 2, ..., 7, that is 4.5. *)
Theorem large_counts_trimmed_mean times :
  5 <= times ->
  (forall (s : Hw.HX711) vs s',
     acquire Hw.read_long (Z.to_nat times) s = Ok vs s' ->
     Hw.read_average times s = Ok (trimmed_mean vs) s') /\
  (forall (s : Emu.HX711) vs s',
     acquire Emu.read_long (Z.to_nat times) s = Ok vs s' ->
     Emu.read_average times s = Ok (trimmed_mean vs) s') /\
  (trimmed_mean [0; 1; 2; 3; 4; 5; 6; 7; 8; 9]%Z
   == mean [2; 3; 4; 5; 6; 7]%Z)%Q /\
  (trimmed_mean [0; 1; 2; 3; 4; 5; 6; 7; 8; 9]%Z == 9 # 2)%Q.
Proof.
  intros Ht. split; [|split; [|split; reflexivity]].
  - intros s vs s' Hacq. unfold Hw.read_average.
    destruct (Z.leb_spec times 0); [lia|].
    destruct (Z.eqb_spec times 1); [lia|].
    destruct (Z.ltb_spec times 5); [lia|].
    unfold bind at 1. rewrite collect_acquire, Hacq. cbn [app].
    apply trimmed_mean_of_collected.
    rewrite (len_acquired Hw.read_long times s vs s'); [lia | lia | exact Hacq].
  - intros s vs s' Hacq. unfold Emu.read_average.
    destruct (Z.leb_spec times 0); [lia|].
    unfold bind at 1, ret at 1.
    destruct (Z.eqb_spec times 1); [lia|].
    destruct (Z.ltb_spec times 5); [lia|].
    unfold bind at 1. rewrite collect_acquire, Hacq. cbn [app].
    apply trimmed_mean_of_collected.
    rewrite (len_acquired Emu.read_long times s vs s'); [lia | lia | exact Hacq].
Qed.

Lemma large_counts_trimmed_mean_witness :
  5 <= 10 /\
  (exists s',
     acquire Hw.read_long (Z.to_nat 10)
       (hw_idle (conversions 1 [0; 1; 2; 3; 4; 5; 6; 7; 8; 9]))
       = Ok [0; 1; 2; 3; 4; 5; 6; 7; 8; 9] s' /\
     Hw.read_average 10
       (hw_idle (conversions 1 [0; 1; 2; 3; 4; 5; 6; 7; 8; 9]))
       = Ok (trimmed_mean [0; 1; 2; 3; 4; 5; 6; 7; 8; 9]) s') /\
  (exists s',
     acquire Emu.read_long (Z.to_nat 10)
       (emu_idle [9; 8; 7; 6; 5; 4; 3; 2; 1; 0])
       = Ok [9; 8; 7; 6; 5; 4; 3; 2; 1; 0] s' /\
     Emu.read_average 10 (emu_idle [9; 8; 7; 6; 5; 4; 3; 2; 1; 0])
       = Ok (trimmed_mean [9; 8; 7; 6; 5; 4; 3; 2; 1; 0]) s').
Proof.
  assert (Ht : 5 <= 10) by lia.
  split; [exact Ht|]. split.
  - destruct (acquire Hw.read_long (Z.to_nat 10)
                (hw_idle (conversions 1 [0; 1; 2; 3; 4; 5; 6; 7; 8; 9])))
      as [vs s' | e s' |] eqn:E;
      [| vm_compute in E; discriminate E | vm_compute in E; discriminate E].
    pose proof (proj1 (large_counts_trimmed_mean 10 Ht) _ vs s' E) as Havg.
    assert (Hvs : vs = [0; 1; 2; 3; 4; 5; 6; 7; 8; 9])
      by (vm_compute in E; now inversion E).
    subst vs. exists s'. split; [reflexivity | exact Havg].
  - destruct (acquire Emu.read_long (Z.to_nat 10)
                (emu_idle [9; 8; 7; 6; 5; 4; 3; 2; 1; 0]))
      as [vs s' | e s' |] eqn:E;
      [| vm_compute in E; discriminate E | vm_compute in E; discriminate E].
    pose proof (proj1 (proj2 (large_counts_trimmed_mean 10 Ht)) _ vs s' E)
      as Havg.
    assert (Hvs : vs = [9; 8; 7; 6; 5; 4; 3; 2; 1; 0])
      by (vm_compute in E; now inversion E).
    subst vs. exists s'. split; [reflexivity | exact Havg].
Defined.

(** * Further properties of the drivers *)

(** ** Bits, bytes and words *)

Lemma lor_shiftl_add hi lo k :
  0 <= k -> 0 <= lo < 2 ^ k -> Z.lor (Z.shiftl hi k) lo = hi * 2 ^ k + lo.
Proof.
  intros Hk Hlo.
  rewrite <- Z.shiftl_mul_pow2 by lia.
  rewrite <- Z.lxor_lor, <- Z.add_nocarry_lxor; auto.
  all: apply Z.bits_inj'; intros n Hn;
    rewrite Z.land_spec, Z.bits_0;
    destruct (Z.lt_ge_cases n k) as [Hlt | Hge];
    [ rewrite Z.shiftl_spec_low by lia; reflexivity
    | replace lo with (lo mod 2 ^ k) by (apply Z.mod_small; lia);
      rewrite Z.mod_pow2_bits_high by lia; apply andb_false_r ].
Qed.

Lemma msb_value_bounds bits : 0 <= msb_value bits < 2 ^ len bits.
Proof.
  induction bits as [|b bits IH]; cbn [msb_value].
  - cbn. lia.
  - replace (len (b :: bits)) with (len bits + 1) by (unfold len; cbn; lia).
    rewrite Z.pow_add_r by (unfold len; lia).
    destruct b; cbn [Z.b2z]; lia.
Qed.

Lemma lsb_value_bounds bits : 0 <= lsb_value bits < 2 ^ len bits.
Proof.
  induction bits as [|b bits IH]; cbn [lsb_value].
  - cbn. lia.
  - replace (len (b :: bits)) with (len bits + 1) by (unfold len; cbn; lia).
    rewrite Z.pow_add_r by (unfold len; lia).
    destruct b; cbn [Z.b2z]; lia.
Qed.

Lemma msb_value_app l1 l2 :
  msb_value (l1 ++ l2) = msb_value l1 * 2 ^ len l2 + msb_value l2.
Proof.
  induction l1 as [|b l1 IH]; cbn [msb_value app].
  - lia.
  - rewrite IH.
    replace (len (l1 ++ l2)) with (len l1 + len l2)
      by (unfold len; rewrite length_app; lia).
    rewrite Z.pow_add_r by (unfold len; lia). lia.
Qed.

(** The levels of [data_bits x] spell [x] modulo [2 ^ 24]. *)
Lemma msb_value_testbits x n :
  msb_value (map (fun i => Z.testbit x (Z.of_nat i)) (rev (seq 0 n)))
  = x mod 2 ^ Z.of_nat n.
Proof.
  induction n as [|n IH].
  - cbn. now rewrite Z.mod_1_r.
  - rewrite seq_S, rev_app_distr. cbn [rev app map Nat.add msb_value].
    rewrite IH.
    replace (len (map (fun i => Z.testbit x (Z.of_nat i)) (rev (seq 0 n))))
      with (Z.of_nat n)
      by (unfold len; now rewrite length_map, length_rev, length_seq).
    rewrite Z.testbit_spec' by lia.
    replace (Z.of_nat (Datatypes.S n)) with (Z.of_nat n + 1) by lia.
    rewrite Z.pow_add_r by lia. change (2 ^ 1) with 2.
    rewrite (Z.rem_mul_r x (2 ^ Z.of_nat n) 2) by lia. lia.
Qed.

Lemma msb_value_data_bits x : msb_value (data_bits x) = x mod 2 ^ 24.
Proof. apply (msb_value_testbits x 24). Qed.

Lemma data_bits_length x : List.length (data_bits x) = 24%nat.
Proof. reflexivity. Qed.

Lemma join24_arith b0 b1 b2 :
  0 <= b1 < 256 -> 0 <= b2 < 256 ->
  join24 b0 b1 b2 = b0 * 65536 + b1 * 256 + b2.
Proof.
  intros H1 H2. unfold join24.
  rewrite (Z.shiftl_mul_pow2 b1 8) by lia.
  rewrite (lor_shiftl_add b0 (b1 * 2 ^ 8) 16)
    by (change (2 ^ 8) with 256; change (2 ^ 16) with 65536; lia).
  replace (b0 * 2 ^ 16 + b1 * 2 ^ 8) with (Z.shiftl (b0 * 256 + b1) 8)
    by (rewrite Z.shiftl_mul_pow2 by lia;
        change (2 ^ 8) with 256; change (2 ^ 16) with 65536; lia).
  rewrite (lor_shiftl_add (b0 * 256 + b1) b2 8)
    by (change (2 ^ 8) with 256; lia).
  change (2 ^ 8) with 256. lia.
Qed.

Lemma split24_parts b0 b1 b2 :
  0 <= b0 < 256 -> 0 <= b1 < 256 -> 0 <= b2 < 256 ->
  let w := b0 * 65536 + b1 * 256 + b2 in
  Z.land (Z.shiftr w 16) 0xFF = b0 /\
  Z.land (Z.shiftr w 8) 0xFF = b1 /\
  Z.land w 0xFF = b2.
Proof.
  intros H0 H1 H2 w. subst w.
  change 0xFF with (Z.ones 8).
  rewrite !Z.land_ones, !Z.shiftr_div_pow2 by lia.
  change (2 ^ 8) with 256. change (2 ^ 16) with 65536.
  repeat split; Z.div_mod_to_equations; lia.
Qed.

(** Splitting a 24-bit word into its three bytes and joining them again
    gives the word back. *)
Lemma join24_split w :
  0 <= w < 2 ^ 24 ->
  join24 (Z.land (Z.shiftr w 16) 0xFF) (Z.land (Z.shiftr w 8) 0xFF)
         (Z.land w 0xFF) = w.
Proof.
  intros Hw. change 0xFF with (Z.ones 8).
  rewrite !Z.land_ones, !Z.shiftr_div_pow2 by lia.
  change (2 ^ 8) with 256. change (2 ^ 16) with 65536.
  change (2 ^ 24) with 16777216 in Hw.
  rewrite join24_arith by (apply Z.mod_pos_bound; lia).
  Z.div_mod_to_equations. lia.
Qed.

Lemma convert_from_range y :
  0 <= y < 2 ^ 24 ->
  - 0x800000 <= convert_from_twos_complement_24_bit y <= 0x7FFFFF.
Proof.
  intros Hy. rewrite convert_from_arith by exact Hy.
  change (2 ^ 24) with 16777216 in Hy. change (2 ^ 23) with 8388608.
  Z.div_mod_to_equations. lia.
Qed.

Lemma convert_from_mod x :
  - 0x800000 <= x <= 0x7FFFFF ->
  convert_from_twos_complement_24_bit (x mod 2 ^ 24) = x.
Proof.
  intros Hx.
  rewrite convert_from_arith by (apply Z.mod_pos_bound; lia).
  change (2 ^ 24) with 16777216. change (2 ^ 23) with 8388608.
  Z.div_mod_to_equations. lia.
Qed.

Lemma pulses_add a b : pulses (a + b) = pulses a ++ pulses b.
Proof. induction a as [|a IH]; cbn; [reflexivity | now rewrite IH]. Qed.

Lemma pulses_length n : List.length (pulses n) = (2 * n)%nat.
Proof. induction n as [|n IH]; cbn; lia. Qed.

(** ** The hardware acquisition, level by level *)

Lemma hw_clocked_clocked m n r r' (s : Hw.HX711) :
  hw_clocked n r (hw_clocked m r' s) = hw_clocked (n + m) r s.
Proof.
  unfold hw_clocked, Hw.with_dout_levels, Hw.with_sck_levels. cbn.
  now rewrite pulses_add, app_assoc.
Qed.

Lemma hw_read_next_bit_exact b rest (s : Hw.HX711) :
  Hw.dout_levels s = b :: rest ->
  Hw.read_next_bit s = Ok (Z.b2z b) (hw_clocked 1 rest s).
Proof.
  intros Hd. unfold Hw.read_next_bit, bind, Hw.gpio_output, modify,
    Hw.gpio_input. cbn. now rewrite Hd.
Qed.

Lemma hw_read_bits_msb bits : forall acc rest (s : Hw.HX711),
  Hw.bit_format s = "MSB"%string ->
  Hw.dout_levels s = bits ++ rest ->
  Hw.read_next_byte_loop (List.length bits) acc s =
  Ok (acc * 2 ^ len bits + msb_value bits)
     (hw_clocked (List.length bits) rest s).
Proof.
  induction bits as [|b bits IH]; intros acc rest s Hf Hd.
  - cbn in *. unfold ret. f_equal; [lia|].
    unfold hw_clocked. cbn. rewrite <- Hd. now destruct s.
  - cbn [List.length]. rewrite hw_read_next_byte_loop_step, Hf.
    change (("MSB" =? "MSB")%string) with true. cbv iota.
    rewrite (bind_ok _ _ _ _ _ (hw_read_next_bit_exact b (bits ++ rest) s Hd)).
    rewrite (IH _ rest) by (auto || reflexivity).
    rewrite hw_clocked_clocked, Nat.add_1_r.
    f_equal. rewrite (lor_shiftl_add acc (Z.b2z b) 1)
      by (destruct b; cbn; lia).
    cbn [msb_value].
    replace (len (b :: bits)) with (len bits + 1) by (unfold len; cbn; lia).
    rewrite Z.pow_add_r by (unfold len; lia). ring.
Qed.

Lemma hw_read_bits_lsb bits : forall acc rest (s : Hw.HX711),
  String.eqb (Hw.bit_format s) "MSB" = false ->
  0 <= acc < 256 -> len bits <= 8 ->
  Hw.dout_levels s = bits ++ rest ->
  Hw.read_next_byte_loop (List.length bits) acc s =
  Ok (acc / 2 ^ len bits + 2 ^ (8 - len bits) * lsb_value bits)
     (hw_clocked (List.length bits) rest s).
Proof.
  induction bits as [|b bits IH]; intros acc rest s Hf Hacc Hn Hd.
  - cbn in *. unfold ret. f_equal; [rewrite Z.div_1_r; lia|].
    unfold hw_clocked. cbn. rewrite <- Hd. now destruct s.
  - assert (Hk : 0 <= len bits <= 7) by (unfold len in *; cbn in Hn; lia).
    cbn [List.length]. rewrite hw_read_next_byte_loop_step, Hf.
    rewrite (bind_ok _ _ _ _ _ (hw_read_next_bit_exact b (bits ++ rest) s Hd)).
    assert (Hstep : Z.lor (Z.shiftr acc 1) (Z.b2z b * 128)
                    = Z.b2z b * 128 + acc / 2).
    { rewrite Z.lor_comm, Z.shiftr_div_pow2 by lia. change (2 ^ 1) with 2.
      replace (Z.b2z b * 128) with (Z.shiftl (Z.b2z b) 7)
        by (rewrite Z.shiftl_mul_pow2 by lia; reflexivity).
      rewrite (lor_shiftl_add (Z.b2z b) (acc / 2) 7); [|lia|].
      - rewrite Z.shiftl_mul_pow2 by lia. reflexivity.
      - change (2 ^ 7) with 128. Z.div_mod_to_equations. lia. }
    rewrite Hstep.
    rewrite (IH _ rest); [| exact Hf | | lia | reflexivity].
    2:{ destruct b; cbn [Z.b2z]; Z.div_mod_to_equations; lia. }
    rewrite hw_clocked_clocked, Nat.add_1_r. f_equal.
    cbn [lsb_value].
    replace (len (b :: bits)) with (len bits + 1) by (unfold len; cbn; lia).
    set (k := len bits) in *.
    replace (8 - k) with (1 + (8 - (k + 1))) by lia.
    rewrite (Z.pow_add_r 2 1) by lia. change (2 ^ 1) with 2.
    replace (Z.b2z b * 128) with ((Z.b2z b * 2 ^ (8 - (k + 1))) * 2 ^ k).
    2:{ rewrite <- Z.mul_assoc, <- Z.pow_add_r by lia.
        replace (8 - (k + 1) + k) with 7 by lia. reflexivity. }
    rewrite Z.div_add_l by (apply Z.pow_nonzero; lia).
    rewrite Z.div_div by (try apply Z.pow_pos_nonneg; lia).
    rewrite (Z.pow_add_r 2 k 1) by lia. change (2 ^ 1) with 2.
    rewrite (Z.mul_comm (2 ^ k) 2). ring.
Qed.

(** [read_next_byte] assembles eight sampled levels into a byte: the first
    level is the most significant bit in MSB mode, the least significant one
    in any other mode, and eight clock pulses are sent. *)
Lemma hw_read_next_byte_exact bits rest (s : Hw.HX711) :
  List.length bits = 8%nat ->
  Hw.dout_levels s = bits ++ rest ->
  Hw.read_next_byte s =
  Ok (hw_byte_of (Hw.bit_format s) bits) (hw_clocked 8 rest s).
Proof.
  intros Hl Hd. unfold Hw.read_next_byte, hw_byte_of. rewrite <- Hl.
  destruct (String.eqb (Hw.bit_format s) "MSB") eqn:Hf.
  - apply String.eqb_eq in Hf.
    rewrite (hw_read_bits_msb bits 0 rest s Hf Hd). f_equal.
  - rewrite (hw_read_bits_lsb bits 0 rest s Hf) by
      (try exact Hd; unfold len; lia).
    f_equal. unfold len. rewrite Hl.
    change (8 - Z.of_nat 8) with 0. change (0 / 2 ^ Z.of_nat 8) with 0. lia.
Qed.

Lemma hw_byte_of_range fmt bits :
  List.length bits = 8%nat -> 0 <= hw_byte_of fmt bits < 256.
Proof.
  intros Hl. unfold hw_byte_of.
  pose proof (msb_value_bounds bits) as Hm.
  pose proof (lsb_value_bounds bits) as Hs.
  unfold len in *. rewrite Hl in *. change (2 ^ Z.of_nat 8) with 256 in *.
  destruct (String.eqb fmt "MSB"); assumption.
Qed.

Lemma hw_poll_ready_exact highs : forall fuel rest (s : Hw.HX711),
  Hw.dout_levels s = repeat true highs ++ false :: rest ->
  (highs < fuel)%nat ->
  Hw.poll_ready fuel s = Ok tt (Hw.with_dout_levels rest s).
Proof.
  induction highs as [|h IH]; intros fuel rest s Hd Hf;
    (destruct fuel as [|fuel]; [lia|]); cbn [repeat app] in Hd;
    cbn [Hw.poll_ready]; unfold Hw.is_ready, bind, Hw.gpio_input;
    rewrite Hd; cbn.
  - reflexivity.
  - rewrite (IH fuel rest) by (reflexivity || lia). reflexivity.
Qed.

Lemma hw_wait_until_ready_exact highs rest (s : Hw.HX711) :
  Hw.dout_levels s = repeat true highs ++ false :: rest ->
  Hw.wait_until_ready s = Ok tt (Hw.with_dout_levels rest s).
Proof.
  intros Hd. unfold Hw.wait_until_ready.
  apply (hw_poll_ready_exact highs); [exact Hd|].
  rewrite Hd, length_app, repeat_length. cbn. lia.
Qed.

Lemma hw_discard_bits_exact bits : forall rest (s : Hw.HX711),
  Hw.dout_levels s = bits ++ rest ->
  repeat_m (List.length bits) (Hw.read_next_bit ;; ret tt) s =
  Ok tt (hw_clocked (List.length bits) rest s).
Proof.
  induction bits as [|b bits IH]; intros rest s Hd.
  - cbn in *. unfold ret. f_equal.
    unfold hw_clocked. cbn. rewrite <- Hd. now destruct s.
  - cbn [List.length repeat_m]. unfold bind at 1. unfold bind at 1.
    rewrite (hw_read_next_bit_exact b (bits ++ rest) s Hd). cbn [ret].
    unfold ret at 1. rewrite (IH rest) by reflexivity.
    now rewrite hw_clocked_clocked, Nat.add_1_r.
Qed.

(** One acquisition, from the recording: after any number of high levels and
    the low level that signals readiness, three bytes are assembled from the
    next 24 levels, one more level is sampled per gain-select pulse, and
    [24 + gain] pulses in all were sent. *)
Lemma hw_read_raw_bytes_exact highs B0 B1 B2 G rest (s : Hw.HX711) :
  Hw.read_lock s = false ->
  List.length B0 = 8%nat -> List.length B1 = 8%nat ->
  List.length B2 = 8%nat -> List.length G = Z.to_nat (Hw.gain s) ->
  Hw.dout_levels s =
    repeat true highs ++ false :: B0 ++ B1 ++ B2 ++ G ++ rest ->
  Hw.read_raw_bytes s =
  Ok (hw_ordered (Hw.byte_format s)
        (hw_byte_of (Hw.bit_format s) B0)
        (hw_byte_of (Hw.bit_format s) B1)
        (hw_byte_of (Hw.bit_format s) B2))
     (hw_clocked (24 + Z.to_nat (Hw.gain s)) rest s).
Proof.
  intros Hlock H0 H1 H2 HG Hd. unfold Hw.read_raw_bytes.
  assert (Ha : Hw.lock_acquire s = Ok tt (Hw.with_read_lock true s)).
  { unfold Hw.lock_acquire. now rewrite Hlock. }
  rewrite (bind_ok _ _ _ _ _ Ha).
  rewrite (bind_ok _ _ _ _ _
             (hw_wait_until_ready_exact highs _ (Hw.with_read_lock true s) Hd)).
  cbv beta.
  match goal with
  | |- bind _ _ ?t = _ =>
      rewrite (bind_ok _ _ _ _ _
                 (hw_read_next_byte_exact B0 (B1 ++ B2 ++ G ++ rest) t H0
                    eq_refl))
  end.
  cbv beta.
  match goal with
  | |- bind _ _ ?t = _ =>
      rewrite (bind_ok _ _ _ _ _
                 (hw_read_next_byte_exact B1 (B2 ++ G ++ rest) t H1 eq_refl))
  end.
  cbv beta.
  match goal with
  | |- bind _ _ ?t = _ =>
      rewrite (bind_ok _ _ _ _ _
                 (hw_read_next_byte_exact B2 (G ++ rest) t H2 eq_refl))
  end.
  cbv beta.
  unfold bind at 1, gets. cbn [Hw.gain hw_clocked Hw.with_dout_levels
    Hw.with_sck_levels Hw.with_read_lock].
  rewrite <- HG.
  match goal with
  | |- bind _ _ ?t = _ =>
      rewrite (bind_ok _ _ _ _ _ (hw_discard_bits_exact G rest t eq_refl))
  end.
  unfold Hw.lock_release, bind, modify, gets, hw_ordered. cbn.
  assert (Hs : forall l : list Z,
    Ok l (Hw.mk (Hw.pd_sck s) (Hw.dout s) false (Hw.gain s)
            (Hw.reference_unit s) (Hw.reference_unit_b s) (Hw.offset s)
            (Hw.offset_b s) (Hw.last_val s) (Hw.debug_printing s)
            (Hw.byte_format s) (Hw.bit_format s) rest
            (pulses (List.length G) ++ pulses 8 ++ pulses 8 ++ pulses 8 ++
               Hw.sck_levels s) (Hw.stdout s))
    = Ok l (hw_clocked (24 + List.length G) rest s)).
  { intros l.
    assert (Hp : pulses (24 + List.length G) ++ Hw.sck_levels s
                 = pulses (List.length G) ++ pulses 8 ++ pulses 8 ++
                     pulses 8 ++ Hw.sck_levels s).
    { replace (24 + List.length G)%nat
        with (List.length G + (8 + (8 + 8)))%nat by lia.
      rewrite !pulses_add, <- !app_assoc. reflexivity. }
    unfold hw_clocked. rewrite Hp, <- Hlock. reflexivity. }
  destruct (String.eqb (Hw.byte_format s) "LSB"); apply Hs.
Qed.

Lemma hw_when_debug_ok p (s : Hw.HX711) :
  exists s',
    Hw.when_debug p s = Ok tt s' /\
    Hw.dout_levels s' = Hw.dout_levels s /\
    Hw.sck_levels s' = Hw.sck_levels s /\
    Hw.read_lock s' = Hw.read_lock s /\
    Hw.last_val s' = Hw.last_val s /\
    Hw.settings s' = Hw.settings s.
Proof.
  unfold Hw.when_debug, Hw.print, bind, gets, modify.
  destruct (Hw.debug_printing s); eexists; (split; [reflexivity|]);
    repeat split.
Qed.

(** What [read_long] does with the three bytes of an acquisition. *)
Lemma hw_read_long_of_bytes b0 b1 b2 (s s1 : Hw.HX711) :
  Hw.read_raw_bytes s = Ok [b0; b1; b2] s1 ->
  exists s',
    Hw.read_long s =
      Ok (convert_from_twos_complement_24_bit (join24 b0 b1 b2)) s' /\
    Hw.last_val s' = convert_from_twos_complement_24_bit (join24 b0 b1 b2) /\
    Hw.dout_levels s' = Hw.dout_levels s1 /\
    Hw.sck_levels s' = Hw.sck_levels s1 /\
    Hw.read_lock s' = Hw.read_lock s1 /\
    Hw.settings s' = Hw.settings s1.
Proof.
  intros Hr. unfold Hw.read_long. rewrite (bind_ok _ _ _ _ _ Hr).
  destruct (hw_when_debug_ok (PrBytes [b0; b1; b2]) s1)
    as (s2 & H2 & D2 & K2 & L2 & _ & S2).
  rewrite (bind_ok _ _ _ _ _ H2).
  assert (I0 : py_index [b0; b1; b2] 0 s2 = Ok b0 s2) by reflexivity.
  assert (I1 : py_index [b0; b1; b2] 1 s2 = Ok b1 s2) by reflexivity.
  assert (I2 : py_index [b0; b1; b2] 2 s2 = Ok b2 s2) by reflexivity.
  rewrite (bind_ok _ _ _ _ _ I0), (bind_ok _ _ _ _ _ I1),
    (bind_ok _ _ _ _ _ I2).
  fold (join24 b0 b1 b2).
  destruct (hw_when_debug_ok (PrTwos (join24 b0 b1 b2)) s2)
    as (s3 & H3 & D3 & K3 & L3 & _ & S3).
  rewrite (bind_ok _ _ _ _ _ H3).
  unfold bind, modify, ret.
  eexists. split; [reflexivity|]. cbn.
  repeat split; try congruence.
  change (Hw.settings s3 = Hw.settings s1). congruence.
Qed.

Lemma data_bits_bytes x :
  exists B0 B1 B2,
    data_bits x = B0 ++ B1 ++ B2 /\
    List.length B0 = 8%nat /\ List.length B1 = 8%nat /\
    List.length B2 = 8%nat /\
    msb_value B0 * 65536 + msb_value B1 * 256 + msb_value B2 = x mod 2 ^ 24.
Proof.
  exists (firstn 8 (data_bits x)), (firstn 8 (skipn 8 (data_bits x))),
    (skipn 16 (data_bits x)).
  assert (Hsplit : data_bits x =
            firstn 8 (data_bits x) ++ firstn 8 (skipn 8 (data_bits x)) ++
              skipn 16 (data_bits x)) by reflexivity.
  split; [exact Hsplit|]. repeat (split; [reflexivity|]).
  rewrite <- msb_value_data_bits. rewrite Hsplit at 4.
  rewrite !msb_value_app.
  change (len (skipn 16 (data_bits x))) with 8.
  change (len (firstn 8 (skipn 8 (data_bits x)) ++ skipn 16 (data_bits x)))
    with 16.
  change (2 ^ 8) with 256. change (2 ^ 16) with 65536. ring.
Qed.

(** The value [read_long] returns for one conversion of the sample [x], by
    byte order, when bits are assembled most significant first. *)
Lemma hw_read_long_conversion highs x G rest (s : Hw.HX711) :
  Hw.read_lock s = false ->
  Hw.bit_format s = "MSB"%string ->
  List.length G = Z.to_nat (Hw.gain s) ->
  Hw.dout_levels s = repeat true highs ++ false :: data_bits x ++ G ++ rest ->
  exists s',
    Hw.read_long s =
      Ok (convert_from_twos_complement_24_bit
            (if String.eqb (Hw.byte_format s) "LSB"
             then byte_swap24 (x mod 2 ^ 24) else x mod 2 ^ 24)) s' /\
    Hw.last_val s' =
      convert_from_twos_complement_24_bit
        (if String.eqb (Hw.byte_format s) "LSB"
         then byte_swap24 (x mod 2 ^ 24) else x mod 2 ^ 24) /\
    Hw.dout_levels s' = rest /\
    Hw.sck_levels s' =
      pulses (24 + Z.to_nat (Hw.gain s)) ++ Hw.sck_levels s /\
    Hw.read_lock s' = false /\
    Hw.settings s' = Hw.settings s.
Proof.
  intros Hlock Hbit HG Hd.
  destruct (data_bits_bytes x) as (B0 & B1 & B2 & Hx & H0 & H1 & H2 & Hw).
  rewrite Hx, <- !app_assoc in Hd.
  pose proof (hw_read_raw_bytes_exact highs B0 B1 B2 G rest s
                Hlock H0 H1 H2 HG Hd) as Hraw.
  rewrite Hbit in Hraw. unfold hw_byte_of in Hraw.
  change (("MSB" =? "MSB")%string) with true in Hraw. cbv iota in Hraw.
  pose proof (msb_value_bounds B0) as R0.
  pose proof (msb_value_bounds B1) as R1.
  pose proof (msb_value_bounds B2) as R2.
  unfold len in R0, R1, R2. rewrite H0 in R0. rewrite H1 in R1.
  rewrite H2 in R2. change (2 ^ Z.of_nat 8) with 256 in *.
  unfold hw_ordered in Hraw.
  destruct (String.eqb (Hw.byte_format s) "LSB").
  - destruct (hw_read_long_of_bytes _ _ _ s _ Hraw)
      as (s' & Hl & Hv & Hdo & Hsck & Hlk & Hset).
    assert (Hj : join24 (msb_value B2) (msb_value B1) (msb_value B0)
                 = byte_swap24 (x mod 2 ^ 24)).
    { rewrite <- Hw. unfold byte_swap24.
      destruct (split24_parts _ _ _ R0 R1 R2) as (E0 & E1 & E2).
      cbv zeta in E0, E1, E2. rewrite E0, E1, E2. reflexivity. }
    rewrite Hj in Hl, Hv. exists s'. repeat split; auto.
    rewrite Hlk. exact Hlock.
  - destruct (hw_read_long_of_bytes _ _ _ s _ Hraw)
      as (s' & Hl & Hv & Hdo & Hsck & Hlk & Hset).
    rewrite join24_arith, Hw in Hl, Hv by assumption.
    exists s'. repeat split; auto.
    rewrite Hlk. exact Hlock.
Qed.

(** Hardware decoding.  With the default formats (most significant bit and
    byte first), a free lock, and a DOUT line that after any number of high
    levels shows one conversion of a sample [x] of the signed 24-bit range
    (ready-low, the 24 data bits, one level per gain-select pulse),
    [read_long] returns [x], records it in [last_val], consumes exactly that
    conversion, sends [24 + gain] clock pulses and changes no setting. *)
Theorem hw_read_long_returns_sample highs x G rest (s : Hw.HX711) :
  Hw.read_lock s = false ->
  Hw.bit_format s = "MSB"%string ->
  Hw.byte_format s = "MSB"%string ->
  - 0x800000 <= x <= 0x7FFFFF ->
  List.length G = Z.to_nat (Hw.gain s) ->
  Hw.dout_levels s = repeat true highs ++ false :: data_bits x ++ G ++ rest ->
  exists s',
    Hw.read_long s = Ok x s' /\
    Hw.last_val s' = x /\
    Hw.dout_levels s' = rest /\
    Hw.sck_levels s' =
      pulses (24 + Z.to_nat (Hw.gain s)) ++ Hw.sck_levels s /\
    Hw.read_lock s' = false /\
    Hw.settings s' = Hw.settings s.
Proof.
  intros Hlock Hbit Hbyte Hx HG Hd.
  destruct (hw_read_long_conversion highs x G rest s Hlock Hbit HG Hd)
    as (s' & Hl & Hv & Hrest).
  rewrite Hbyte in Hl, Hv.
  change (("MSB" =? "LSB")%string) with false in Hl, Hv. cbv iota in Hl, Hv.
  rewrite convert_from_mod in Hl, Hv by exact Hx.
  exists s'. auto.
Qed.

Lemma hw_read_long_returns_sample_witness :
  let s := hw_idle ([true; true] ++ conversion 1 (- 5) ++ [false]) in
  Hw.read_lock s = false /\
  Hw.bit_format s = "MSB"%string /\
  Hw.byte_format s = "MSB"%string /\
  - 0x800000 <= - 5 <= 0x7FFFFF /\
  List.length [true] = Z.to_nat (Hw.gain s) /\
  Hw.dout_levels s =
    repeat true 2 ++ false :: data_bits (- 5) ++ [true] ++ [false] /\
  exists s', Hw.read_long s = Ok (- 5) s' /\ Hw.dout_levels s' = [false].
Proof.
  intros s.
  assert (Hx : - 0x800000 <= - 5 <= 0x7FFFFF) by lia.
  repeat (split; [first [reflexivity | exact Hx]|]).
  destruct (hw_read_long_returns_sample 2 (- 5) [true] [false] s
              eq_refl eq_refl eq_refl Hx eq_refl eq_refl)
    as (s' & Hl & _ & Hd & _).
  exists s'. split; [exact Hl | exact Hd].
Defined.



(** ** When the hardware acquisition returns *)

Lemma hw_after_ready_spec line r :
  Hw.after_ready line = Some r ->
  exists highs, line = repeat true highs ++ false :: r.
Proof.
  revert r. induction line as [|b line IH]; intros r H; cbn in H.
  - discriminate.
  - destruct b.
    + destruct (IH r H) as (h & ->). now exists (Datatypes.S h).
    + inversion H; subst. now exists 0%nat.
Qed.

Lemma hw_poll_ready_never line : forall fuel (s : Hw.HX711),
  Hw.dout_levels s = line -> Hw.after_ready line = None ->
  Hw.poll_ready fuel s = Blocked.
Proof.
  induction line as [|b line IH]; intros fuel s Hd Hn;
    (destruct fuel as [|fuel]; [reflexivity|]);
    cbn [Hw.poll_ready]; unfold Hw.is_ready, bind, Hw.gpio_input;
    rewrite Hd; cbn.
  - reflexivity.
  - cbn in Hn. destruct b; [|discriminate]. cbn.
    apply (IH fuel); [reflexivity | exact Hn].
Qed.

Lemma hw_read_next_bit_blocked (s : Hw.HX711) :
  Hw.dout_levels s = [] -> Hw.read_next_bit s = Blocked.
Proof.
  intros Hd. unfold Hw.read_next_bit, bind, Hw.gpio_output, modify,
    Hw.gpio_input. cbn. now rewrite Hd.
Qed.

Lemma hw_read_next_bit_cases (s : Hw.HX711) :
  (Hw.dout_levels s = [] /\ Hw.read_next_bit s = Blocked) \/
  (exists b rest, Hw.dout_levels s = b :: rest /\
                  Hw.read_next_bit s = Ok (Z.b2z b) (hw_clocked 1 rest s)).
Proof.
  destruct (Hw.dout_levels s) as [|b rest] eqn:E.
  - left. split; [reflexivity | now apply hw_read_next_bit_blocked].
  - right. exists b, rest. split; [reflexivity|].
    now apply hw_read_next_bit_exact.
Qed.

Lemma hw_loop_blocked n : forall acc (s : Hw.HX711),
  (List.length (Hw.dout_levels s) < n)%nat ->
  Hw.read_next_byte_loop n acc s = Blocked.
Proof.
  induction n as [|n IH]; intros acc s Hl; [lia|].
  rewrite hw_read_next_byte_loop_step. unfold bind.
  destruct (hw_read_next_bit_cases s) as [[_ Hb] | (b & rest & Hd & Hb)];
    rewrite Hb.
  - now destruct (String.eqb (Hw.bit_format s) "MSB").
  - assert (Hl' : (List.length (Hw.dout_levels (hw_clocked 1 rest s)) < n)%nat).
    { cbn. rewrite Hd in Hl. cbn in Hl. lia. }
    destruct (String.eqb (Hw.bit_format s) "MSB"); now apply IH.
Qed.

Lemma hw_discard_blocked n : forall (s : Hw.HX711),
  (List.length (Hw.dout_levels s) < n)%nat ->
  repeat_m n (Hw.read_next_bit ;; ret tt) s = Blocked.
Proof.
  induction n as [|n IH]; intros s Hl; [lia|].
  cbn [repeat_m]. unfold bind at 1. unfold bind at 1.
  destruct (hw_read_next_bit_cases s) as [[_ Hb] | (b & rest & Hd & Hb)];
    rewrite Hb; [reflexivity|].
  cbn [ret]. unfold ret at 1. apply IH. cbn.
  rewrite Hd in Hl. cbn in Hl. lia.
Qed.

Lemma hw_byte_then_blocked {A} (k : Z -> M Hw.HX711 A) (s : Hw.HX711) :
  (List.length (Hw.dout_levels s) < 8)%nat ->
  bind Hw.read_next_byte k s = Blocked.
Proof.
  intros Hl. unfold bind, Hw.read_next_byte.
  now rewrite hw_loop_blocked.
Qed.

(** The full outcome of one hardware acquisition.  It never raises.  It
    returns exactly when the lock is free, DOUT goes low and at least
    [24 + gain] more levels are recorded; it then returns the three bytes
    assembled from the 24 levels after the ready-low, in the configured byte
    order, having sent [24 + gain] clock pulses. *)
Lemma hw_read_raw_bytes_outcome (s : Hw.HX711) :
  Hw.read_raw_bytes s =
  match (if Hw.read_lock s then None else Hw.after_ready (Hw.dout_levels s))
  with
  | Some r =>
      if (24 + Z.to_nat (Hw.gain s) <=? List.length r)%nat then
        Ok (hw_ordered (Hw.byte_format s)
              (hw_byte_of (Hw.bit_format s) (firstn 8 r))
              (hw_byte_of (Hw.bit_format s) (firstn 8 (skipn 8 r)))
              (hw_byte_of (Hw.bit_format s) (firstn 8 (skipn 16 r))))
           (hw_clocked (24 + Z.to_nat (Hw.gain s))
              (skipn (24 + Z.to_nat (Hw.gain s)) r) s)
      else Blocked
  | None => Blocked
  end.
Proof.
  destruct (Hw.read_lock s) eqn:Hlock.
  { unfold Hw.read_raw_bytes, bind, Hw.lock_acquire. now rewrite Hlock. }
  destruct (Hw.after_ready (Hw.dout_levels s)) as [r|] eqn:Hr.
  2:{ unfold Hw.read_raw_bytes, bind at 1, Hw.lock_acquire. rewrite Hlock.
      unfold bind at 1, Hw.wait_until_ready.
      now rewrite (hw_poll_ready_never (Hw.dout_levels s)). }
  destruct (hw_after_ready_spec _ _ Hr) as (highs & Hd).
  destruct (Nat.leb_spec (24 + Z.to_nat (Hw.gain s)) (List.length r))
    as [Hlen | Hlen].
  - set (g := Z.to_nat (Hw.gain s)) in *.
    assert (Hsplit : r = firstn 8 r ++ firstn 8 (skipn 8 r) ++
                       firstn 8 (skipn 16 r) ++ firstn g (skipn 24 r) ++
                       skipn (24 + g) r).
    { rewrite <- (firstn_skipn 8 r) at 1. f_equal.
      rewrite <- (firstn_skipn 8 (skipn 8 r)) at 1. f_equal.
      rewrite skipn_skipn. change (8 + 8)%nat with 16%nat.
      rewrite <- (firstn_skipn 8 (skipn 16 r)) at 1. f_equal.
      rewrite skipn_skipn. change (8 + 16)%nat with 24%nat.
      rewrite <- (firstn_skipn g (skipn 24 r)) at 1. f_equal.
      rewrite skipn_skipn. f_equal. lia. }
    rewrite Hsplit in Hd.
    apply (hw_read_raw_bytes_exact highs (firstn 8 r) (firstn 8 (skipn 8 r))
             (firstn 8 (skipn 16 r)) (firstn g (skipn 24 r))
             (skipn (24 + g) r) s Hlock); auto;
      rewrite ?length_firstn, ?length_skipn; lia.
  - unfold Hw.read_raw_bytes.
    assert (Ha : Hw.lock_acquire s = Ok tt (Hw.with_read_lock true s)).
    { unfold Hw.lock_acquire. now rewrite Hlock. }
    rewrite (bind_ok _ _ _ _ _ Ha).
    rewrite (bind_ok _ _ _ _ _
               (hw_wait_until_ready_exact highs r
                  (Hw.with_read_lock true s) Hd)).
    cbv beta.
    set (s1 := Hw.with_dout_levels r (Hw.with_read_lock true s)).
    assert (Hd1 : Hw.dout_levels s1 = r) by reflexivity.
    destruct (Nat.lt_ge_cases (List.length r) 8) as [H8 | H8].
    { apply hw_byte_then_blocked. now rewrite Hd1. }
    rewrite (bind_ok _ _ _ _ _
               (hw_read_next_byte_exact (firstn 8 r) (skipn 8 r) s1
                  ltac:(rewrite length_firstn; lia)
                  ltac:(now rewrite Hd1, firstn_skipn))).
    cbv beta.
    destruct (Nat.lt_ge_cases (List.length r) 16) as [H16 | H16].
    { apply hw_byte_then_blocked.
      cbn [hw_clocked Hw.dout_levels Hw.with_dout_levels].
      rewrite length_skipn. lia. }
    match goal with
    | |- bind _ _ ?t = _ =>
        rewrite (bind_ok _ _ _ _ _
                   (hw_read_next_byte_exact (firstn 8 (skipn 8 r))
                      (skipn 16 r) t
                      ltac:(rewrite length_firstn, length_skipn; lia)
                      ltac:(cbn [hw_clocked Hw.dout_levels Hw.with_dout_levels];
                            rewrite <- (firstn_skipn 8 (skipn 8 r)) at 1;
                            now rewrite skipn_skipn)))
    end.
    cbv beta.
    destruct (Nat.lt_ge_cases (List.length r) 24) as [H24 | H24].
    { apply hw_byte_then_blocked.
      cbn [hw_clocked Hw.dout_levels Hw.with_dout_levels].
      rewrite length_skipn. lia. }
    match goal with
    | |- bind _ _ ?t = _ =>
        rewrite (bind_ok _ _ _ _ _
                   (hw_read_next_byte_exact (firstn 8 (skipn 16 r))
                      (skipn 24 r) t
                      ltac:(rewrite length_firstn, length_skipn; lia)
                      ltac:(cbn [hw_clocked Hw.dout_levels Hw.with_dout_levels];
                            rewrite <- (firstn_skipn 8 (skipn 16 r)) at 1;
                            now rewrite skipn_skipn)))
    end.
    cbv beta. unfold bind at 1, gets. unfold bind at 1.
    rewrite hw_discard_blocked; [reflexivity|].
    cbn [hw_clocked Hw.dout_levels Hw.with_dout_levels].
    rewrite length_skipn.
    change (Hw.gain (hw_clocked 8 (skipn 24 r)
                       (hw_clocked 8 (skipn 16 r)
                          (hw_clocked 8 (skipn 8 r) s1))))
      with (Hw.gain s).
    lia.
Qed.

Lemma hw_read_raw_bytes_ok_inv bytes (s s' : Hw.HX711) :
  Hw.read_raw_bytes s = Ok bytes s' ->
  Hw.read_lock s = false /\
  exists b0 b1 b2 rest,
    bytes = [b0; b1; b2] /\
    0 <= b0 < 256 /\ 0 <= b1 < 256 /\ 0 <= b2 < 256 /\
    s' = hw_clocked (24 + Z.to_nat (Hw.gain s)) rest s /\
    (List.length rest < List.length (Hw.dout_levels s))%nat.
Proof.
  rewrite hw_read_raw_bytes_outcome.
  destruct (Hw.read_lock s) eqn:Hlock; [discriminate|].
  destruct (Hw.after_ready (Hw.dout_levels s)) as [r|] eqn:Hr;
    [|discriminate].
  destruct (Nat.leb_spec (24 + Z.to_nat (Hw.gain s)) (List.length r))
    as [Hlen | Hlen]; [|discriminate].
  intros H. split; [reflexivity|].
  assert (R0 := hw_byte_of_range (Hw.bit_format s) (firstn 8 r)
                  ltac:(rewrite length_firstn; lia)).
  assert (R1 := hw_byte_of_range (Hw.bit_format s) (firstn 8 (skipn 8 r))
                  ltac:(rewrite length_firstn, length_skipn; lia)).
  assert (R2 := hw_byte_of_range (Hw.bit_format s) (firstn 8 (skipn 16 r))
                  ltac:(rewrite length_firstn, length_skipn; lia)).
  assert (Hrest : (List.length (skipn (24 + Z.to_nat (Hw.gain s)) r)
                   < List.length (Hw.dout_levels s))%nat).
  { destruct (hw_after_ready_spec _ _ Hr) as (h & ->).
    rewrite length_skipn, length_app. cbn. lia. }
  unfold hw_ordered in H.
  set (x0 := hw_byte_of (Hw.bit_format s) (firstn 8 r)) in *.
  set (x1 := hw_byte_of (Hw.bit_format s) (firstn 8 (skipn 8 r))) in *.
  set (x2 := hw_byte_of (Hw.bit_format s) (firstn 8 (skipn 16 r))) in *.
  set (rest := skipn (24 + Z.to_nat (Hw.gain s)) r) in *.
  clearbody x0 x1 x2 rest.
  destruct (String.eqb (Hw.byte_format s) "LSB");
    injection H as Hb Hs; rewrite <- Hb, <- Hs;
    eexists _, _, _, _; repeat split; try reflexivity; try lia;
    exact Hrest.
Qed.

(** The hardware acquisition never raises, returns exactly when the chip
    answers (lock free, DOUT goes low, then [24 + gain] more levels are
    recorded) and otherwise never returns. *)
Theorem hw_acquisition_returns_iff_ready (s : Hw.HX711) :
  (forall e s', Hw.read_raw_bytes s <> Raise e s') /\
  ((exists bytes s', Hw.read_raw_bytes s = Ok bytes s') <->
   Hw.conversion_ready (Hw.gain s) s = true) /\
  (Hw.read_raw_bytes s = Blocked <->
   Hw.conversion_ready (Hw.gain s) s = false).
Proof.
  rewrite hw_read_raw_bytes_outcome. unfold Hw.conversion_ready.
  destruct (Hw.read_lock s); cbn [negb andb].
  { repeat split; try discriminate; try reflexivity.
    intros (b & s' & H). discriminate. }
  destruct (Hw.after_ready (Hw.dout_levels s)) as [r|].
  2:{ repeat split; try discriminate; try reflexivity.
      intros (b & s' & H). discriminate. }
  destruct (24 + Z.to_nat (Hw.gain s) <=? List.length r)%nat.
  - repeat split; try discriminate; try reflexivity.
    intros _. eexists _, _. reflexivity.
  - repeat split; try discriminate; try reflexivity.
    intros (b & s' & H). discriminate.
Qed.

(** Every hardware acquisition that returns has sent exactly [24 + gain]
    clock pulses (a high then a low each), returns three bytes of the range
    0..255, has consumed at least one level of DOUT, leaves the lock free and
    changes neither the settings nor [last_val] nor the output. *)
Theorem hw_acquisition_pulses bytes (s s' : Hw.HX711) :
  Hw.read_raw_bytes s = Ok bytes s' ->
  Hw.sck_levels s' = pulses (24 + Z.to_nat (Hw.gain s)) ++ Hw.sck_levels s /\
  List.length bytes = 3%nat /\
  Forall (fun b => 0 <= b < 256) bytes /\
  (List.length (Hw.dout_levels s') < List.length (Hw.dout_levels s))%nat /\
  Hw.read_lock s' = false /\
  Hw.settings s' = Hw.settings s /\
  Hw.last_val s' = Hw.last_val s /\
  Hw.stdout s' = Hw.stdout s.
Proof.
  intros H. apply hw_read_raw_bytes_ok_inv in H.
  destruct H as (Hlock & b0 & b1 & b2 & rest & -> & R0 & R1 & R2 & -> & Hl).
  repeat split; try reflexivity; try exact Hl; try exact Hlock.
  repeat constructor; lia.
Qed.

Lemma hw_acquisition_pulses_witness :
  let s := Hw.with_gain 3 (hw_idle (conversion 3 77)) in
  exists bytes s',
    Hw.read_raw_bytes s = Ok bytes s' /\
    Hw.sck_levels s' = pulses 27 ++ Hw.sck_levels s /\
    List.length bytes = 3%nat.
Proof.
  intros s.
  destruct (Hw.read_raw_bytes s) as [bytes s' | e s' |] eqn:E.
  - exists bytes, s'. split; [reflexivity|].
    destruct (hw_acquisition_pulses bytes s s' E) as (H1 & H2 & _).
    split; [exact H1 | exact H2].
  - vm_compute in E. discriminate E.
  - vm_compute in E. discriminate E.
Defined.

Lemma hw_read_long_post v (s s' : Hw.HX711) :
  Hw.read_long s = Ok v s' ->
  - 0x800000 <= v <= 0x7FFFFF /\ Hw.last_val s' = v.
Proof.
  intros H. pose proof H as H'. unfold Hw.read_long in H'.
  apply bind_ok_inv in H'. destruct H' as (bytes & s1 & Hraw & _).
  destruct (hw_read_raw_bytes_ok_inv _ _ _ Hraw)
    as (_ & b0 & b1 & b2 & rest & -> & R0 & R1 & R2 & _).
  destruct (hw_read_long_of_bytes b0 b1 b2 s s1 Hraw) as (t & Ht & Hv & _).
  rewrite Ht in H. inversion H; subst v t.
  split; [|exact Hv].
  apply convert_from_range. rewrite join24_arith by assumption.
  change (2 ^ 24) with 16777216. lia.
Qed.


(** Every sample that the hardware [read_long] returns lies in the signed
    24-bit range, whatever the levels on DOUT and whatever the formats, and
    is the value recorded in [last_val]. *)
Theorem hw_read_long_range v (s s' : Hw.HX711) :
  Hw.read_long s = Ok v s' ->
  - 0x800000 <= v <= 0x7FFFFF /\ Hw.last_val s' = v.
Proof. apply hw_read_long_post. Qed.

Lemma hw_read_long_range_witness :
  exists v s',
    Hw.read_long (Hw.with_bit_format "LSB" (hw_idle (conversion 1 (- 3))))
      = Ok v s' /\
    - 0x800000 <= v <= 0x7FFFFF /\ Hw.last_val s' = v.
Proof.
  destruct (Hw.read_long
              (Hw.with_bit_format "LSB" (hw_idle (conversion 1 (- 3)))))
    as [v s' | e s' |] eqn:E.
  - exists v, s'. split; [reflexivity|].
    exact (hw_read_long_range v _ s' E).
  - vm_compute in E. discriminate E.
  - vm_compute in E. discriminate E.
Defined.

(** ** The simulated acquisition *)

Lemma emu_convert_to_range x :
  0 <= Emu.convert_to_twos_complement_24_bit x < 2 ^ 24.
Proof.
  unfold Emu.convert_to_twos_complement_24_bit. rewrite !Z.geb_leb.
  change (2 ^ 24) with 16777216.
  destruct (Z.leb_spec 0x7fffff x); [lia|].
  destruct (Z.leb_spec 0 x).
  - change 0x7fffff with (Z.ones 23). rewrite Z.land_ones by lia.
    rewrite Z.mod_small by (change (2 ^ 23) with 8388608; lia). lia.
  - destruct (Z.ltb_spec x (- 0x800000)); lia.
Qed.

Lemma emu_convert_to_mod x :
  Emu.convert_to_twos_complement_24_bit x = clamp24 x mod 2 ^ 24.
Proof.
  unfold Emu.convert_to_twos_complement_24_bit, clamp24.
  rewrite !Z.geb_leb. change (2 ^ 24) with 16777216.
  destruct (Z.leb_spec 0x7fffff x).
  - rewrite Z.min_r, Z.max_r by lia. reflexivity.
  - destruct (Z.leb_spec 0 x).
    + rewrite Z.min_l, Z.max_r by lia.
      change 0x7fffff with (Z.ones 23). rewrite Z.land_ones by lia.
      rewrite !Z.mod_small by (change (2 ^ 23) with 8388608; lia).
      reflexivity.
    + destruct (Z.ltb_spec x (- 0x800000)).
      * rewrite Z.min_l, Z.max_l by lia. reflexivity.
      * rewrite Z.min_l, Z.max_r by lia.
        Z.div_mod_to_equations. lia.
Qed.

Lemma clamp24_range x : - 0x800000 <= clamp24 x <= 0x7FFFFF.
Proof. unfold clamp24. lia. Qed.

Lemma emu_decode_encode_clamp x :
  convert_from_twos_complement_24_bit
    (Emu.convert_to_twos_complement_24_bit x) = clamp24 x.
Proof.
  rewrite emu_convert_to_mod. apply convert_from_mod, clamp24_range.
Qed.

(** Saturating round trip.  For every integer [x], the encoding is a 24-bit
    word, it is the two's complement word of [x] saturated to the signed
    24-bit range, and decoding it gives that saturated value; encoding is
    therefore idempotent through decoding. *)
Theorem saturating_round_trip x :
  0 <= Emu.convert_to_twos_complement_24_bit x < 2 ^ 24 /\
  Emu.convert_to_twos_complement_24_bit x = clamp24 x mod 2 ^ 24 /\
  convert_from_twos_complement_24_bit
    (Emu.convert_to_twos_complement_24_bit x) = clamp24 x /\
  Emu.convert_to_twos_complement_24_bit
    (convert_from_twos_complement_24_bit
       (Emu.convert_to_twos_complement_24_bit x))
  = Emu.convert_to_twos_complement_24_bit x.
Proof.
  split; [apply emu_convert_to_range|].
  split; [apply emu_convert_to_mod|].
  split; [apply emu_decode_encode_clamp|].
  rewrite emu_decode_encode_clamp, !emu_convert_to_mod.
  f_equal. pose proof (clamp24_range x). unfold clamp24 in *. lia.
Qed.

(** Decoding sends every 24-bit word into the signed range and encoding
    brings it back: the two conversions are inverse bijections between
    [0, 2^24) and [-0x800000, 0x7FFFFF]. *)
Theorem decode_then_encode w :
  0 <= w < 2 ^ 24 ->
  - 0x800000 <= convert_from_twos_complement_24_bit w <= 0x7FFFFF /\
  Emu.convert_to_twos_complement_24_bit
    (convert_from_twos_complement_24_bit w) = w.
Proof.
  intros Hw. pose proof (convert_from_range w Hw) as Hr.
  split; [exact Hr|].
  rewrite emu_convert_to_mod.
  unfold clamp24. rewrite Z.min_l, Z.max_r by lia.
  rewrite convert_from_arith by exact Hw.
  change (2 ^ 24) with 16777216 in *. change (2 ^ 23) with 8388608.
  Z.div_mod_to_equations. lia.
Qed.

Lemma decode_then_encode_witness :
  0 <= 0xFFFFFE < 2 ^ 24 /\
  - 0x800000 <= convert_from_twos_complement_24_bit 0xFFFFFE <= 0x7FFFFF /\
  Emu.convert_to_twos_complement_24_bit
    (convert_from_twos_complement_24_bit 0xFFFFFE) = 0xFFFFFE.
Proof.
  assert (H : 0 <= 0xFFFFFE < 2 ^ 24) by (change (2 ^ 24) with 16777216; lia).
  split; [exact H | exact (decode_then_encode 0xFFFFFE H)].
Defined.

Lemma emu_with_lock_ok_inv {A} (body : M Emu.HX711 A) a (s s' : Emu.HX711) :
  Emu.with_lock body s = Ok a s' ->
  Emu.read_lock s = false /\
  exists t, body (Emu.with_read_lock true s) = Ok a t /\
            s' = Emu.with_read_lock false t.
Proof.
  unfold Emu.with_lock. destruct (Emu.read_lock s); [discriminate|].
  destruct (body (Emu.with_read_lock true s)) as [a1 t | e t |];
    try discriminate.
  intros H. inversion H; subst. split; [reflexivity|]. now exists t.
Qed.

Lemma emu_when_debug_ok p (s : Emu.HX711) :
  exists s',
    Emu.when_debug p s = Ok tt s' /\
    Emu.read_lock s' = Emu.read_lock s /\
    Emu.last_val s' = Emu.last_val s /\
    Emu.sample_count s' = Emu.sample_count s /\
    Emu.settings s' = Emu.settings s.
Proof.
  unfold Emu.when_debug, Emu.print, bind, gets, modify.
  destruct (Emu.debug_printing s); eexists; (split; [reflexivity|]);
    repeat split.
Qed.

Lemma emu_read_long_of_bytes b0 b1 b2 (s s1 : Emu.HX711) :
  Emu.read_raw_bytes s = Ok [b0; b1; b2] s1 ->
  exists s',
    Emu.read_long s =
      Ok (convert_from_twos_complement_24_bit (join24 b0 b1 b2)) s' /\
    Emu.last_val s' = convert_from_twos_complement_24_bit (join24 b0 b1 b2) /\
    Emu.read_lock s' = Emu.read_lock s1 /\
    Emu.sample_count s' = Emu.sample_count s1 /\
    Emu.settings s' = Emu.settings s1.
Proof.
  intros Hr. unfold Emu.read_long. rewrite (bind_ok _ _ _ _ _ Hr).
  destruct (emu_when_debug_ok (PrBytes [b0; b1; b2]) s1)
    as (s2 & H2 & L2 & _ & C2 & S2).
  rewrite (bind_ok _ _ _ _ _ H2).
  assert (I0 : py_index [b0; b1; b2] 0 s2 = Ok b0 s2) by reflexivity.
  assert (I1 : py_index [b0; b1; b2] 1 s2 = Ok b1 s2) by reflexivity.
  assert (I2 : py_index [b0; b1; b2] 2 s2 = Ok b2 s2) by reflexivity.
  rewrite (bind_ok _ _ _ _ _ I0), (bind_ok _ _ _ _ _ I1),
    (bind_ok _ _ _ _ _ I2).
  fold (join24 b0 b1 b2).
  destruct (emu_when_debug_ok (PrTwos (join24 b0 b1 b2)) s2)
    as (s3 & H3 & L3 & _ & C3 & S3).
  rewrite (bind_ok _ _ _ _ _ H3).
  unfold bind, modify, ret.
  eexists. split; [reflexivity|]. cbn.
  repeat split; try congruence.
  change (Emu.settings s3 = Emu.settings s1). congruence.
Qed.

(** The bytes of a simulated acquisition are those of the encoding of one
    generated sample, in the configured byte order. *)
Lemma emu_read_raw_bytes_ok_inv bytes (s s' : Emu.HX711) :
  Emu.read_raw_bytes s = Ok bytes s' ->
  exists fake sx sy,
    Emu.generate_fake_sample sx = Ok fake sy /\
    Emu.settings sx = Emu.settings s /\
    Emu.read_lock s = false /\ Emu.read_lock s' = false /\
    let w := Emu.convert_to_twos_complement_24_bit fake in
    bytes =
      if String.eqb (Emu.byte_format s) "LSB"
      then [Z.land w 0xFF; Z.land (Z.shiftr w 8) 0xFF;
            Z.land (Z.shiftr w 16) 0xFF]
      else [Z.land (Z.shiftr w 16) 0xFF; Z.land (Z.shiftr w 8) 0xFF;
            Z.land w 0xFF].
Proof.
  intros H.
  assert (Hk : Emu.settings s' = Emu.settings s).
  { apply emu_keeps_read_raw_bytes. now rewrite H. }
  unfold Emu.read_raw_bytes in H.
  apply bind_ok_inv in H. destruct H as (triple & s2 & Hwl & H).
  apply emu_with_lock_ok_inv in Hwl. destruct Hwl as (Hlock & t & Hbody & ->).
  apply bind_ok_inv in Hbody. destruct Hbody as ([] & t1 & Hwait & Hbody).
  apply bind_ok_inv in Hbody. destruct Hbody as (now & t2 & Htime & Hbody).
  apply bind_ok_inv in Hbody. destruct Hbody as ([] & t3 & Hmod & Hbody).
  apply bind_ok_inv in Hbody. destruct Hbody as (fake & t4 & Hgen & Hbody).
  unfold ret in Hbody. inversion Hbody; subst triple t. clear Hbody.
  exists fake, t3, t4. split; [exact Hgen|].
  assert (K1 : Emu.settings t1 = Emu.settings (Emu.with_read_lock true s)).
  { apply emu_keeps_wait_until_ready. now rewrite Hwait. }
  assert (K2 : Emu.settings t2 = Emu.settings t1).
  { apply emu_keeps_time_time. now rewrite Htime. }
  assert (K3 : Emu.settings t3 = Emu.settings t2).
  { unfold modify in Hmod. inversion Hmod. reflexivity. }
  split; [rewrite K3, K2, K1; reflexivity|].
  split; [exact Hlock|].
  cbv zeta. unfold bind, gets in H.
  change (Emu.byte_format (Emu.with_read_lock false t4))
    with (Emu.byte_format t4) in H.
  assert (Hbf : Emu.byte_format t4 = Emu.byte_format s).
  { assert (K4 : Emu.settings t4 = Emu.settings t3).
    { apply emu_keeps_generate_fake_sample. now rewrite Hgen. }
    assert (K : Emu.settings t4 = Emu.settings s).
    { rewrite K4, K3, K2, K1. reflexivity. }
    unfold Emu.settings in K. congruence. }
  rewrite Hbf in H.
  destruct (String.eqb (Emu.byte_format s) "LSB");
    unfold ret in H; injection H as Hb Hs; rewrite <- Hb, <- Hs;
    split; reflexivity.
Qed.

Lemma byte_swap24_range w : 0 <= byte_swap24 w < 2 ^ 24.
Proof.
  unfold byte_swap24. fold (join24 (Z.land w 0xFF)
    (Z.land (Z.shiftr w 8) 0xFF) (Z.land (Z.shiftr w 16) 0xFF)).
  change 0xFF with (Z.ones 8). rewrite !Z.land_ones by lia.
  change (2 ^ 8) with 256.
  rewrite join24_arith by (apply Z.mod_pos_bound; lia).
  pose proof (Z.mod_pos_bound w 256 ltac:(lia)).
  pose proof (Z.mod_pos_bound (Z.shiftr w 8) 256 ltac:(lia)).
  pose proof (Z.mod_pos_bound (Z.shiftr w 16) 256 ltac:(lia)).
  change (2 ^ 24) with 16777216. lia.
Qed.

Lemma emu_read_long_post v (s s' : Emu.HX711) :
  Emu.read_long s = Ok v s' ->
  - 0x800000 <= v <= 0x7FFFFF /\
  Emu.last_val s' = v /\
  Emu.read_lock s' = false /\
  exists fake sx sy,
    Emu.generate_fake_sample sx = Ok fake sy /\
    Emu.settings sx = Emu.settings s /\
    v = if String.eqb (Emu.byte_format s) "LSB"
        then convert_from_twos_complement_24_bit
               (byte_swap24 (Emu.convert_to_twos_complement_24_bit fake))
        else clamp24 fake.
Proof.
  intros H. pose proof H as H'. unfold Emu.read_long in H'.
  apply bind_ok_inv in H'. destruct H' as (bytes & s1 & Hraw & _).
  destruct (emu_read_raw_bytes_ok_inv _ _ _ Hraw)
    as (fake & sx & sy & Hgen & Hset & _ & Hlock1 & Hbytes).
  cbv zeta in Hbytes.
  pose proof (emu_convert_to_range fake) as Hw.
  destruct (String.eqb (Emu.byte_format s) "LSB"); subst bytes;
    destruct (emu_read_long_of_bytes _ _ _ s s1 Hraw)
      as (t & Ht & Hv & Hl & _); rewrite Ht in H; inversion H; subst v t.
  - fold (byte_swap24 (Emu.convert_to_twos_complement_24_bit fake)) in *.
    split; [apply convert_from_range, byte_swap24_range|].
    split; [exact Hv|]. split; [congruence|].
    exists fake, sx, sy. auto.
  - rewrite join24_split in * by exact Hw.
    rewrite emu_decode_encode_clamp in *.
    split; [apply clamp24_range|].
    split; [exact Hv|]. split; [congruence|].
    exists fake, sx, sy. auto.
Qed.



(** ** Median, mean and trimmed mean *)

Lemma nat_odd_mod2 n : Nat.odd n = (Z.of_nat n mod 2 =? 1).
Proof.
  assert (H : Nat.odd n = (Z.of_nat n mod 2 =? 1) /\
              Nat.odd (Datatypes.S n)
              = (Z.of_nat (Datatypes.S n) mod 2 =? 1)).
  { induction n as [|n [IH1 IH2]].
    - split; reflexivity.
    - split; [exact IH2|].
      rewrite Nat.odd_succ_succ, IH1.
      replace (Z.of_nat (Datatypes.S (Datatypes.S n)))
        with (Z.of_nat n + 1 * 2) by lia.
      now rewrite Z.mod_add by lia. }
  exact (proj1 H).
Qed.

Lemma firstn_2_skipn {A} (d : A) k : forall l,
  (Datatypes.S k < List.length l)%nat ->
  firstn 2 (skipn k l) = [nth k l d; nth (Datatypes.S k) l d].
Proof.
  induction k as [|k IH]; intros l Hl.
  - destruct l as [|a [|b l]]; cbn in Hl; try lia. reflexivity.
  - destruct l as [|a l]; cbn in Hl; [lia|].
    cbn [skipn]. rewrite IH by lia. reflexivity.
Qed.

Section MedianGeneral.

Context {S : Type}.

(** What [read_median] computes from two or more collected samples. *)
Lemma median_of_collected_general times vs (s : S) :
  2 <= times ->
  List.length vs = Z.to_nat times ->
  (let value_list := py_sort vs in
   if Z.land times 1 =? 1 then
     v <- py_index value_list (len value_list / 2) ;; ret (inject_Z v)
   else
     let midpoint := py_int (inject_Z (len value_list) / 2) in
     py_truediv
       (inject_Z (py_sum (py_slice value_list (midpoint - 1) (midpoint + 1))))
       2) s = Ok (median vs) s.
Proof.
  intros Ht Hlen. cbv zeta.
  assert (Hs : List.length (py_sort vs) = List.length vs)
    by apply py_sort_length.
  assert (Hn : Z.of_nat (List.length vs) = times) by lia.
  assert (Hlensort : len (py_sort vs) = times) by (unfold len; lia).
  unfold median. rewrite nat_odd_mod2, Hn.
  change 1 with (Z.ones 1) at 1. rewrite Z.land_ones by lia.
  change (2 ^ 1) with 2.
  set (sorted := py_sort vs) in *.
  assert (Hhalf : Z.to_nat (times / 2) = (List.length vs / 2)%nat).
  { rewrite <- Hn. change 2 with (Z.of_nat 2).
    now rewrite <- Nat2Z.inj_div, Nat2Z.id. }
  assert (Hpos : (0 < List.length vs / 2)%nat).
  { rewrite <- Hhalf. assert (1 <= times / 2) by
      (apply Z.div_le_lower_bound; lia). lia. }
  assert (Hlt : (List.length vs / 2 < List.length vs)%nat)
    by (apply Nat.div_lt; lia).
  destruct (times mod 2 =? 1) eqn:Hodd.
  - rewrite Hlensort. unfold py_index, bind. cbv zeta.
    assert (Hb : (times / 2 <? 0) = false).
    { apply Z.ltb_ge. apply Z.div_pos; lia. }
    rewrite !Hb.
    rewrite Hhalf, (nth_error_nth' sorted 0) by lia. reflexivity.
  - rewrite Hlensort, py_int_half by lia.
    unfold py_slice, slice_bound. rewrite Hlensort.
    assert (1 <= times / 2) by (apply Z.div_le_lower_bound; lia).
    assert (times / 2 < times) by (apply Z.div_lt; lia).
    destruct (Z.ltb_spec (times / 2 - 1) 0); [lia|].
    destruct (Z.ltb_spec (times / 2 + 1) 0); [lia|].
    rewrite !Z.min_l by lia.
    replace (Z.to_nat (times / 2 + 1 - (times / 2 - 1))) with 2%nat by lia.
    replace (Z.to_nat (times / 2 - 1)) with (List.length vs / 2 - 1)%nat
      by lia.
    rewrite (firstn_2_skipn 0) by lia.
    replace (Datatypes.S (List.length vs / 2 - 1))
      with (List.length vs / 2)%nat by lia.
    unfold py_truediv. change (Qeq_bool 2 0) with false. cbv iota.
    unfold ret, mean. f_equal.
    rewrite py_sum_total. reflexivity.
Qed.

End MedianGeneral.

(** The hardware [read_median], hence [get_value], returns the statistical
    median for every sample count of 2 or more, also for the counts of 5 and
    more for which [read_average] returns the trimmed mean; the two differ,
    for instance on the samples 0, 0, 3, 9, 9. *)
Theorem hw_read_median_any_count times (s : Hw.HX711) vs s' :
  2 <= times ->
  acquire Hw.read_long (Z.to_nat times) s = Ok vs s' ->
  Hw.read_median times s = Ok (median vs) s' /\
  Hw.get_value times s = Ok (median vs - Hw.offset s)%Q s' /\
  ~ (median [0; 0; 3; 9; 9]%Z == trimmed_mean [0; 0; 3; 9; 9]%Z)%Q.
Proof.
  intros Ht Hacq.
  assert (Hmed : Hw.read_median times s = Ok (median vs) s').
  { unfold Hw.read_median.
    destruct (Z.leb_spec times 0); [lia|].
    destruct (Z.eqb_spec times 1); [lia|].
    unfold bind at 1. rewrite collect_acquire, Hacq. cbn [app].
    apply median_of_collected_general; [exact Ht|].
    now apply acquire_length in Hacq. }
  split; [exact Hmed|]. split.
  - assert (Hk : Hw.settings s' = Hw.settings s).
    { apply (hw_keeps_read_median times). now rewrite Hmed. }
    apply hw_settings_gain in Hk. destruct Hk as (_ & _ & _ & Ho & _).
    unfold Hw.get_value, Hw.get_value_a.
    rewrite (bind_ok _ _ _ _ _ Hmed).
    unfold Hw.get_offset_a, gets, bind, ret. now rewrite Ho.
  - intros H. vm_compute in H. discriminate H.
Qed.

Lemma hw_read_median_any_count_witness :
  2 <= 5 /\
  exists s',
    acquire Hw.read_long (Z.to_nat 5)
      (hw_idle (conversions 1 [9; 0; 3; 9; 0])) = Ok [9; 0; 3; 9; 0] s' /\
    Hw.read_median 5 (hw_idle (conversions 1 [9; 0; 3; 9; 0]))
      = Ok (median [9; 0; 3; 9; 0]) s'.
Proof.
  assert (Ht : 2 <= 5) by lia. split; [exact Ht|].
  destruct (acquire Hw.read_long (Z.to_nat 5)
              (hw_idle (conversions 1 [9; 0; 3; 9; 0])))
    as [vs s' | e s' |] eqn:E;
    [| vm_compute in E; discriminate E | vm_compute in E; discriminate E].
  pose proof (proj1 (hw_read_median_any_count 5 _ vs s' Ht E)) as Hm.
  assert (Hvs : vs = [9; 0; 3; 9; 0]) by (vm_compute in E; now inversion E).
  subst vs. exists s'. split; [reflexivity | exact Hm].
Defined.

(** *** The aggregates do not depend on the order of the samples *)

Lemma insert_sorted_comm x y l :
  insert_sorted x (insert_sorted y l) = insert_sorted y (insert_sorted x l).
Proof.
  induction l as [|z l IH]; cbn.
  - destruct (Z.leb_spec x y), (Z.leb_spec y x); try reflexivity;
      try lia. now replace y with x by lia.
  - destruct (Z.leb_spec y z) as [Hyz | Hyz],
             (Z.leb_spec x z) as [Hxz | Hxz]; cbn.
    + destruct (Z.leb_spec x y), (Z.leb_spec y x),
               (Z.leb_spec x z), (Z.leb_spec y z);
        try lia; try reflexivity.
      now replace y with x by lia.
    + destruct (Z.leb_spec x y), (Z.leb_spec y z), (Z.leb_spec x z);
        try lia; reflexivity.
    + destruct (Z.leb_spec y x), (Z.leb_spec x z), (Z.leb_spec y z);
        try lia; reflexivity.
    + destruct (Z.leb_spec x z), (Z.leb_spec y z); try lia.
      now rewrite IH.
Qed.

Lemma py_sort_permutation l l' :
  Permutation l l' -> py_sort l = py_sort l'.
Proof.
  induction 1 as [| x l l' _ IH | x y l | l l' l'' _ IH1 _ IH2]; cbn.
  - reflexivity.
  - now rewrite IH.
  - apply insert_sorted_comm.
  - now rewrite IH1.
Qed.

Lemma total_permutation l l' : Permutation l l' -> total l = total l'.
Proof.
  induction 1 as [| x l l' _ IH | x y l | l l' l'' _ IH1 _ IH2]; cbn;
    try lia. unfold total in *. lia.
Qed.

Lemma aggregates_permutation l l' :
  Permutation l l' ->
  median l = median l' /\ mean l = mean l' /\
  trimmed_mean l = trimmed_mean l'.
Proof.
  intros Hp.
  pose proof (py_sort_permutation l l' Hp) as Hs.
  pose proof (Permutation_length Hp) as Hl.
  pose proof (total_permutation l l' Hp) as Ht.
  unfold median, trimmed_mean, mean, len. rewrite Hs, Hl, Ht.
  repeat split.
Qed.

(** *** The aggregates lie between the extreme samples *)

Lemma total_bounds lo hi l :
  Forall (fun v => lo <= v <= hi) l ->
  lo * len l <= total l <= hi * len l.
Proof.
  induction 1 as [|x l Hx _ IH]; unfold len in *; cbn [total fold_right].
  - cbn. lia.
  - fold (total l). cbn [List.length]. lia.
Qed.

Lemma mean_bounds lo hi l :
  l <> [] -> Forall (fun v => lo <= v <= hi) l ->
  (inject_Z lo <= mean l <= inject_Z hi)%Q.
Proof.
  intros Hne Hall. pose proof (total_bounds lo hi l Hall) as [Hlo Hhi].
  assert (Hn : 0 < len l).
  { unfold len. destruct l; [contradiction | cbn; lia]. }
  assert (Hq : (0 < inject_Z (len l))%Q).
  { change 0%Q with (inject_Z 0). now rewrite <- Zlt_Qlt. }
  unfold mean. split.
  - apply Qle_shift_div_l; [exact Hq|].
    rewrite <- inject_Z_mult, <- Zle_Qle. exact Hlo.
  - apply Qle_shift_div_r; [exact Hq|].
    rewrite <- inject_Z_mult, <- Zle_Qle. exact Hhi.
Qed.

Lemma Forall_firstn_skipn {A} (P : A -> Prop) k l :
  Forall P l -> Forall P (firstn k l) /\ Forall P (skipn k l).
Proof.
  intros H. rewrite <- (firstn_skipn k l) in H.
  now apply Forall_app in H.
Qed.

Lemma Forall_py_sort (P : Z -> Prop) l : Forall P l -> Forall P (py_sort l).
Proof. intros H. now rewrite <- (py_sort_perm l). Qed.

Lemma Forall_nth_in {A} (P : A -> Prop) l k d :
  Forall P l -> (k < List.length l)%nat -> P (nth k l d).
Proof. intros H Hk. rewrite Forall_forall in H. now apply H, nth_In. Qed.

Lemma median_bounds lo hi l :
  l <> [] -> Forall (fun v => lo <= v <= hi) l ->
  (inject_Z lo <= median l <= inject_Z hi)%Q.
Proof.
  intros Hne Hall.
  assert (Hn : (0 < List.length l)%nat)
    by (destruct l; [contradiction | cbn; lia]).
  pose proof (Forall_py_sort _ l Hall) as Hs.
  pose proof (py_sort_length l) as Hl.
  unfold median.
  assert (Hhalf : (List.length l / 2 < List.length l)%nat)
    by (apply Nat.div_lt; lia).
  destruct (Nat.odd (List.length l)) eqn:Hodd.
  - pose proof (Forall_nth_in _ (py_sort l) (List.length l / 2) 0 Hs
                  ltac:(lia)) as Hb.
    cbv beta in Hb. rewrite <- !Zle_Qle. exact Hb.
  - apply mean_bounds; [discriminate|].
    repeat constructor; apply (Forall_nth_in _ (py_sort l) _ 0 Hs); lia.
Qed.

Lemma trimmed_mean_bounds lo hi l :
  l <> [] -> Forall (fun v => lo <= v <= hi) l ->
  (inject_Z lo <= trimmed_mean l <= inject_Z hi)%Q.
Proof.
  intros Hne Hall.
  assert (Hn : (0 < List.length l)%nat)
    by (destruct l; [contradiction | cbn; lia]).
  unfold trimmed_mean. rewrite Qfloor_fifth.
  set (t := Z.to_nat (Z.of_nat (List.length l) / 5)).
  assert (Ht : (2 * t < List.length l)%nat).
  { unfold t. pose proof (Z.mul_div_le (Z.of_nat (List.length l)) 5).
    assert (0 <= Z.of_nat (List.length l) / 5) by (apply Z.div_pos; lia).
    lia. }
  apply mean_bounds.
  - intros E. apply (f_equal (@List.length Z)) in E.
    rewrite length_skipn, length_firstn, py_sort_length in E. cbn in E. lia.
  - apply Forall_firstn_skipn, Forall_firstn_skipn, Forall_py_sort, Hall.
Qed.

Lemma acquire_Forall {S} (read : M S Z) (P : Z -> Prop) :
  (forall s v s', read s = Ok v s' -> P v) ->
  forall n s vs s', acquire read n s = Ok vs s' -> Forall P vs.
Proof.
  intros Hread. induction n as [|n IH]; intros s vs s' H; cbn in H.
  - inversion H. constructor.
  - apply bind_ok_inv in H. destruct H as (v & s1 & Hv & H).
    apply bind_ok_inv in H. destruct H as (ws & s2 & Hws & H).
    inversion H; subst. constructor; eauto.
Qed.

Lemma acquire_nonempty {S} (read : M S Z) times s vs s' :
  1 <= times ->
  acquire read (Z.to_nat times) s = Ok vs s' -> vs <> [].
Proof.
  intros Ht H E. apply acquire_length in H. subst vs. cbn in H. lia.
Qed.

(** The outcome of the aggregating reads, from the outcome of the
    successive single reads. *)
Lemma hw_read_median_eq times (s : Hw.HX711) :
  2 <= times ->
  Hw.read_median times s =
  match acquire Hw.read_long (Z.to_nat times) s with
  | Ok vs s' => Ok (median vs) s'
  | Raise e s' => Raise e s'
  | Blocked => Blocked
  end.
Proof.
  intros Ht. unfold Hw.read_median.
  destruct (Z.leb_spec times 0); [lia|].
  destruct (Z.eqb_spec times 1); [lia|].
  unfold bind at 1. rewrite collect_acquire.
  destruct (acquire Hw.read_long (Z.to_nat times) s) as [vs s' | |] eqn:E;
    try reflexivity.
  cbn [app]. apply median_of_collected_general; [exact Ht|].
  now apply acquire_length in E.
Qed.

Lemma hw_read_average_eq_large times (s : Hw.HX711) :
  5 <= times ->
  Hw.read_average times s =
  match acquire Hw.read_long (Z.to_nat times) s with
  | Ok vs s' => Ok (trimmed_mean vs) s'
  | Raise e s' => Raise e s'
  | Blocked => Blocked
  end.
Proof.
  intros Ht. unfold Hw.read_average.
  destruct (Z.leb_spec times 0); [lia|].
  destruct (Z.eqb_spec times 1); [lia|].
  destruct (Z.ltb_spec times 5); [lia|].
  unfold bind at 1. rewrite collect_acquire.
  destruct (acquire Hw.read_long (Z.to_nat times) s) as [vs s' | |] eqn:E;
    try reflexivity.
  cbn [app]. apply trimmed_mean_of_collected.
  rewrite (len_acquired Hw.read_long times s vs s'); [lia | lia | exact E].
Qed.

Lemma hw_read_average_eq_small times (s : Hw.HX711) :
  2 <= times <= 4 ->
  Hw.read_average times s = Hw.read_median times s.
Proof.
  intros Ht. unfold Hw.read_average.
  destruct (Z.leb_spec times 0); [lia|].
  destruct (Z.eqb_spec times 1); [lia|].
  destruct (Z.ltb_spec times 5); [reflexivity | lia].
Qed.

Lemma emu_read_average_eq_small times (s : Emu.HX711) :
  2 <= times <= 4 ->
  Emu.read_average times s =
  match acquire Emu.read_long (Z.to_nat times) s with
  | Ok vs s' => Ok (mean vs) s'
  | Raise e s' => Raise e s'
  | Blocked => Blocked
  end.
Proof.
  intros Ht. unfold Emu.read_average.
  destruct (Z.leb_spec times 0); [lia|].
  unfold bind at 1, ret at 1.
  destruct (Z.eqb_spec times 1); [lia|].
  destruct (Z.ltb_spec times 5); [|lia].
  unfold bind. rewrite accumulate_acquire.
  destruct (acquire Emu.read_long (Z.to_nat times) s) as [vs s' | |] eqn:E;
    try reflexivity.
  rewrite py_truediv_inject_Z by lia.
  unfold mean.
  rewrite (len_acquired Emu.read_long times s vs s'); [| lia | exact E].
  reflexivity.
Qed.

Lemma emu_read_average_eq_large times (s : Emu.HX711) :
  5 <= times ->
  Emu.read_average times s =
  match acquire Emu.read_long (Z.to_nat times) s with
  | Ok vs s' => Ok (trimmed_mean vs) s'
  | Raise e s' => Raise e s'
  | Blocked => Blocked
  end.
Proof.
  intros Ht. unfold Emu.read_average.
  destruct (Z.leb_spec times 0); [lia|].
  unfold bind at 1, ret at 1.
  destruct (Z.eqb_spec times 1); [lia|].
  destruct (Z.ltb_spec times 5); [lia|].
  unfold bind at 1. rewrite collect_acquire.
  destruct (acquire Emu.read_long (Z.to_nat times) s) as [vs s' | |] eqn:E;
    try reflexivity.
  cbn [app]. apply trimmed_mean_of_collected.
  rewrite (len_acquired Emu.read_long times s vs s'); [lia | lia | exact E].
Qed.

Lemma range_Forall_hw n (s : Hw.HX711) vs s' :
  acquire Hw.read_long n s = Ok vs s' ->
  Forall (fun v => - 0x800000 <= v <= 0x7FFFFF) vs.
Proof.
  apply (acquire_Forall Hw.read_long).
  intros t v t' H. exact (proj1 (hw_read_long_post v t t' H)).
Qed.

Lemma range_Forall_emu n (s : Emu.HX711) vs s' :
  acquire Emu.read_long n s = Ok vs s' ->
  Forall (fun v => - 0x800000 <= v <= 0x7FFFFF) vs.
Proof.
  apply (acquire_Forall Emu.read_long).
  intros t v t' H. exact (proj1 (emu_read_long_post v t t' H)).
Qed.

Lemma hw_read_median_in_range times v (s s' : Hw.HX711) :
  Hw.read_median times s = Ok v s' ->
  (inject_Z (- 0x800000) <= v <= inject_Z 0x7FFFFF)%Q.
Proof.
  intros H.
  destruct (Z.le_gt_cases times 0) as [H0 | H0].
  { unfold Hw.read_median in H.
    destruct (Z.leb_spec times 0); [discriminate | lia]. }
  destruct (Z.eq_dec times 1) as [-> | H1].
  { unfold Hw.read_median in H. cbn [Z.leb Z.eqb Z.compare] in H.
    change (1 <=? 0) with false in H. change (1 =? 1) with true in H.
    cbv iota in H. apply bind_ok_inv in H.
    destruct H as (x & s1 & Hx & H). inversion H; subst.
    rewrite <- !Zle_Qle. exact (proj1 (hw_read_long_post x s s' Hx)). }
  rewrite hw_read_median_eq in H by lia.
  destruct (acquire Hw.read_long (Z.to_nat times) s) as [vs t | |] eqn:E;
    try discriminate.
  inversion H; subst.
  apply median_bounds;
    [apply (acquire_nonempty Hw.read_long times s vs s'); [lia | exact E]
    | exact (range_Forall_hw _ _ _ _ E)].
Qed.

(** Every value that the hardware [read_average] or [read_median] returns,
    for any sample count, lies in the signed 24-bit range
    [-0x800000 .. 0x7FFFFF]. *)
Theorem hw_aggregates_in_range times v (s s' : Hw.HX711) :
  (Hw.read_average times s = Ok v s' ->
   (inject_Z (- 0x800000) <= v <= inject_Z 0x7FFFFF)%Q) /\
  (Hw.read_median times s = Ok v s' ->
   (inject_Z (- 0x800000) <= v <= inject_Z 0x7FFFFF)%Q).
Proof.
  split; [|apply hw_read_median_in_range].
  intros H.
  destruct (Z.le_gt_cases times 0) as [H0 | H0].
  { unfold Hw.read_average in H.
    destruct (Z.leb_spec times 0); [discriminate | lia]. }
  destruct (Z.eq_dec times 1) as [-> | H1].
  { apply (hw_read_median_in_range 1 v s s'). exact H. }
  destruct (Z.lt_ge_cases times 5) as [H5 | H5].
  { rewrite hw_read_average_eq_small in H by lia.
    apply (hw_read_median_in_range times v s s'). exact H. }
  rewrite hw_read_average_eq_large in H by lia.
  destruct (acquire Hw.read_long (Z.to_nat times) s) as [vs t | |] eqn:E;
    try discriminate.
  inversion H; subst.
  apply trimmed_mean_bounds;
    [apply (acquire_nonempty Hw.read_long times s vs s'); [lia | exact E]
    | exact (range_Forall_hw _ _ _ _ E)].
Qed.

Lemma hw_aggregates_in_range_witness :
  exists v s',
    Hw.read_average 5 (hw_idle (conversions 1 [-8388608; 8388607; 0; 5; -7]))
      = Ok v s' /\
    (inject_Z (- 0x800000) <= v <= inject_Z 0x7FFFFF)%Q.
Proof.
  destruct (Hw.read_average 5
              (hw_idle (conversions 1 [-8388608; 8388607; 0; 5; -7])))
    as [v s' | e s' |] eqn:E.
  - exists v, s'. split; [reflexivity|].
    exact (proj1 (hw_aggregates_in_range 5 v _ s') E).
  - vm_compute in E. discriminate E.
  - vm_compute in E. discriminate E.
Defined.

Lemma emu_read_average_one (s : Emu.HX711) :
  Emu.read_average 1 s =
  match Emu.read_long s with
  | Ok v s' => Ok (inject_Z v) s'
  | Raise e s' => Raise e s'
  | Blocked => Blocked
  end.
Proof. reflexivity. Qed.

Lemma emu_read_average_nonpositive times (s : Emu.HX711) :
  times <= 0 ->
  Emu.read_average times s =
  Emu.read_average 1 (Emu.with_stdout (PrTimesClamped :: Emu.stdout s) s).
Proof.
  intros Ht. unfold Emu.read_average at 1.
  destruct (Z.leb_spec times 0); [|lia]. reflexivity.
Qed.

(** The simulated [read_average] does not reject a sample count that is not
    positive: it prints a warning, takes exactly one sample and returns it,
    as [read_average(1)] does after the warning; [get_value] then returns
    that sample minus the offset. *)
Theorem emu_nonpositive_count_clamped times (s : Emu.HX711) v s' :
  times <= 0 ->
  Emu.read_long (Emu.with_stdout (PrTimesClamped :: Emu.stdout s) s)
    = Ok v s' ->
  Emu.read_average times s = Ok (inject_Z v) s' /\
  Emu.read_average times s =
    Emu.read_average 1
      (Emu.with_stdout (PrTimesClamped :: Emu.stdout s) s) /\
  Emu.get_value times s = Ok (inject_Z v - Emu.offset s)%Q s'.
Proof.
  intros Ht Hr.
  assert (Ha : Emu.read_average times s = Ok (inject_Z v) s').
  { rewrite emu_read_average_nonpositive by exact Ht.
    now rewrite emu_read_average_one, Hr. }
  split; [exact Ha|].
  split; [now apply emu_read_average_nonpositive|].
  assert (Hk : Emu.settings s' = Emu.settings s).
  { apply (emu_keeps_read_average times). now rewrite Ha. }
  unfold Emu.settings, Emu.calibration in Hk.
  assert (Ho : Emu.offset s' = Emu.offset s) by congruence.
  unfold Emu.get_value. rewrite (bind_ok _ _ _ _ _ Ha).
  unfold gets, bind, ret. now rewrite Ho.
Qed.

Lemma emu_nonpositive_count_clamped_witness :
  - 3 <= 0 /\
  exists v s',
    Emu.read_long
      (Emu.with_stdout (PrTimesClamped :: Emu.stdout (emu_idle [42]))
         (emu_idle [42])) = Ok v s' /\
    Emu.read_average (- 3) (emu_idle [42]) = Ok (inject_Z v) s'.
Proof.
  assert (Ht : - 3 <= 0) by lia. split; [exact Ht|].
  destruct (Emu.read_long
              (Emu.with_stdout (PrTimesClamped :: Emu.stdout (emu_idle [42]))
                 (emu_idle [42]))) as [v s' | e s' |] eqn:E.
  - exists v, s'. split; [reflexivity|].
    exact (proj1 (emu_nonpositive_count_clamped (- 3) _ v s' Ht E)).
  - vm_compute in E. discriminate E.
  - vm_compute in E. discriminate E.
Defined.

(** Every value that the simulated [read_average] returns, for any sample
    count, positive or not, lies in the signed 24-bit range. *)
Theorem emu_read_average_in_range times v (s s' : Emu.HX711) :
  Emu.read_average times s = Ok v s' ->
  (inject_Z (- 0x800000) <= v <= inject_Z 0x7FFFFF)%Q.
Proof.
  assert (Hone : forall t t' : Emu.HX711,
             Emu.read_average 1 t = Ok v t' ->
             (inject_Z (- 0x800000) <= v <= inject_Z 0x7FFFFF)%Q).
  { intros t t' H. rewrite emu_read_average_one in H.
    destruct (Emu.read_long t) as [x t1 | |] eqn:E; try discriminate.
    inversion H; subst. rewrite <- !Zle_Qle.
    exact (proj1 (emu_read_long_post x t t' E)). }
  intros H.
  destruct (Z.le_gt_cases times 0) as [H0 | H0].
  { rewrite emu_read_average_nonpositive in H by exact H0.
    exact (Hone _ _ H). }
  destruct (Z.eq_dec times 1) as [-> | H1]; [exact (Hone _ _ H)|].
  destruct (Z.lt_ge_cases times 5) as [H5 | H5].
  - rewrite emu_read_average_eq_small in H by lia.
    destruct (acquire Emu.read_long (Z.to_nat times) s) as [vs t | |] eqn:E;
      try discriminate.
    inversion H; subst.
    apply mean_bounds;
      [apply (acquire_nonempty Emu.read_long times s vs s'); [lia | exact E]
      | exact (range_Forall_emu _ _ _ _ E)].
  - rewrite emu_read_average_eq_large in H by lia.
    destruct (acquire Emu.read_long (Z.to_nat times) s) as [vs t | |] eqn:E;
      try discriminate.
    inversion H; subst.
    apply trimmed_mean_bounds;
      [apply (acquire_nonempty Emu.read_long times s vs s'); [lia | exact E]
      | exact (range_Forall_emu _ _ _ _ E)].
Qed.

Lemma emu_read_average_in_range_witness :
  exists v s',
    Emu.read_average 4 (emu_idle [9000000; -9000000; 12; 9000000])
      = Ok v s' /\
    (inject_Z (- 0x800000) <= v <= inject_Z 0x7FFFFF)%Q.
Proof.
  destruct (Emu.read_average 4 (emu_idle [9000000; -9000000; 12; 9000000]))
    as [v s' | e s' |] eqn:E.
  - exists v, s'. split; [reflexivity|].
    exact (emu_read_average_in_range 4 v _ s' E).
  - vm_compute in E. discriminate E.
  - vm_compute in E. discriminate E.
Defined.

(** ** Exceptions of the hardware aggregators *)

Lemma hw_read_raw_bytes_no_raise e (s s' : Hw.HX711) :
  Hw.read_raw_bytes s <> Raise e s'.
Proof.
  rewrite hw_read_raw_bytes_outcome.
  destruct (Hw.read_lock s); [discriminate|].
  destruct (Hw.after_ready (Hw.dout_levels s)) as [r|]; [|discriminate].
  destruct (24 + Z.to_nat (Hw.gain s) <=? List.length r)%nat; discriminate.
Qed.

Lemma hw_read_long_no_raise e (s s' : Hw.HX711) :
  Hw.read_long s <> Raise e s'.
Proof.
  intros H.
  destruct (Hw.read_raw_bytes s) as [bytes s1 | e1 s1 |] eqn:E.
  - destruct (hw_read_raw_bytes_ok_inv _ _ _ E)
      as (_ & b0 & b1 & b2 & rest & -> & _).
    destruct (hw_read_long_of_bytes b0 b1 b2 s s1 E) as (t & Ht & _).
    rewrite Ht in H. discriminate.
  - exact (hw_read_raw_bytes_no_raise e1 s s1 E).
  - unfold Hw.read_long, bind in H. rewrite E in H. discriminate.
Qed.

Lemma acquire_no_raise {S} (read : M S Z) :
  (forall e s s', read s <> Raise e s') ->
  forall n e s s', acquire read n s <> Raise e s'.
Proof.
  intros Hread. induction n as [|n IH]; intros e s s' H; cbn in H.
  - discriminate.
  - unfold bind in H. destruct (read s) as [v s1 | e1 s1 |] eqn:E.
    + destruct (acquire read n s1) as [vs s2 | e2 s2 |] eqn:E2.
      * discriminate.
      * exact (IH _ _ _ E2).
      * discriminate.
    + exact (Hread _ _ _ E).
    + discriminate.
Qed.

Lemma hw_read_one_no_raise e (t t' : Hw.HX711) :
  bind Hw.read_long (fun v => ret (inject_Z v)) t <> Raise e t'.
Proof.
  intros H. unfold bind in H.
  destruct (Hw.read_long t) as [v t1 | e1 t1 |] eqn:E; try discriminate.
  inversion H; subst. exact (hw_read_long_no_raise _ _ _ E).
Qed.

Lemma hw_read_median_raise_iff times e (s s' : Hw.HX711) :
  Hw.read_median times s = Raise e s' <->
  times <= 0 /\ e = ValueError /\ s' = s.
Proof.
  split.
  - intros H. destruct (Z.le_gt_cases times 0) as [H0 | H0].
    + unfold Hw.read_median in H.
      destruct (Z.leb_spec times 0); [|lia].
      inversion H. auto.
    + exfalso. destruct (Z.eq_dec times 1) as [-> | H1].
      * exact (hw_read_one_no_raise _ _ _ H).
      * rewrite hw_read_median_eq in H by lia.
        destruct (acquire Hw.read_long (Z.to_nat times) s)
          as [vs t | e1 t |] eqn:E; try discriminate.
        exact (acquire_no_raise Hw.read_long
                 (fun e s s' => hw_read_long_no_raise e s s') _ _ _ _ E).
  - intros (H0 & -> & ->). unfold Hw.read_median.
    destruct (Z.leb_spec times 0); [reflexivity | lia].
Qed.

Lemma hw_read_average_raise_iff times e (s s' : Hw.HX711) :
  Hw.read_average times s = Raise e s' <->
  times <= 0 /\ e = ValueError /\ s' = s.
Proof.
  split.
  - intros H. destruct (Z.le_gt_cases times 0) as [H0 | H0].
    + unfold Hw.read_average in H.
      destruct (Z.leb_spec times 0); [|lia].
      inversion H. auto.
    + exfalso. destruct (Z.eq_dec times 1) as [-> | H1].
      * exact (hw_read_one_no_raise _ _ _ H).
      * destruct (Z.lt_ge_cases times 5) as [H5 | H5].
        -- rewrite hw_read_average_eq_small in H by lia.
           apply hw_read_median_raise_iff in H. lia.
        -- rewrite hw_read_average_eq_large in H by lia.
           destruct (acquire Hw.read_long (Z.to_nat times) s)
             as [vs t | e1 t |] eqn:E; try discriminate.
           exact (acquire_no_raise Hw.read_long
                    (fun e s s' => hw_read_long_no_raise e s s') _ _ _ _ E).
  - intros (H0 & -> & ->). unfold Hw.read_average.
    destruct (Z.leb_spec times 0); [reflexivity | lia].
Qed.

(** The hardware [read_average] and [read_median] raise exactly when the
    sample count is not positive, and then a [ValueError] in an unchanged
    state: no other exception (no [ZeroDivisionError] from the means, no
    [IndexError] from the median) can come out of them. *)
Theorem hw_aggregators_raise_iff_nonpositive times e (s s' : Hw.HX711) :
  (Hw.read_average times s = Raise e s' <->
   times <= 0 /\ e = ValueError /\ s' = s) /\
  (Hw.read_median times s = Raise e s' <->
   times <= 0 /\ e = ValueError /\ s' = s).
Proof.
  split; [apply hw_read_average_raise_iff | apply hw_read_median_raise_iff].
Qed.

(** ** Tare and weight *)

Lemma hw_when_debug_ok_inv p (s s' : Hw.HX711) :
  Hw.when_debug p s = Ok tt s' ->
  Hw.settings s' = Hw.settings s /\ Hw.read_lock s' = Hw.read_lock s.
Proof.
  intros H. destruct (hw_when_debug_ok p s) as (t & Ht & _ & _ & L & _ & K).
  rewrite Ht in H. inversion H; subst. auto.
Qed.

(** [tare_a] on return: the value returned is the one [read_average] gave
    while the channel-A reference unit was 1, it is the new channel-A
    offset, and the reference unit, the gain code, the formats and channel B
    are as before the call; [get_value] afterwards is the median minus that
    value. *)
Theorem hw_tare_a_sets_offset times v (s s' : Hw.HX711) :
  Hw.tare_a times s = Ok v s' ->
  (exists s1, Hw.read_average times (Hw.with_reference_unit 1 s) = Ok v s1) /\
  Hw.offset s' = v /\
  Hw.reference_unit s' = Hw.reference_unit s /\
  Hw.gain s' = Hw.gain s /\
  Hw.offset_b s' = Hw.offset_b s /\
  Hw.reference_unit_b s' = Hw.reference_unit_b s /\
  (forall n m s'',
     Hw.read_median n s' = Ok m s'' ->
     Hw.get_value n s' = Ok (m - v)%Q s'').
Proof.
  intros H. unfold Hw.tare_a in H.
  unfold Hw.get_reference_unit_a, gets in H. unfold bind at 1 in H.
  unfold Hw.set_reference_unit_a at 1 in H.
  change (Qeq_bool 1 0) with false in H. cbv iota in H.
  unfold bind at 1, modify in H.
  apply bind_ok_inv in H. destruct H as (v1 & s1 & Havg & H).
  apply bind_ok_inv in H. destruct H as ([] & s2 & Hdbg & H).
  unfold Hw.set_offset_a, modify in H. unfold bind at 1 in H.
  apply bind_ok_inv in H. destruct H as ([] & s3 & Href & H).
  inversion H; subst v1 s3. clear H.
  unfold Hw.set_reference_unit_a in Href.
  destruct (Qeq_bool (Hw.reference_unit s) 0); [discriminate|].
  inversion Href; subst s'. clear Href.
  assert (K1 : Hw.settings s1 = Hw.settings (Hw.with_reference_unit 1 s)).
  { apply (hw_keeps_read_average times). now rewrite Havg. }
  destruct (hw_when_debug_ok_inv _ _ _ Hdbg) as (K2 & _).
  rewrite K1 in K2. apply hw_settings_gain in K2. cbn in K2.
  destruct K2 as (Kg & Krb & Kob & _ & _).
  split; [now exists s1|].
  repeat split; try assumption.
  intros n m s'' Hm.
  assert (Hk : Hw.settings s'' = Hw.settings
                 (Hw.with_reference_unit (Hw.reference_unit s)
                    (Hw.with_offset v s2))).
  { apply (hw_keeps_read_median n). now rewrite Hm. }
  apply hw_settings_gain in Hk. destruct Hk as (_ & _ & _ & Ho & _).
  unfold Hw.get_value, Hw.get_value_a. rewrite (bind_ok _ _ _ _ _ Hm).
  unfold Hw.get_offset_a, gets, bind, ret. now rewrite Ho.
Qed.

Lemma hw_tare_a_sets_offset_witness :
  exists v s',
    Hw.tare_a 5 (hw_idle (conversions 1 [100; 104; 90; 101; 99])) = Ok v s' /\
    Hw.offset s' = v /\ Hw.reference_unit s' = 1%Q.
Proof.
  destruct (Hw.tare_a 5 (hw_idle (conversions 1 [100; 104; 90; 101; 99])))
    as [v s' | e s' |] eqn:E.
  - exists v, s'. split; [reflexivity|].
    destruct (hw_tare_a_sets_offset 5 v _ s' E) as (_ & H1 & H2 & _).
    split; [exact H1 | exact H2].
  - vm_compute in E. discriminate E.
  - vm_compute in E. discriminate E.
Defined.

(** A tare that fails does not restore the reference unit.  With a sample
    count that is not positive [tare_a] raises [ValueError] and leaves the
    channel-A reference unit at 1, whatever it was; [tare_B], once the chip
    has answered the acquisition of its [set_gain(32)], raises likewise and
    leaves the channel-B reference unit at 1 and gain 32 selected. *)
Theorem hw_failed_tare_loses_reference_unit times (s : Hw.HX711) :
  times <= 0 ->
  Hw.tare_a times s = Raise ValueError (Hw.with_reference_unit 1 s) /\
  (Hw.conversion_ready 2 s = true ->
   exists s', Hw.tare_B times s = Raise ValueError s' /\
              Hw.reference_unit_b s' = 1%Q /\ Hw.gain s' = 2 /\
              Hw.offset_b s' = Hw.offset_b s).
Proof.
  intros Ht. split.
  - unfold Hw.tare_a, Hw.get_reference_unit_a, gets. unfold bind at 1.
    unfold Hw.set_reference_unit_a at 1.
    change (Qeq_bool 1 0) with false. cbv iota.
    unfold bind at 1, modify. unfold bind at 1.
    unfold Hw.read_average.
    destruct (Z.leb_spec times 0); [reflexivity | lia].
  - intros Hready.
    set (s0 := Hw.with_sck_levels (false :: Hw.sck_levels s)
                 (Hw.with_gain 2 (Hw.with_reference_unit_b 1 s))).
    destruct (hw_read_raw_bytes_returns s0) as (bytes & s1 & Hread & _);
      [exact Hready|].
    assert (Hset : Hw.set_gain 32 (Hw.with_reference_unit_b 1 s) = Ok tt s1).
    { unfold Hw.set_gain. change (32 =? 128) with false.
      change (32 =? 64) with false. change (32 =? 32) with true. cbv iota.
      unfold bind at 1, modify. unfold bind at 1, Hw.gpio_output, modify.
      fold s0. now rewrite (bind_ok _ _ _ _ _ Hread). }
    assert (K : Hw.settings s1 = Hw.settings s0).
    { apply hw_keeps_read_raw_bytes. now rewrite Hread. }
    apply hw_settings_gain in K. destruct K as (Kg & Krb & Kob & _).
    exists s1. split; [|repeat split; assumption].
    unfold Hw.tare_B, Hw.get_reference_unit_b, gets. unfold bind at 1.
    unfold Hw.set_reference_unit_b at 1.
    change (Qeq_bool 1 0) with false. cbv iota.
    unfold bind at 1, modify.
    rewrite (bind_ok _ _ _ _ _ (hw_get_gain_eq _)).
    rewrite (bind_ok _ _ _ _ _ Hset).
    unfold bind at 1, Hw.read_average.
    destruct (Z.leb_spec times 0); [reflexivity | lia].
Qed.

Lemma hw_failed_tare_loses_reference_unit_witness :
  0 <= 0 /\
  Hw.tare_a 0 (Hw.with_reference_unit 250 (hw_idle [])) =
    Raise ValueError
      (Hw.with_reference_unit 1 (Hw.with_reference_unit 250 (hw_idle []))) /\
  Hw.conversion_ready 2 (hw_idle (conversion 2 0)) = true /\
  exists s', Hw.tare_B 0 (hw_idle (conversion 2 0)) = Raise ValueError s' /\
             Hw.gain s' = 2.
Proof.
  assert (Ht : 0 <= 0) by lia. split; [exact Ht|].
  split; [exact (proj1 (hw_failed_tare_loses_reference_unit 0 _ Ht))|].
  assert (Hr : Hw.conversion_ready 2 (hw_idle (conversion 2 0)) = true)
    by reflexivity.
  split; [exact Hr|].
  destruct (proj2 (hw_failed_tare_loses_reference_unit 0 _ Ht) Hr)
    as (s' & H1 & _ & H2 & _).
  exists s'. split; [exact H1 | exact H2].
Defined.

Lemma bind_raise_inv {S A B} (m : M S A) (k : A -> M S B) s e s' :
  bind m k s = Raise e s' ->
  m s = Raise e s' \/ exists a s1, m s = Ok a s1 /\ k a s1 = Raise e s'.
Proof.
  unfold bind. destruct (m s) as [a s1 | e1 s1 |]; intros H.
  - right. now exists a, s1.
  - left. inversion H. reflexivity.
  - discriminate.
Qed.

(** [get_weight] is [get_value] divided by the channel-A reference unit: the
    quotient when the unit is not zero, a [ZeroDivisionError] after the
    samples were read when it is; selecting a non-zero unit first makes the
    division by that unit. *)
Theorem hw_get_weight_divides times m (s s' : Hw.HX711) :
  Hw.read_median times s = Ok m s' ->
  (~ (Hw.reference_unit s == 0)%Q ->
   Hw.get_weight times s =
     Ok ((m - Hw.offset s) / Hw.reference_unit s)%Q s') /\
  ((Hw.reference_unit s == 0)%Q ->
   Hw.get_weight times s = Raise ZeroDivisionError s') /\
  (forall v s0,
     ~ (v == 0)%Q -> s = Hw.with_reference_unit v s0 ->
     bind (Hw.set_reference_unit v) (fun _ => Hw.get_weight times) s0
       = Ok ((m - Hw.offset s0) / v)%Q s').
Proof.
  intros Hm.
  assert (Hk : Hw.settings s' = Hw.settings s).
  { apply (hw_keeps_read_median times). now rewrite Hm. }
  apply hw_settings_gain in Hk. destruct Hk as (_ & _ & _ & Ho & Hr).
  assert (Hv : Hw.get_value_a times s = Ok (m - Hw.offset s)%Q s').
  { unfold Hw.get_value_a. rewrite (bind_ok _ _ _ _ _ Hm).
    unfold Hw.get_offset_a, gets, bind, ret. now rewrite Ho. }
  assert (Hnz : ~ (Hw.reference_unit s == 0)%Q ->
                Hw.get_weight times s =
                  Ok ((m - Hw.offset s) / Hw.reference_unit s)%Q s').
  { intros Hne. unfold Hw.get_weight, Hw.get_weight_A.
    rewrite (bind_ok _ _ _ _ _ Hv). unfold gets, bind, py_truediv.
    rewrite Hr. destruct (Qeq_bool (Hw.reference_unit s) 0) eqn:E.
    - apply Qeq_bool_iff in E. contradiction.
    - reflexivity. }
  split; [exact Hnz|]. split.
  - intros Hz. apply Qeq_bool_iff in Hz.
    unfold Hw.get_weight, Hw.get_weight_A.
    rewrite (bind_ok _ _ _ _ _ Hv). unfold gets, bind, py_truediv.
    now rewrite Hr, Hz.
  - intros v s0 Hv0 ->.
    assert (Hset : Hw.set_reference_unit v s0
                   = Ok tt (Hw.with_reference_unit v s0)).
    { unfold Hw.set_reference_unit, Hw.set_reference_unit_a.
      destruct (Qeq_bool v 0) eqn:E; [|reflexivity].
      apply Qeq_bool_iff in E. contradiction. }
    rewrite (bind_ok _ _ _ _ _ Hset). cbv beta.
    rewrite Hnz by exact Hv0. reflexivity.
Qed.

Lemma hw_get_weight_divides_witness :
  exists m s',
    Hw.read_median 3
      (Hw.with_reference_unit 4 (hw_idle (conversions 1 [21; 9; 33])))
      = Ok m s' /\
    ~ (4 == 0)%Q /\
    Hw.get_weight 3
      (Hw.with_reference_unit 4 (hw_idle (conversions 1 [21; 9; 33])))
      = Ok ((m - 1) / 4)%Q s'.
Proof.
  destruct (Hw.read_median 3
              (Hw.with_reference_unit 4
                 (hw_idle (conversions 1 [21; 9; 33]))))
    as [m s' | e s' |] eqn:E.
  - exists m, s'. split; [reflexivity|].
    assert (Hnz : ~ (4 == 0)%Q) by (intros H; discriminate H).
    split; [exact Hnz|].
    exact (proj1 (hw_get_weight_divides 3 m _ s' E) Hnz).
  - vm_compute in E. discriminate E.
  - vm_compute in E. discriminate E.
Defined.

(** ** Invariants of the hardware driver *)

Section Preserves.

Context {S : Type} (P : S -> Prop).

Lemma preserves_ret {A} (a : A) : preserves P (ret a).
Proof. intros s s' H. cbn in H. now inversion H. Qed.

Lemma preserves_raise {A} e : preserves P (@raise S A e).
Proof. intros s s' H. cbn in H. now inversion H. Qed.

Lemma preserves_gets {A} (g : S -> A) : preserves P (gets g).
Proof. intros s s' H. cbn in H. now inversion H. Qed.

Lemma preserves_modify (g : S -> S) :
  (forall s, P s -> P (g s)) -> preserves P (modify g).
Proof. intros Hg s s' H. cbn in H. inversion H. apply Hg. Qed.

Lemma preserves_bind {A B} (m : M S A) (k : A -> M S B) :
  preserves P m -> (forall a, preserves P (k a)) -> preserves P (bind m k).
Proof.
  intros Hm Hk s s' H Hp. unfold bind in H.
  destruct (m s) as [a s1 | e s1 |] eqn:E.
  - apply (Hk a s1 s' H). apply (Hm s s1); [now rewrite E | exact Hp].
  - cbn in H. inversion H; subst. apply (Hm s s'); [now rewrite E | exact Hp].
  - discriminate.
Qed.

Lemma preserves_of_keeps {A T} (f : S -> T) (m : M S A) :
  keeps f m -> (forall s s', f s' = f s -> P s -> P s') -> preserves P m.
Proof. intros Hk Hf s s' H. apply Hf. exact (Hk s s' H). Qed.

Lemma preserves_py_truediv a b : preserves P (py_truediv a b).
Proof.
  unfold py_truediv. destruct (Qeq_bool b 0);
    [apply preserves_raise | apply preserves_ret].
Qed.

End Preserves.

Ltac preserves_step :=
  match goal with
  | |- preserves _ (bind _ _) => apply preserves_bind; [| intros ?]
  | |- preserves _ (ret _) => apply preserves_ret
  | |- preserves _ (raise _) => apply preserves_raise
  | |- preserves _ (gets _) => apply preserves_gets
  | |- preserves _ (py_truediv _ _) => apply preserves_py_truediv
  | |- preserves _ (if ?b then _ else _) => destruct b
  | |- preserves _ (match ?a with PStr _ => _ | _ => _ end) => destruct a
  end.

Ltac preserves_auto := repeat (preserves_step || assumption).

Section HwUnits.

Import Hw.

Lemma hw_units_of_settings (s s' : HX711) :
  settings s' = settings s -> hw_units_nonzero s -> hw_units_nonzero s'.
Proof.
  intros K. apply hw_settings_gain in K. destruct K as (_ & Kb & _ & _ & Ka).
  unfold hw_units_nonzero. now rewrite Ka, Kb.
Qed.

Lemma hw_units_keeps {A} (m : M HX711 A) :
  keeps settings m -> preserves hw_units_nonzero m.
Proof.
  intros K. apply (preserves_of_keeps _ settings m K).
  exact hw_units_of_settings.
Qed.

Lemma hw_units_set_gain g : preserves hw_units_nonzero (set_gain g).
Proof.
  apply (preserves_of_keeps _ _ _ (hw_set_gain_keeps g)).
  intros s s' K. unfold calibration in K. cbv beta in K.
  unfold hw_units_nonzero. inversion K as [[Ka Kb Ko Kob Kf Kbf]].
  now rewrite Ka, Kb.
Qed.

Lemma hw_units_set_reference_unit_a v :
  preserves hw_units_nonzero (set_reference_unit_a v).
Proof.
  unfold set_reference_unit_a. destruct (Qeq_bool v 0) eqn:E.
  - apply preserves_raise.
  - apply preserves_modify. intros s [_ Hb]. split; [|exact Hb].
    cbn. intros Hz. apply Qeq_bool_iff in Hz. congruence.
Qed.

Lemma hw_units_set_reference_unit_b v :
  preserves hw_units_nonzero (set_reference_unit_b v).
Proof.
  unfold set_reference_unit_b. destruct (Qeq_bool v 0) eqn:E.
  - apply preserves_raise.
  - apply preserves_modify. intros s [Ha _]. split; [exact Ha|].
    cbn. intros Hz. apply Qeq_bool_iff in Hz. congruence.
Qed.

Lemma hw_units_when_debug p : preserves hw_units_nonzero (when_debug p).
Proof. apply hw_units_keeps, hw_keeps_when_debug. Qed.

Lemma hw_keeps_get_gain : keeps settings get_gain.
Proof. unfold get_gain. keeps_auto. Qed.

Lemma hw_keeps_power_down : keeps settings power_down.
Proof.
  unfold power_down, gpio_output, lock_release. keeps_auto.
  apply hw_keeps_lock_acquire.
Qed.

Lemma hw_keeps_power_up : keeps settings power_up.
Proof.
  unfold power_up, gpio_output, lock_release. keeps_auto;
    auto using hw_keeps_lock_acquire, hw_keeps_get_gain,
      hw_keeps_read_raw_bytes.
Qed.

Lemma hw_keeps_reset : keeps settings reset.
Proof.
  unfold reset. keeps_auto;
    auto using hw_keeps_power_down, hw_keeps_power_up.
Qed.

End HwUnits.

Section NeverRaises.

Context {S : Type}.

Lemma never_raises_ret {A} (a : A) : never_raises (@ret S A a).
Proof. intros s e s' H. discriminate. Qed.

Lemma never_raises_gets {A} (g : S -> A) : never_raises (gets g).
Proof. intros s e s' H. discriminate. Qed.

Lemma never_raises_modify (g : S -> S) : never_raises (modify g).
Proof. intros s e s' H. discriminate. Qed.

Lemma never_raises_bind {A B} (m : M S A) (k : A -> M S B) :
  never_raises m -> (forall a, never_raises (k a)) ->
  never_raises (bind m k).
Proof.
  intros Hm Hk s e s' H. apply bind_raise_inv in H.
  destruct H as [H | (a & s1 & _ & H)]; [exact (Hm _ _ _ H)|].
  exact (Hk a _ _ _ H).
Qed.

End NeverRaises.

Ltac never_raises_step :=
  match goal with
  | |- never_raises (bind _ _) => apply never_raises_bind; [| intros ?]
  | |- never_raises (ret _) => apply never_raises_ret
  | |- never_raises (gets _) => apply never_raises_gets
  | |- never_raises (modify _) => apply never_raises_modify
  | |- never_raises (if ?b then _ else _) => destruct b
  end.

Ltac never_raises_auto := repeat (never_raises_step || assumption).

Section HwInvariant.

Import Hw.

Lemma hw_never_raises_read_raw_bytes : never_raises read_raw_bytes.
Proof. intros s e s'. apply hw_read_raw_bytes_no_raise. Qed.

Lemma hw_never_raises_set_gain g : never_raises (set_gain g).
Proof.
  pose proof hw_never_raises_read_raw_bytes.
  unfold set_gain, gpio_output. never_raises_auto.
Qed.

Lemma hw_never_raises_get_gain : never_raises get_gain.
Proof. unfold get_gain. never_raises_auto. Qed.

Lemma hw_keeps_calibration_get_value_b times :
  keeps calibration (get_value_b times).
Proof.
  assert (Hs : forall g, keeps calibration (set_gain g)).
  { intros g s s' H. apply hw_set_gain_keeps in H. cbv beta in H.
    congruence. }
  assert (Hm : keeps calibration (read_median times)).
  { intros s s' H. apply hw_keeps_read_median in H.
    unfold settings in H. congruence. }
  unfold get_value_b, get_gain, get_offset_b. keeps_auto; apply Hs.
Qed.

Lemma hw_get_value_a_raise times e (s s' : HX711) :
  get_value_a times s = Raise e s' -> e = ValueError.
Proof.
  intros H. unfold get_value_a in H. apply bind_raise_inv in H.
  destruct H as [H | (m & s1 & _ & H)].
  - apply hw_read_median_raise_iff in H. tauto.
  - discriminate.
Qed.

Lemma hw_get_value_b_raise times e (s s' : HX711) :
  get_value_b times s = Raise e s' -> e = ValueError.
Proof.
  intros H. unfold get_value_b in H. apply bind_raise_inv in H.
  destruct H as [H | (g & s1 & _ & H)];
    [exfalso; exact (hw_never_raises_get_gain _ _ _ H)|].
  apply bind_raise_inv in H.
  destruct H as [H | ([] & s2 & _ & H)];
    [exfalso; exact (hw_never_raises_set_gain _ _ _ _ H)|].
  apply bind_raise_inv in H.
  destruct H as [H | (m & s3 & _ & H)].
  - apply hw_read_median_raise_iff in H. tauto.
  - exfalso. revert H. unfold get_offset_b.
    apply never_raises_bind; [apply never_raises_gets|]. intros o.
    apply never_raises_bind; [apply hw_never_raises_set_gain|]. intros u.
    apply never_raises_ret.
Qed.

(** No method of the hardware driver leaves a reference unit at zero.  A
    fresh driver has non-zero reference units and every method keeps them
    non-zero, whether it returns or raises; consequently [get_weight] and
    [get_weight_B] never raise [ZeroDivisionError]: the only exception they
    raise is the [ValueError] of a sample count that is not positive. *)
Theorem hw_reference_units_stay_nonzero :
  (forall d p g line s, init d p g line = Ok tt s -> hw_units_nonzero s) /\
  (forall g, preserves hw_units_nonzero (set_gain g)) /\
  preserves hw_units_nonzero read_long /\
  (forall t, preserves hw_units_nonzero (read_average t)) /\
  (forall t, preserves hw_units_nonzero (read_median t)) /\
  (forall t, preserves hw_units_nonzero (get_value t)) /\
  (forall t, preserves hw_units_nonzero (get_value_b t)) /\
  (forall t, preserves hw_units_nonzero (get_weight t)) /\
  (forall t, preserves hw_units_nonzero (get_weight_B t)) /\
  (forall t, preserves hw_units_nonzero (tare_a t)) /\
  (forall t, preserves hw_units_nonzero (tare_B t)) /\
  (forall a b, preserves hw_units_nonzero (set_reading_format a b)) /\
  (forall o, preserves hw_units_nonzero (set_offset_a o)) /\
  (forall o, preserves hw_units_nonzero (set_offset_b o)) /\
  (forall v, preserves hw_units_nonzero (set_reference_unit v)) /\
  (forall v, preserves hw_units_nonzero (set_reference_unit_b v)) /\
  preserves hw_units_nonzero reset /\
  (forall t s e s',
     hw_units_nonzero s -> get_weight t s = Raise e s' -> e = ValueError) /\
  (forall t s e s',
     hw_units_nonzero s -> get_weight_B t s = Raise e s' -> e = ValueError).
Proof.
  assert (Hlong := hw_units_keeps _ hw_keeps_read_long).
  assert (Havg := fun t => hw_units_keeps _ (hw_keeps_read_average t)).
  assert (Hmed := fun t => hw_units_keeps _ (hw_keeps_read_median t)).
  assert (Hgain := hw_units_set_gain).
  assert (Hra := hw_units_set_reference_unit_a).
  assert (Hrb := hw_units_set_reference_unit_b).
  assert (Hdbg := hw_units_when_debug).
  assert (Hva : forall t, preserves hw_units_nonzero (get_value_a t)).
  { intros t. unfold get_value_a, get_offset_a. preserves_auto. apply Hmed. }
  assert (Hvb : forall t, preserves hw_units_nonzero (get_value_b t)).
  { intros t. unfold get_value_b, get_offset_b. preserves_auto;
      try apply Hgain; try apply Hmed.
    apply hw_units_keeps, hw_keeps_get_gain. }
  assert (Hmodo : forall o, preserves hw_units_nonzero (set_offset_a o)).
  { intros o. apply preserves_modify. intros s H. exact H. }
  assert (Hmodob : forall o, preserves hw_units_nonzero (set_offset_b o)).
  { intros o. apply preserves_modify. intros s H. exact H. }
  repeat match goal with |- _ /\ _ => split end.
  - intros d p g line s H. unfold init in H.
    match type of H with
    | _ ?s0 = _ => apply (Hgain g s0 s); [now rewrite H|]
    end.
    split; cbn; intros Hz; discriminate Hz.
  - apply Hgain.
  - exact Hlong.
  - apply Havg.
  - apply Hmed.
  - apply Hva.
  - apply Hvb.
  - intros t. unfold get_weight, get_weight_A. preserves_auto. apply Hva.
  - intros t. unfold get_weight_B. preserves_auto. apply Hvb.
  - intros t. unfold tare_a, get_reference_unit_a. preserves_auto;
      try apply Hra; try apply Havg; try apply Hdbg; try apply Hmodo.
  - intros t. unfold tare_B, get_reference_unit_b. preserves_auto;
      try apply Hrb; try apply Havg; try apply Hdbg; try apply Hmodob;
      try apply Hgain.
    apply hw_units_keeps, hw_keeps_get_gain.
  - intros a b. unfold set_reading_format. preserves_auto;
      apply preserves_modify; intros st Hst; exact Hst.
  - apply Hmodo.
  - apply Hmodob.
  - apply Hra.
  - apply Hrb.
  - apply hw_units_keeps, hw_keeps_reset.
  - intros t s e s' [Ha _] H. unfold get_weight, get_weight_A in H.
    apply bind_raise_inv in H.
    destruct H as [H | (v & s1 & Hv & H)];
      [exact (hw_get_value_a_raise _ _ _ _ H)|].
    exfalso. unfold gets, bind, py_truediv in H.
    assert (K : settings s1 = settings s).
    { assert (Hk : keeps settings (get_value_a t)).
      { unfold get_value_a, get_offset_a. keeps_auto.
        apply hw_keeps_read_median. }
      apply Hk. now rewrite Hv. }
    apply hw_settings_gain in K. destruct K as (_ & _ & _ & _ & Kr).
    rewrite Kr in H.
    destruct (Qeq_bool (reference_unit s) 0) eqn:E; [|discriminate].
    apply Qeq_bool_iff in E. contradiction.
  - intros t s e s' [_ Hb] H. unfold get_weight_B in H.
    apply bind_raise_inv in H.
    destruct H as [H | (v & s1 & Hv & H)];
      [exact (hw_get_value_b_raise _ _ _ _ H)|].
    exfalso. unfold gets, bind, py_truediv in H.
    assert (K : calibration s1 = calibration s).
    { apply (hw_keeps_calibration_get_value_b t). now rewrite Hv. }
    unfold calibration in K.
    assert (Kr : reference_unit_b s1 = reference_unit_b s) by congruence.
    rewrite Kr in H.
    destruct (Qeq_bool (reference_unit_b s) 0) eqn:E; [|discriminate].
    apply Qeq_bool_iff in E. contradiction.
Qed.

End HwInvariant.

Lemma hw_reference_units_stay_nonzero_witness :
  exists s,
    Hw.init 5 6 128 (conversion 1 0) = Ok tt s /\ hw_units_nonzero s.
Proof.
  destruct (Hw.init 5 6 128 (conversion 1 0)) as [[] s | e s |] eqn:E.
  - exists s. split; [reflexivity|].
    exact (proj1 hw_reference_units_stay_nonzero 5 6 128 _ s E).
  - vm_compute in E. discriminate E.
  - vm_compute in E. discriminate E.
Defined.

(** ** The read lock *)

Section HwLock.

Import Hw.

Lemma hw_lock_read_raw_bytes : keeps read_lock read_raw_bytes.
Proof.
  intros s s' H. rewrite hw_read_raw_bytes_outcome in H.
  destruct (read_lock s) eqn:Hlock; [discriminate|].
  destruct (after_ready (dout_levels s)) as [r|]; [|discriminate].
  destruct (24 + Z.to_nat (gain s) <=? List.length r)%nat; [|discriminate].
  cbn in H. inversion H; subst. cbn. exact Hlock.
Qed.

Lemma hw_lock_when_debug p : keeps read_lock (when_debug p).
Proof. unfold when_debug, print. keeps_auto. Qed.

Lemma hw_lock_read_long : keeps read_lock read_long.
Proof.
  unfold read_long. keeps_auto;
    auto using hw_lock_read_raw_bytes, hw_lock_when_debug.
Qed.

Lemma hw_lock_read_median t : keeps read_lock (read_median t).
Proof. unfold read_median. keeps_auto; auto using hw_lock_read_long. Qed.

Lemma hw_lock_read_average t : keeps read_lock (read_average t).
Proof.
  unfold read_average. keeps_auto;
    auto using hw_lock_read_long, hw_lock_read_median.
Qed.

Lemma hw_lock_set_gain g : keeps read_lock (set_gain g).
Proof.
  unfold set_gain, gpio_output. keeps_auto; apply hw_lock_read_raw_bytes.
Qed.

Lemma hw_lock_get_gain : keeps read_lock get_gain.
Proof. unfold get_gain. keeps_auto. Qed.

Lemma hw_lock_get_value_a t : keeps read_lock (get_value_a t).
Proof.
  unfold get_value_a, get_offset_a. keeps_auto. apply hw_lock_read_median.
Qed.

Lemma hw_lock_get_value_b t : keeps read_lock (get_value_b t).
Proof.
  unfold get_value_b, get_offset_b. keeps_auto;
    auto using hw_lock_get_gain, hw_lock_set_gain, hw_lock_read_median.
Qed.

Lemma hw_lock_power_down : keeps read_lock power_down.
Proof.
  intros s s' H. unfold power_down, bind, lock_acquire, gpio_output,
    lock_release, modify in H.
  destruct (read_lock s) eqn:Hlock; [discriminate|].
  cbn in H. inversion H; subst. cbn.
  first [reflexivity | exact Hlock | congruence].
Qed.

Lemma hw_lock_power_up : keeps read_lock power_up.
Proof.
  intros s s' H. unfold power_up in H. unfold bind at 1, lock_acquire in H.
  destruct (read_lock s) eqn:Hlock; [discriminate|].
  unfold bind at 1, gpio_output, modify in H.
  unfold bind at 1, lock_release, modify in H.
  match type of H with
  | final (?m ?s0) = _ =>
      assert (K : keeps read_lock m);
      [| rewrite (K s0 s' H); cbn;
         first [reflexivity | exact Hlock | congruence]]
  end.
  keeps_auto; auto using hw_lock_get_gain, hw_lock_read_raw_bytes.
Qed.

(** The hardware driver never leaves its read lock held: whenever a method
    returns or raises, the lock is in the state it had before the call.
    Called while the lock is held, the methods that drive the lines never
    return. *)
Theorem hw_lock_always_released :
  keeps read_lock read_raw_bytes /\
  keeps read_lock read_long /\
  (forall t, keeps read_lock (read_average t)) /\
  (forall t, keeps read_lock (read_median t)) /\
  (forall g, keeps read_lock (set_gain g)) /\
  (forall t, keeps read_lock (get_value t)) /\
  (forall t, keeps read_lock (get_value_b t)) /\
  (forall t, keeps read_lock (get_weight t)) /\
  (forall t, keeps read_lock (get_weight_B t)) /\
  (forall t, keeps read_lock (tare_a t)) /\
  (forall t, keeps read_lock (tare_B t)) /\
  keeps read_lock power_down /\
  keeps read_lock power_up /\
  keeps read_lock reset /\
  (forall s, read_lock s = true ->
     read_raw_bytes s = Blocked /\ read_long s = Blocked /\
     power_down s = Blocked /\ power_up s = Blocked /\
     forall g, set_gain g s = Blocked).
Proof.
  repeat match goal with |- _ /\ _ => split end.
  - exact hw_lock_read_raw_bytes.
  - exact hw_lock_read_long.
  - exact hw_lock_read_average.
  - exact hw_lock_read_median.
  - exact hw_lock_set_gain.
  - exact hw_lock_get_value_a.
  - exact hw_lock_get_value_b.
  - intros t. unfold get_weight, get_weight_A. keeps_auto.
    apply hw_lock_get_value_a.
  - intros t. unfold get_weight_B. keeps_auto. apply hw_lock_get_value_b.
  - intros t. unfold tare_a, get_reference_unit_a, set_reference_unit_a,
      set_offset_a. keeps_auto;
      auto using hw_lock_read_average, hw_lock_when_debug.
  - intros t. unfold tare_B, get_reference_unit_b, set_reference_unit_b,
      set_offset_b. keeps_auto;
      auto using hw_lock_read_average, hw_lock_when_debug,
        hw_lock_get_gain, hw_lock_set_gain.
  - exact hw_lock_power_down.
  - exact hw_lock_power_up.
  - unfold reset. keeps_auto;
      auto using hw_lock_power_down, hw_lock_power_up.
  - intros s Hlock.
    assert (Hraw : read_raw_bytes s = Blocked).
    { rewrite hw_read_raw_bytes_outcome. now rewrite Hlock. }
    repeat match goal with |- _ /\ _ => split end.
    + exact Hraw.
    + unfold read_long, bind. now rewrite Hraw.
    + unfold power_down, bind, lock_acquire. now rewrite Hlock.
    + unfold power_up, bind, lock_acquire. now rewrite Hlock.
    + intros g.
      assert (Hb : forall t, read_lock t = true ->
                bind (gpio_output false)
                  (fun _ => bind read_raw_bytes (fun _ => ret tt)) t
                = Blocked).
      { intros t Ht. unfold bind at 1, gpio_output, modify.
        unfold bind. rewrite hw_read_raw_bytes_outcome. cbn.
        now rewrite Ht. }
      unfold set_gain.
      destruct (g =? 128); [|destruct (g =? 64); [|destruct (g =? 32)]];
        unfold bind at 1, modify, ret; apply Hb; exact Hlock.
Qed.

End HwLock.

Section EmuLock.

Import Emu.

Lemma emu_lock_time_time : keeps read_lock time_time.
Proof.
  intros s s' H. unfold time_time in H.
  destruct (clock s); cbn in H; [discriminate|].
  inversion H; subst. reflexivity.
Qed.

Lemma emu_lock_random_draw : keeps read_lock random_draw.
Proof.
  intros s s' H. unfold random_draw in H.
  destruct (random_draws s); cbn in H; [discriminate|].
  inversion H; subst. reflexivity.
Qed.

Lemma emu_lock_poll_ready n : keeps read_lock (poll_ready n).
Proof.
  induction n as [|n IH]; cbn.
  - intros s s' H. discriminate.
  - unfold is_ready. keeps_auto. apply emu_lock_time_time.
Qed.

Lemma emu_lock_wait_until_ready : keeps read_lock wait_until_ready.
Proof. intros s s' H. eapply emu_lock_poll_ready, H. Qed.

Lemma emu_lock_generate_fake_sample : keeps read_lock generate_fake_sample.
Proof.
  unfold generate_fake_sample, print. keeps_auto;
    auto using emu_lock_time_time, emu_lock_random_draw.
Qed.

(** [with self.read_lock:] gives the lock back on every way out. *)
Lemma emu_lock_with_lock {A} (body : M HX711 A) :
  keeps read_lock body -> keeps read_lock (with_lock body).
Proof.
  intros Hb s s' H. unfold with_lock in H.
  destruct (read_lock s) eqn:Hlock; [discriminate|].
  destruct (body (with_read_lock true s)) as [a t | e t |];
    cbn in H; try discriminate; inversion H; subst; reflexivity.
Qed.

Lemma emu_lock_read_raw_bytes : keeps read_lock read_raw_bytes.
Proof.
  unfold read_raw_bytes. keeps_step.
  - apply emu_lock_with_lock. keeps_auto;
      auto using emu_lock_wait_until_ready, emu_lock_time_time,
        emu_lock_generate_fake_sample.
  - destruct a as [[b0 b1] b2]. keeps_auto.
Qed.

Lemma emu_lock_when_debug p : keeps read_lock (when_debug p).
Proof. unfold when_debug, print. keeps_auto. Qed.

Lemma emu_lock_read_long : keeps read_lock read_long.
Proof.
  unfold read_long. keeps_auto;
    auto using emu_lock_read_raw_bytes, emu_lock_when_debug.
Qed.

Lemma emu_lock_read_average t : keeps read_lock (read_average t).
Proof.
  unfold read_average, print. keeps_auto; auto using emu_lock_read_long.
Qed.

Lemma emu_lock_get_value t : keeps read_lock (get_value t).
Proof. unfold get_value. keeps_auto. apply emu_lock_read_average. Qed.

(** The simulated driver never leaves its read lock held either, also when
    an exception is raised while the lock is held.  Called while the lock is
    held, an acquisition never returns. *)
Theorem emu_lock_always_released :
  keeps read_lock read_raw_bytes /\
  keeps read_lock read_long /\
  (forall t, keeps read_lock (read_average t)) /\
  (forall g, keeps read_lock (set_gain g)) /\
  (forall t, keeps read_lock (get_value t)) /\
  (forall t, keeps read_lock (get_weight t)) /\
  (forall t, keeps read_lock (tare t)) /\
  keeps read_lock power_down /\
  keeps read_lock power_up /\
  keeps read_lock reset /\
  (forall s, read_lock s = true ->
     read_raw_bytes s = Blocked /\ read_long s = Blocked /\
     power_down s = Blocked).
Proof.
  repeat match goal with |- _ /\ _ => split end.
  - exact emu_lock_read_raw_bytes.
  - exact emu_lock_read_long.
  - exact emu_lock_read_average.
  - intros g. unfold set_gain. keeps_auto; apply emu_lock_read_raw_bytes.
  - exact emu_lock_get_value.
  - intros t. unfold get_weight. keeps_auto. apply emu_lock_get_value.
  - intros t. unfold tare, set_reference_unit, set_offset, print.
    keeps_auto; auto using emu_lock_read_average, emu_lock_when_debug.
  - unfold power_down. apply emu_lock_with_lock. keeps_auto.
  - unfold power_up, get_gain. keeps_auto;
      try apply emu_lock_read_raw_bytes.
    apply emu_lock_with_lock. keeps_auto.
  - unfold reset. keeps_auto. apply emu_lock_time_time.
  - intros s Hlock.
    assert (Hraw : read_raw_bytes s = Blocked).
    { unfold read_raw_bytes, bind, with_lock. now rewrite Hlock. }
    repeat match goal with |- _ /\ _ => split end.
    + exact Hraw.
    + unfold read_long, bind. now rewrite Hraw.
    + unfold power_down, with_lock. now rewrite Hlock.
Qed.

End EmuLock.

(** ** Bit order, gain selection and reset on the hardware driver *)

Lemma lsb_value_rev bits : lsb_value bits = msb_value (rev bits).
Proof.
  induction bits as [|b bits IH]; [reflexivity|].
  cbn [lsb_value rev]. rewrite msb_value_app, IH. cbn [msb_value].
  change (len [b]) with 1. change (len (@nil bool)) with 0.
  change (2 ^ 1) with 2. change (2 ^ 0) with 1. lia.
Qed.

(** [read_next_byte] clocks eight pulses and assembles the eight levels it
    samples into a byte of 0..255: most significant bit first when the bit
    format is ['MSB'], least significant bit first (the bit-reversed byte)
    for any other stored value; with fewer than eight levels left it never
    returns. *)
Theorem hw_read_next_byte_bit_order bits rest (s : Hw.HX711) :
  List.length bits = 8%nat ->
  Hw.dout_levels s = bits ++ rest ->
  exists v,
    Hw.read_next_byte s = Ok v (hw_clocked 8 rest s) /\
    0 <= v < 256 /\
    (Hw.bit_format s = "MSB"%string -> v = msb_value bits) /\
    (Hw.bit_format s <> "MSB"%string ->
     v = lsb_value bits /\ v = msb_value (rev bits)).
Proof.
  intros Hl Hd. exists (hw_byte_of (Hw.bit_format s) bits).
  split; [now apply hw_read_next_byte_exact|].
  split; [now apply hw_byte_of_range|].
  unfold hw_byte_of. split.
  - intros ->. reflexivity.
  - intros Hne. destruct (String.eqb_spec (Hw.bit_format s) "MSB");
      [contradiction|]. split; [reflexivity | apply lsb_value_rev].
Qed.

Lemma hw_read_next_byte_bit_order_witness :
  let bits := [true; true; false; false; false; false; false; true] in
  let s := Hw.with_bit_format "LSB" (hw_idle (bits ++ [false])) in
  List.length bits = 8%nat /\
  Hw.dout_levels s = bits ++ [false] /\
  Hw.bit_format s <> "MSB"%string /\
  Hw.read_next_byte s = Ok 131 (hw_clocked 8 [false] s).
Proof.
  intros bits s.
  assert (Hl : List.length bits = 8%nat) by reflexivity.
  assert (Hd : Hw.dout_levels s = bits ++ [false]) by reflexivity.
  assert (Hf : Hw.bit_format s <> "MSB"%string) by (intros H; discriminate H).
  split; [exact Hl|]. split; [exact Hd|]. split; [exact Hf|].
  destruct (hw_read_next_byte_bit_order bits [false] s Hl Hd)
    as (v & Hr & _ & _ & Hlsb).
  destruct (Hlsb Hf) as [Hv _]. rewrite Hv in Hr. exact Hr.
Defined.

(** [set_gain] clocks the acquisition it throws away with the code it has
    just stored: a call that returns has written one low level and then
    [24 + code] pulses, where [code] is the code now stored (1, 3 or 2 for
    128, 64 or 32, the previous code for any other argument), and has
    consumed at least one level of DOUT. *)
Theorem hw_set_gain_pulses g (s s' : Hw.HX711) :
  Hw.set_gain g s = Ok tt s' ->
  Hw.sck_levels s' =
    pulses (24 + Z.to_nat (Hw.gain s')) ++ false :: Hw.sck_levels s /\
  Hw.gain s' =
    (if g =? 128 then 1 else if g =? 64 then 3
     else if g =? 32 then 2 else Hw.gain s) /\
  (List.length (Hw.dout_levels s') < List.length (Hw.dout_levels s))%nat /\
  Hw.read_lock s' = false.
Proof.
  intros H. unfold Hw.set_gain in H.
  apply bind_ok_inv in H. destruct H as ([] & s1 & Hsel & H).
  apply bind_ok_inv in H. destruct H as ([] & s2 & Hout & H).
  apply bind_ok_inv in H. destruct H as (bytes & s3 & Hread & H).
  inversion H; subst s3. clear H.
  unfold Hw.gpio_output, modify in Hout. inversion Hout; subst s2. clear Hout.
  apply hw_read_raw_bytes_ok_inv in Hread.
  destruct Hread as (Hlock & b0 & b1 & b2 & rest & _ & _ & _ & _ & -> & Hl).
  cbn in Hl, Hlock. cbn.
  assert (Hs1 : Hw.sck_levels s1 = Hw.sck_levels s /\
                Hw.dout_levels s1 = Hw.dout_levels s /\
                Hw.gain s1 =
                  (if g =? 128 then 1 else if g =? 64 then 3
                   else if g =? 32 then 2 else Hw.gain s)).
  { destruct (g =? 128); [|destruct (g =? 64); [|destruct (g =? 32)]];
      inversion Hsel; subst; repeat split. }
  destruct Hs1 as (Hk & Hd & Hg). rewrite Hk, Hg. rewrite Hd in Hl.
  repeat split; try reflexivity; first [exact Hl | exact Hlock].
Qed.

Lemma hw_set_gain_pulses_witness :
  exists s',
    Hw.set_gain 64 (hw_idle (conversion 3 0)) = Ok tt s' /\
    Hw.sck_levels s' = pulses 27 ++ [false] /\ Hw.gain s' = 3.
Proof.
  destruct (Hw.set_gain 64 (hw_idle (conversion 3 0)))
    as [[] s' | e s' |] eqn:E.
  - exists s'. split; [reflexivity|].
    destruct (hw_set_gain_pulses 64 _ s' E) as (H1 & H2 & _).
    cbn in H2. rewrite H2 in H1. split; [exact H1 | exact H2].
  - vm_compute in E. discriminate E.
  - vm_compute in E. discriminate E.
Defined.

Lemma hw_reset_eq (s : Hw.HX711) :
  Hw.read_lock s = false ->
  Hw.reset s =
  (if Hw.gain s =? 1 then ret tt else (Hw.read_raw_bytes ;; ret tt)%py)
    (Hw.with_sck_levels (false :: true :: false :: Hw.sck_levels s) s).
Proof.
  intros Hlock. destruct s as [p d l g r rb o ob lv dbg bf bitf dl sl out].
  cbn in Hlock. subst l.
  unfold Hw.reset, Hw.power_down, Hw.power_up, Hw.get_gain, Hw.lock_acquire,
    Hw.lock_release, Hw.gpio_output, modify, gets, bind, ret.
  cbn [Hw.read_lock Hw.gain Hw.sck_levels Hw.with_read_lock
       Hw.with_sck_levels Hw.pd_sck Hw.dout Hw.reference_unit
       Hw.reference_unit_b Hw.offset Hw.offset_b Hw.last_val
       Hw.debug_printing Hw.byte_format Hw.bit_format Hw.dout_levels
       Hw.stdout].
  destruct (g =? 1); [reflexivity|].
  destruct (g =? 3); [reflexivity|].
  destruct (g =? 2); reflexivity.
Qed.

(** [reset] with the lock free drives the clock low, high, low.  At gain 128
    (code 1) it returns at once, without sampling DOUT.  At any other code
    it then throws one acquisition away: it returns when the chip answers,
    having sent [24 + code] more pulses, taken at least one level of DOUT
    and kept the settings, and never returns when the chip does not
    answer. *)
Theorem hw_reset_outcome (s : Hw.HX711) :
  Hw.read_lock s = false ->
  (Hw.gain s = 1 ->
   Hw.reset s =
   Ok tt (Hw.with_sck_levels (false :: true :: false :: Hw.sck_levels s) s)) /\
  (Hw.gain s <> 1 -> Hw.conversion_ready (Hw.gain s) s = true ->
   exists s',
     Hw.reset s = Ok tt s' /\
     Hw.sck_levels s' =
       pulses (24 + Z.to_nat (Hw.gain s)) ++
       false :: true :: false :: Hw.sck_levels s /\
     (List.length (Hw.dout_levels s') < List.length (Hw.dout_levels s))%nat /\
     Hw.settings s' = Hw.settings s /\ Hw.read_lock s' = false) /\
  (Hw.gain s <> 1 -> Hw.conversion_ready (Hw.gain s) s = false ->
   Hw.reset s = Blocked).
Proof.
  intros Hlock. rewrite (hw_reset_eq s Hlock).
  set (s0 := Hw.with_sck_levels (false :: true :: false :: Hw.sck_levels s) s).
  assert (Hready : Hw.conversion_ready (Hw.gain s0) s0 =
                   Hw.conversion_ready (Hw.gain s) s) by reflexivity.
  split; [|split].
  - intros ->. reflexivity.
  - intros Hg Hr. apply Z.eqb_neq in Hg. rewrite Hg.
    rewrite <- Hready in Hr. unfold bind.
    destruct (Hw.read_raw_bytes s0) as [bytes s' | e s' |] eqn:E.
    + exists s'. split; [reflexivity|].
      assert (Hk := hw_keeps_read_raw_bytes s0 s').
      rewrite E in Hk. specialize (Hk eq_refl).
      apply hw_read_raw_bytes_ok_inv in E.
      destruct E as (_ & b0 & b1 & b2 & rest & _ & _ & _ & _ & Hs' & Hl).
      split; [rewrite Hs'; reflexivity|].
      split; [rewrite Hs'; exact Hl|]. split; [exact Hk|].
      rewrite Hs'. exact Hlock.
    + exfalso. revert E. rewrite hw_read_raw_bytes_outcome.
      destruct (Hw.read_lock s0); [discriminate|].
      destruct (Hw.after_ready (Hw.dout_levels s0)); [|discriminate].
      destruct (_ <=? _)%nat; discriminate.
    + exfalso. revert E Hr. rewrite hw_read_raw_bytes_outcome.
      unfold Hw.conversion_ready.
      destruct (Hw.read_lock s0); [discriminate|]. cbn [negb andb].
      destruct (Hw.after_ready (Hw.dout_levels s0)); [|discriminate].
      destruct (_ <=? _)%nat; discriminate.
  - intros Hg Hr. apply Z.eqb_neq in Hg. rewrite Hg.
    rewrite <- Hready in Hr. unfold bind.
    replace (Hw.read_raw_bytes s0) with (@Blocked Hw.HX711 (list Z));
      [reflexivity|].
    symmetry. revert Hr. rewrite hw_read_raw_bytes_outcome.
    unfold Hw.conversion_ready.
    destruct (Hw.read_lock s0); [reflexivity|]. cbn [negb andb].
    destruct (Hw.after_ready (Hw.dout_levels s0)); [|reflexivity].
    destruct (_ <=? _)%nat; [discriminate | reflexivity].
Qed.

Lemma hw_reset_outcome_witness :
  let s := Hw.with_gain 3 (hw_idle (conversion 3 5)) in
  Hw.read_lock s = false /\ Hw.gain s <> 1 /\
  Hw.conversion_ready (Hw.gain s) s = true /\
  exists s',
    Hw.reset s = Ok tt s' /\
    Hw.sck_levels s' = pulses 27 ++ [false; true; false].
Proof.
  intros s.
  assert (Hlock : Hw.read_lock s = false) by reflexivity.
  assert (Hg : Hw.gain s <> 1) by (intros H; discriminate H).
  assert (Hr : Hw.conversion_ready (Hw.gain s) s = true) by reflexivity.
  split; [exact Hlock|]. split; [exact Hg|]. split; [exact Hr|].
  destruct (hw_reset_outcome s Hlock) as (_ & Hsome & _).
  destruct (Hsome Hg Hr) as (s' & Hreset & Hsck & _).
  exists s'. split; [exact Hreset | exact Hsck].
Defined.

(** ** Reading formats *)

(** The hardware driver validates the formats through [.upper()] but stores
    them as given and compares them case-sensitively when reading.  So
    every accepted pair is stored verbatim; with a bit format other than the
    literal ['MSB'] (['msb'] included) [read_next_byte] assembles the byte
    least significant bit first, and with a byte format other than the
    literal ['LSB'] (['lsb'] included) [read_raw_bytes] returns the three
    bytes in the order they were clocked in. *)
Theorem hw_reading_format_case (x y : string) (s : Hw.HX711) :
  str_in (py_upper x) ["LSB"; "MSB"]%string = true ->
  str_in (py_upper y) ["LSB"; "MSB"]%string = true ->
  let s' := Hw.with_bit_format y (Hw.with_byte_format x s) in
  Hw.set_reading_format (PStr x) (PStr y) s = Ok tt s' /\
  (y <> "MSB"%string ->
   forall bits rest,
     List.length bits = 8%nat -> Hw.dout_levels s = bits ++ rest ->
     Hw.read_next_byte s' = Ok (lsb_value bits) (hw_clocked 8 rest s')) /\
  (x <> "LSB"%string ->
   forall bytes s'',
     Hw.read_raw_bytes s' = Ok bytes s'' ->
     exists r,
       Hw.after_ready (Hw.dout_levels s) = Some r /\
       bytes = [hw_byte_of y (firstn 8 r);
                hw_byte_of y (firstn 8 (skipn 8 r));
                hw_byte_of y (firstn 8 (skipn 16 r))]).
Proof.
  intros Hx Hy s'. split; [|split].
  - unfold Hw.set_reading_format. rewrite Hx. cbn [negb].
    unfold bind, modify. rewrite Hy. reflexivity.
  - intros Hne bits rest Hl Hd.
    assert (Hd' : Hw.dout_levels s' = bits ++ rest) by exact Hd.
    rewrite (hw_read_next_byte_exact bits rest s' Hl Hd').
    unfold hw_byte_of. change (Hw.bit_format s') with y.
    destruct (String.eqb_spec y "MSB"); [contradiction | reflexivity].
  - intros Hne bytes s'' H. rewrite hw_read_raw_bytes_outcome in H.
    change (Hw.dout_levels s') with (Hw.dout_levels s) in H.
    change (Hw.byte_format s') with x in H.
    change (Hw.bit_format s') with y in H.
    destruct (Hw.read_lock s'); [discriminate|].
    destruct (Hw.after_ready (Hw.dout_levels s)) as [r|]; [|discriminate].
    destruct (_ <=? _)%nat; [|discriminate].
    exists r. split; [reflexivity|].
    unfold hw_ordered in H.
    destruct (String.eqb_spec x "LSB"); [contradiction|].
    inversion H. reflexivity.
Qed.

Lemma hw_reading_format_case_witness :
  let bits := [true; false; false; false; false; false; false; false] in
  let s := hw_idle (bits ++ [false]) in
  exists s',
    Hw.set_reading_format (PStr "lsb") (PStr "msb") s = Ok tt s' /\
    Hw.read_next_byte s' = Ok 1 (hw_clocked 8 [false] s').
Proof.
  intros bits s.
  assert (Hx : str_in (py_upper "lsb") ["LSB"; "MSB"]%string = true)
    by reflexivity.
  assert (Hy : str_in (py_upper "msb") ["LSB"; "MSB"]%string = true)
    by reflexivity.
  assert (Hne : "msb"%string <> "MSB"%string) by (intros H; discriminate H).
  destruct (hw_reading_format_case "lsb" "msb" s Hx Hy) as (Hset & Hbit & _).
  eexists. split; [exact Hset|].
  exact (Hbit Hne bits [false] eq_refl eq_refl).
Defined.

Section EmuFormats.

Import Emu.

Lemma emu_formats_valid_settings (s s' : HX711) :
  settings s' = settings s -> emu_formats_valid s -> emu_formats_valid s'.
Proof.
  unfold settings, emu_formats_valid. intros H.
  assert (Hb : byte_format s' = byte_format s) by congruence.
  assert (Hi : bit_format s' = bit_format s) by congruence.
  now rewrite Hb, Hi.
Qed.

Lemma emu_formats_of_keeps {A} (m : M HX711 A) :
  keeps settings m -> preserves emu_formats_valid m.
Proof.
  intros Hk. apply (preserves_of_keeps _ settings); [exact Hk|].
  apply emu_formats_valid_settings.
Qed.

Lemma emu_formats_set_gain g : preserves emu_formats_valid (set_gain g).
Proof.
  unfold set_gain. preserves_auto;
    try (apply preserves_modify; intros s H; exact H);
    apply emu_formats_of_keeps, emu_keeps_read_raw_bytes.
Qed.

Lemma emu_formats_set_reference_unit r :
  preserves emu_formats_valid (set_reference_unit r).
Proof.
  unfold set_reference_unit, print. preserves_auto;
    apply preserves_modify; intros s H; exact H.
Qed.

Lemma emu_formats_get_value t : preserves emu_formats_valid (get_value t).
Proof.
  unfold get_value. preserves_auto.
  apply emu_formats_of_keeps, emu_keeps_read_average.
Qed.

Lemma emu_set_reading_format_returns a b (s : HX711) :
  exists s',
    set_reading_format a b s = Ok tt s' /\
    byte_format s' =
      (if pyarg_is a "LSB" then "LSB"
       else if pyarg_is a "MSB" then "MSB" else byte_format s)%string /\
    bit_format s' =
      (if pyarg_is b "LSB" then "LSB"
       else if pyarg_is b "MSB" then "MSB" else bit_format s)%string /\
    (gain s', calibration s') = (gain s, calibration s).
Proof.
  unfold set_reading_format, print, bind, modify.
  destruct (pyarg_is a "LSB"); [|destruct (pyarg_is a "MSB")];
    (destruct (pyarg_is b "LSB"); [|destruct (pyarg_is b "MSB")]);
    eexists; (split; [reflexivity|]); repeat split.
Qed.

(** The simulated driver's formats are always one of ['LSB'] and ['MSB']:
    the constructor sets them so, [set_reading_format] returns for any two
    arguments, updating each format only when its argument is exactly one
    of the two literals and leaving gain and calibration alone, and no
    other method changes them. *)
Theorem emu_reading_formats_stay_valid :
  (forall d p g c r w s,
     init d p g c r w = Ok tt s -> emu_formats_valid s) /\
  (forall a b s,
     exists s',
       set_reading_format a b s = Ok tt s' /\
       byte_format s' =
         (if pyarg_is a "LSB" then "LSB"
          else if pyarg_is a "MSB" then "MSB" else byte_format s)%string /\
       bit_format s' =
         (if pyarg_is b "LSB" then "LSB"
          else if pyarg_is b "MSB" then "MSB" else bit_format s)%string /\
       (gain s', calibration s') = (gain s, calibration s)) /\
  (forall a b, preserves emu_formats_valid (set_reading_format a b)) /\
  preserves emu_formats_valid read_raw_bytes /\
  preserves emu_formats_valid read_long /\
  (forall t, preserves emu_formats_valid (read_average t)) /\
  (forall t, preserves emu_formats_valid (get_value t)) /\
  (forall t, preserves emu_formats_valid (get_weight t)) /\
  (forall t, preserves emu_formats_valid (tare t)) /\
  (forall g, preserves emu_formats_valid (set_gain g)) /\
  (forall o, preserves emu_formats_valid (set_offset o)) /\
  (forall r, preserves emu_formats_valid (set_reference_unit r)) /\
  preserves emu_formats_valid power_down /\
  preserves emu_formats_valid power_up /\
  preserves emu_formats_valid reset.
Proof.
  repeat match goal with |- _ /\ _ => split end.
  - intros d p g c r w s H. unfold init in H.
    match type of H with ?m ?s0 = _ =>
      assert (Hp : preserves emu_formats_valid m) end.
    { preserves_auto;
        try (apply preserves_modify; intros s1 H1; exact H1);
        try apply emu_formats_set_gain;
        apply emu_formats_of_keeps, emu_keeps_time_time. }
    eapply Hp; [rewrite H; reflexivity|].
    split; right; reflexivity.
  - apply emu_set_reading_format_returns.
  - intros a b s s' H Hv.
    destruct (emu_set_reading_format_returns a b s) as (s1 & E & Hb & Hi & _).
    rewrite E in H. cbn in H. inversion H; subst s1.
    destruct Hv as [Hvb Hvi]. split.
    + rewrite Hb. destruct (pyarg_is a "LSB"); [now left|].
      destruct (pyarg_is a "MSB"); [now right | exact Hvb].
    + rewrite Hi. destruct (pyarg_is b "LSB"); [now left|].
      destruct (pyarg_is b "MSB"); [now right | exact Hvi].
  - apply emu_formats_of_keeps, emu_keeps_read_raw_bytes.
  - apply emu_formats_of_keeps, emu_keeps_read_long.
  - intros t. apply emu_formats_of_keeps, emu_keeps_read_average.
  - apply emu_formats_get_value.
  - intros t. unfold get_weight. preserves_auto.
    apply emu_formats_get_value.
  - intros t. unfold tare, set_offset. preserves_auto;
      try (apply preserves_modify; intros s1 H1; exact H1);
      try apply emu_formats_set_reference_unit;
      apply emu_formats_of_keeps;
      auto using emu_keeps_read_average, emu_keeps_when_debug.
  - apply emu_formats_set_gain.
  - intros o. apply preserves_modify. intros s H. exact H.
  - apply emu_formats_set_reference_unit.
  - apply emu_formats_of_keeps, emu_keeps_with_lock, keeps_ret.
  - unfold power_up, get_gain. preserves_auto;
      apply emu_formats_of_keeps;
      auto using emu_keeps_read_raw_bytes, emu_keeps_with_lock, keeps_ret.
  - unfold reset. preserves_auto;
      try (apply preserves_modify; intros s1 H1; exact H1).
    apply emu_formats_of_keeps, emu_keeps_time_time.
Qed.

End EmuFormats.

(** ** Taring on the simulated driver *)

Section EmuConfiguration.

Import Emu.

Lemma emu_cfg_time_time : keeps emu_configuration time_time.
Proof.
  intros s s' H. unfold time_time in H.
  destruct (clock s); cbn in H; [discriminate|].
  inversion H; subst. reflexivity.
Qed.

Lemma emu_cfg_random_draw : keeps emu_configuration random_draw.
Proof.
  intros s s' H. unfold random_draw in H.
  destruct (random_draws s); cbn in H; [discriminate|].
  inversion H; subst. reflexivity.
Qed.

Lemma emu_cfg_with_lock {A} (body : M HX711 A) :
  keeps emu_configuration body -> keeps emu_configuration (with_lock body).
Proof.
  intros Hb s s' H. unfold with_lock in H.
  destruct (read_lock s); [discriminate|].
  destruct (body (with_read_lock true s)) as [a s1 | e s1 |] eqn:E;
    cbn in H; try discriminate; inversion H; subst;
    change (emu_configuration s1 =
            emu_configuration (with_read_lock true s));
    apply Hb; now rewrite E.
Qed.

Lemma emu_cfg_poll_ready n : keeps emu_configuration (poll_ready n).
Proof.
  induction n as [|n IH]; cbn.
  - intros s s' H. discriminate.
  - unfold is_ready. keeps_auto. apply emu_cfg_time_time.
Qed.

Lemma emu_cfg_read_raw_bytes : keeps emu_configuration read_raw_bytes.
Proof.
  unfold read_raw_bytes. keeps_step.
  - apply emu_cfg_with_lock. unfold generate_fake_sample, print.
    keeps_auto; auto using emu_cfg_time_time, emu_cfg_random_draw.
    intros s s' H. eapply emu_cfg_poll_ready, H.
  - destruct a as [[b0 b1] b2]. keeps_auto.
Qed.

Lemma emu_cfg_read_long : keeps emu_configuration read_long.
Proof.
  unfold read_long, when_debug, print. keeps_auto;
    auto using emu_cfg_read_raw_bytes.
Qed.

Lemma emu_cfg_read_average t : keeps emu_configuration (read_average t).
Proof.
  unfold read_average, print. keeps_auto; auto using emu_cfg_read_long.
Qed.

Lemma emu_cfg_set_gain g : keeps emu_configuration (set_gain g).
Proof.
  unfold set_gain. keeps_auto; auto using emu_cfg_read_raw_bytes.
Qed.

Lemma emu_cfg_set_reference_unit r :
  keeps emu_configuration (set_reference_unit r).
Proof. unfold set_reference_unit, print. keeps_auto. Qed.

Lemma emu_cfg_init d p g c r w (s : HX711) :
  init d p g c r w = Ok tt s -> emu_configuration s = (false, 80%Q, false).
Proof.
  intros H. unfold init in H.
  match type of H with ?m ?s0 = _ =>
    assert (Hk : keeps emu_configuration m);
    [| specialize (Hk s0 s); rewrite H in Hk; exact (Hk eq_refl)]
  end.
  keeps_auto; auto using emu_cfg_time_time, emu_cfg_set_gain.
Qed.

Lemma emu_tare_skipped t (s : HX711) :
  simulate_tare s = false -> tare t s = Ok 0%Q s.
Proof.
  intros H. unfold tare, bind, gets. rewrite H. reflexivity.
Qed.

(** Only the constructor writes [simulate_tare], [sample_rate_hz] and
    [debug_printing], and it leaves [simulate_tare] false: on a driver as
    constructed, and after any further method call, [tare] returns 0 at once,
    taking no sample and changing nothing.  When [simulate_tare] has been
    switched on, a [tare] that returns has stored the value it returns as
    offset, that value being [read_average] taken at reference unit 1, and
    has restored the reference unit unless it was 0, in which case the
    unit is left at 1. *)
Theorem emu_tare_outcome :
  (forall d p g c r w s t,
     init d p g c r w = Ok tt s -> tare t s = Ok 0%Q s) /\
  (forall t s, simulate_tare s = false -> tare t s = Ok 0%Q s) /\
  (forall t, keeps emu_configuration (read_average t)) /\
  (forall t, keeps emu_configuration (get_value t)) /\
  (forall t, keeps emu_configuration (get_weight t)) /\
  (forall t, keeps emu_configuration (tare t)) /\
  (forall g, keeps emu_configuration (set_gain g)) /\
  (forall o, keeps emu_configuration (set_offset o)) /\
  (forall r, keeps emu_configuration (set_reference_unit r)) /\
  (forall a b, keeps emu_configuration (set_reading_format a b)) /\
  keeps emu_configuration power_down /\
  keeps emu_configuration power_up /\
  keeps emu_configuration reset /\
  (forall t s v s',
     simulate_tare s = true -> tare t s = Ok v s' ->
     offset s' = v /\
     (exists s1, read_average t (with_reference_unit 1 s) = Ok v s1) /\
     reference_unit s' =
       (if Qeq_bool (reference_unit s) 0 then 1%Q else reference_unit s) /\
     gain s' = gain s /\
     (byte_format s', bit_format s') = (byte_format s, bit_format s)).
Proof.
  repeat match goal with |- _ /\ _ => split end.
  - intros d p g c r w s t H. apply emu_tare_skipped.
    apply emu_cfg_init in H. unfold emu_configuration in H. congruence.
  - intros t s. apply emu_tare_skipped.
  - apply emu_cfg_read_average.
  - intros t. unfold get_value. keeps_auto. apply emu_cfg_read_average.
  - intros t. unfold get_weight, get_value. keeps_auto.
    apply emu_cfg_read_average.
  - intros t. unfold tare, set_offset, when_debug, print. keeps_auto;
      auto using emu_cfg_set_reference_unit, emu_cfg_read_average.
  - apply emu_cfg_set_gain.
  - intros o. unfold set_offset. keeps_auto.
  - apply emu_cfg_set_reference_unit.
  - intros a b. unfold set_reading_format, print. keeps_auto.
  - apply emu_cfg_with_lock. keeps_auto.
  - unfold power_up, get_gain. keeps_auto;
      auto using emu_cfg_read_raw_bytes.
    all: apply emu_cfg_with_lock; keeps_auto.
  - unfold reset. keeps_auto. apply emu_cfg_time_time.
  - intros t s v s' Hsim H. unfold tare in H.
    apply bind_ok_inv in H. destruct H as (sim & s0 & Hg & H).
    unfold gets in Hg. inversion Hg; subst sim s0. clear Hg.
    rewrite Hsim in H. cbn [negb] in H.
    apply bind_ok_inv in H. destruct H as (backup & s0 & Hg & H).
    unfold gets in Hg. inversion Hg; subst backup s0. clear Hg.
    apply bind_ok_inv in H. destruct H as ([] & s1 & Hone & H).
    assert (Hs1 : s1 = with_reference_unit 1 s).
    { unfold set_reference_unit in Hone.
      change (Qeq_bool 1 0) with false in Hone.
      unfold modify in Hone. now inversion Hone. }
    subst s1. clear Hone.
    apply bind_ok_inv in H. destruct H as (value & s2 & Havg & H).
    apply bind_ok_inv in H. destruct H as ([] & s3 & Hdbg & H).
    apply bind_ok_inv in H. destruct H as ([] & s4 & Hoff & H).
    apply bind_ok_inv in H. destruct H as ([] & s5 & Hback & H).
    inversion H; subst v s5. clear H.
    assert (K2 := emu_keeps_read_average t (with_reference_unit 1 s) s2).
    rewrite Havg in K2. specialize (K2 eq_refl).
    assert (K3 := emu_keeps_when_debug (PrTare "" value) s2 s3).
    rewrite Hdbg in K3. specialize (K3 eq_refl).
    unfold set_offset, modify in Hoff. inversion Hoff; subst s4. clear Hoff.
    unfold settings, calibration in K2, K3. cbn in K2.
    unfold set_reference_unit in Hback.
    destruct (Qeq_bool (reference_unit s) 0) eqn:Hz.
    + unfold print, modify in Hback. inversion Hback; subst s'.
      cbn. repeat split; try congruence.
      exists s2. exact Havg.
    + unfold modify in Hback. inversion Hback; subst s'.
      cbn. repeat split; try congruence.
      exists s2. exact Havg.
Qed.

Lemma emu_tare_outcome_witness :
  let s := emu_idle [5; 5; 5] in
  Emu.simulate_tare s = false /\ Emu.tare 15 s = Ok 0%Q s.
Proof.
  intros s.
  assert (H : Emu.simulate_tare s = false) by reflexivity.
  split; [exact H|].
  destruct emu_tare_outcome as (_ & Hskip & _).
  exact (Hskip 15 s H).
Defined.

End EmuConfiguration.

(** ** The aggregates do not depend on the order of arrival *)

(** Two runs of the hardware driver that acquire the same samples in a
    different order get the same result from [read_median] and the same
    result from [read_average], for every sample count of 2 or more. *)
Theorem hw_aggregates_ignore_order times (s1 s2 : Hw.HX711) vs1 vs2 s1' s2' :
  2 <= times ->
  acquire Hw.read_long (Z.to_nat times) s1 = Ok vs1 s1' ->
  acquire Hw.read_long (Z.to_nat times) s2 = Ok vs2 s2' ->
  Permutation vs1 vs2 ->
  exists m a,
    Hw.read_median times s1 = Ok m s1' /\
    Hw.read_median times s2 = Ok m s2' /\
    Hw.read_average times s1 = Ok a s1' /\
    Hw.read_average times s2 = Ok a s2'.
Proof.
  intros Ht E1 E2 Hp.
  destruct (aggregates_permutation vs1 vs2 Hp) as (Hm & _ & Htm).
  assert (M1 : Hw.read_median times s1 = Ok (median vs1) s1')
    by (rewrite hw_read_median_eq, E1; [reflexivity | exact Ht]).
  assert (M2 : Hw.read_median times s2 = Ok (median vs1) s2')
    by (rewrite hw_read_median_eq, E2, Hm; [reflexivity | exact Ht]).
  exists (median vs1).
  destruct (Z.ltb_spec times 5) as [Hs | Hl].
  - exists (median vs1).
    rewrite !hw_read_average_eq_small by lia. now repeat split.
  - exists (trimmed_mean vs1).
    rewrite !hw_read_average_eq_large by lia. rewrite E1, E2, Htm.
    now repeat split.
Qed.

Lemma hw_aggregates_ignore_order_witness :
  let s1 := hw_idle (conversions 1 [5; 1; 9; 7; 3]) in
  let s2 := hw_idle (conversions 1 [3; 7; 9; 1; 5]) in
  2 <= 5 /\
  Permutation [5; 1; 9; 7; 3] [3; 7; 9; 1; 5] /\
  exists m a s1' s2',
    Hw.read_median 5 s1 = Ok m s1' /\ Hw.read_median 5 s2 = Ok m s2' /\
    Hw.read_average 5 s1 = Ok a s1' /\ Hw.read_average 5 s2 = Ok a s2'.
Proof.
  intros s1 s2.
  assert (Ht : 2 <= 5) by lia.
  assert (Hp : Permutation [5; 1; 9; 7; 3] [3; 7; 9; 1; 5])
    by apply (Permutation_rev [5; 1; 9; 7; 3]).
  split; [exact Ht|]. split; [exact Hp|].
  destruct (acquire Hw.read_long (Z.to_nat 5) s1) as [vs1 s1' | e s1' |] eqn:E1;
    [| vm_compute in E1; discriminate E1 | vm_compute in E1; discriminate E1].
  destruct (acquire Hw.read_long (Z.to_nat 5) s2) as [vs2 s2' | e s2' |] eqn:E2;
    [| vm_compute in E2; discriminate E2 | vm_compute in E2; discriminate E2].
  assert (H1 : vs1 = [5; 1; 9; 7; 3]) by (vm_compute in E1; now inversion E1).
  assert (H2 : vs2 = [3; 7; 9; 1; 5]) by (vm_compute in E2; now inversion E2).
  subst vs1 vs2.
  destruct (hw_aggregates_ignore_order 5 s1 s2 _ _ s1' s2' Ht E1 E2 Hp)
    as (m & a & R).
  exists m, a, s1', s2'. exact R.
Defined.
